(** * Hybrid encryption backend: request pipeline

    A shallow embedding of the Express router of [routes/encryption.js]
    and of the Mongoose schema of [models/EncryptedImage.js].

    The handlers are asynchronous JavaScript functions that stage uploads,
    start Python child processes, read the clock, talk to a document store
    and answer over HTTP.  They are modelled in a state-and-exception monad
    over an explicit [State] (files on disk, stored documents, the trace of
    effects) and a [World] that fixes what the environment answers: what
    each child process prints, what each clock reading is, whether the
    store accepts an operation, whether a transfer succeeds.  Nothing is
    assumed about the [World]; every theorem quantifies over it. *)

From Stdlib Require Import String Ascii List ZArith NArith Bool Lia.
From Stdlib Require Import DecimalString DecimalN Permutation.
Import ListNotations.
Local Open Scope string_scope.
Local Open Scope Z_scope.

(* ===================================================================== *)
(** * JavaScript values *)
(* ===================================================================== *)

(** Values that flow through the handlers: the payloads parsed from the
    child processes, object literals, response bodies.  Numbers that reach
    the handlers are clock readings, byte counts and metric values that are
    only tested for zero and passed on; they are carried as integers. *)
#[warnings="-register-all"]
Inductive jsval : Type :=
| JUndefined
| JNull
| JBool (b : bool)
| JNum (z : Z)
| JStr (s : string)
| JArr (items : list jsval)
| JObj (fields : list (string * jsval)).

(** ToBoolean. *)
Definition truthy (v : jsval) : bool :=
  match v with
  | JUndefined | JNull => false
  | JBool b => b
  | JNum z => negb (z =? 0)
  | JStr s => negb (String.eqb s EmptyString)
  | JArr _ | JObj _ => true
  end.

(** [a || b] *)
Definition js_or (a b : jsval) : jsval := if truthy a then a else b.

Fixpoint lookup (k : string) (fields : list (string * jsval)) : jsval :=
  match fields with
  | [] => JUndefined
  | (k', v) :: rest => if String.eqb k k' then v else lookup k rest
  end.

(** Decimal rendering of a non-negative integer, as Number::toString gives
    for the integers met here. *)
Definition dec (n : N) : string := NilEmpty.string_of_uint (N.to_uint n).

Definition dec_Z (z : Z) : string :=
  if z <? 0 then "-" ++ dec (Z.abs_N z) else dec (Z.to_N z).

(** ToString, as applied by template literals. *)
Fixpoint js_toString (v : jsval) : string :=
  match v with
  | JUndefined => "undefined"
  | JNull => "null"
  | JBool true => "true"
  | JBool false => "false"
  | JNum z => dec_Z z
  | JStr s => s
  | JArr items =>
      String.concat ","
        (map (fun x => match x with
                       | JUndefined | JNull => EmptyString
                       | _ => js_toString x
                       end) items)
  | JObj _ => "[object Object]"
  end.

(** String.prototype.trim over the characters of the model. *)
Definition is_ws (c : ascii) : bool :=
  let n := nat_of_ascii c in
  ((9 <=? n) && (n <=? 13) || (n =? 32) || (n =? 160))%nat.

Fixpoint trimStart (s : string) : string :=
  match s with
  | EmptyString => EmptyString
  | String c rest => if is_ws c then trimStart rest else s
  end.

Fixpoint trimEnd (s : string) : string :=
  match s with
  | EmptyString => EmptyString
  | String c rest =>
      match trimEnd rest with
      | EmptyString => if is_ws c then EmptyString else String c EmptyString
      | r => String c r
      end
  end.

Definition trim (s : string) : string := trimEnd (trimStart s).

Definition dquote : string := String (ascii_of_nat 34) EmptyString.

(* ===================================================================== *)
(** * The document model: models/EncryptedImage.js *)
(* ===================================================================== *)

Inductive SchemaType := SString | SNumber | SDate.

Inductive Default :=
| NoDefault
| DefaultValue (v : jsval)
| DefaultNow.                       (* default: Date.now *)

Record SchemaPath := mkPath {
  sp_path : list string;            (* nested keys, outermost first *)
  sp_type : SchemaType;
  sp_required : bool;
  sp_trim : bool;
  sp_min : option Z;
  sp_enum : list string;            (* [] when the path has no enum *)
  sp_default : Default
}.

Definition chaoticMap_enum : list string :=
  ["logistic"; "arnold"; "tent"; "henon"].
Definition encryptionType_enum : list string := ["basic"; "steganography"].
Definition status_enum : list string :=
  ["pending"; "processing"; "completed"; "failed"].

Definition metric_path (p : list string) : SchemaPath :=
  mkPath ("metrics" :: p) SNumber false false None [] (DefaultValue (JNum 0)).

Definition encryptedImageSchema : list SchemaPath :=
  [ mkPath ["originalName"] SString true true None [] NoDefault;
    mkPath ["encryptedName"] SString true true None [] NoDefault;
    mkPath ["encryptedPath"] SString true false None [] NoDefault;
    mkPath ["originalPath"] SString false false None [] (DefaultValue JNull);
    mkPath ["size"] SNumber true false (Some 0) [] NoDefault;
    mkPath ["mimeType"] SString true false None [] NoDefault;
    mkPath ["chaoticMap"] SString false false None chaoticMap_enum
           (DefaultValue (JStr "logistic"));
    mkPath ["encryptionType"] SString false false None encryptionType_enum
           (DefaultValue (JStr "basic"));
    mkPath ["uploadDate"] SDate false false None [] DefaultNow;
    metric_path ["encryptionTime"];
    metric_path ["entropy"; "original"];
    metric_path ["entropy"; "encrypted"];
    metric_path ["npcr"];
    metric_path ["uaci"];
    mkPath ["status"] SString false false None status_enum
           (DefaultValue (JStr "completed")) ].

(** The schema option [timestamps: true]. *)
Definition schema_timestamps : bool := true.

(** A stored document: its paths in dotted form, with their values. *)
Definition Doc := list (string * jsval).

Definition doc_get (d : Doc) (path : string) : jsval := lookup path d.

Definition dotted (p : list string) : string := String.concat "." p.

(** Reading a nested key of an object literal; anything that is not an
    object has no keys. *)
Fixpoint get_path (v : jsval) (p : list string) : jsval :=
  match p with
  | [] => v
  | k :: rest =>
      match v with
      | JObj fields => get_path (lookup k fields) rest
      | _ => JUndefined
      end
  end.

Definition has_type (t : SchemaType) (v : jsval) : bool :=
  match t, v with
  | SString, JStr _ => true
  | SNumber, JNum _ => true
  | SDate, JNum _ => true
  | _, _ => false
  end.

(* ===================================================================== *)
(** * The world outside the router *)
(* ===================================================================== *)

(** What [exec] hands to its callback once the child is done, and the files
    the child left on disk. *)
Record ChildOutcome := mkChild {
  exec_error : option string;       (* error.message; None when error is null *)
  exec_stdout : string;
  exec_stderr : string;
  exec_files : list string
}.

Record ExecOptions := mkOptions {
  timeout : Z;                      (* milliseconds *)
  maxBuffer : Z;                    (* bytes *)
  encoding : string
}.

Inductive StoreOp :=
| OpSave (d : Doc)
| OpFind
| OpFindById (id : string)
| OpFindByIdAndDelete (id : string).

Record World := mkWorld {
  env_RENDER : bool;                (* process.env.RENDER is set *)
  env_NODE_ENV : option string;
  os_platform : string;
  dirname : string;                 (* __dirname *)
  path_join : list string -> string;
  path_basename : string -> string;
  path_basename_ext : string -> string -> string;
  path_extname : string -> string;
  JSON_parse : string -> option jsval;
  clock : nat -> nat -> N;          (* the k-th reading of Date.now(), taken
                                       when n child processes have run *)
  random_1e9 : nat -> N;            (* the k-th Math.round(Math.random() * 1E9) *)
  child : nat -> ChildOutcome;      (* the k-th child process *)
  store : nat -> StoreOp -> option string;  (* why the k-th store operation is rejected *)
  objectid : nat -> string;         (* the k-th generated _id *)
  transfer : nat -> option string;  (* why the k-th download breaks off *)
  mongoose_cast : SchemaType -> jsval -> jsval;
  (* the TypeError of res.download for a path that is not a string *)
  download_path_error : jsval -> jsval -> string;
  (* the TypeError of res.download, if any, for a file name that is neither
     a string nor absent *)
  download_name_error : jsval -> option string
}.

Inductive Event :=
| EvExec (command : string) (options : ExecOptions)
| EvMkdir (dir : string)
| EvStage (path : string)
| EvUnlink (path : string)
| EvSave (d : Doc)
| EvRemove (id : string)
| EvRespond (status : Z) (body : jsval)
| EvDownload (path : jsval) (filename : jsval).

Record State := mkState {
  fs : list string;                 (* the paths that exist on disk *)
  db : list Doc;                    (* the documents in the store *)
  trace : list Event;               (* effects so far, oldest first *)
  ticks : nat;                      (* clock readings taken *)
  draws : nat;                      (* random numbers drawn *)
  spawned : nat;                    (* child processes started *)
  dbops : nat;                      (* store operations issued *)
  ids : nat;                        (* object ids generated *)
  sends : nat                       (* downloads started *)
}.

Definition set_fs (st : State) (v : list string) : State :=
  mkState v (db st) (trace st) (ticks st) (draws st) (spawned st) (dbops st)
          (ids st) (sends st).
Definition set_db (st : State) (v : list Doc) : State :=
  mkState (fs st) v (trace st) (ticks st) (draws st) (spawned st) (dbops st)
          (ids st) (sends st).
Definition set_trace (st : State) (v : list Event) : State :=
  mkState (fs st) (db st) v (ticks st) (draws st) (spawned st) (dbops st)
          (ids st) (sends st).
Definition set_ticks (st : State) (v : nat) : State :=
  mkState (fs st) (db st) (trace st) v (draws st) (spawned st) (dbops st)
          (ids st) (sends st).
Definition set_draws (st : State) (v : nat) : State :=
  mkState (fs st) (db st) (trace st) (ticks st) v (spawned st) (dbops st)
          (ids st) (sends st).
Definition set_spawned (st : State) (v : nat) : State :=
  mkState (fs st) (db st) (trace st) (ticks st) (draws st) v (dbops st)
          (ids st) (sends st).
Definition set_dbops (st : State) (v : nat) : State :=
  mkState (fs st) (db st) (trace st) (ticks st) (draws st) (spawned st) v
          (ids st) (sends st).
Definition set_ids (st : State) (v : nat) : State :=
  mkState (fs st) (db st) (trace st) (ticks st) (draws st) (spawned st)
          (dbops st) v (sends st).
Definition set_sends (st : State) (v : nat) : State :=
  mkState (fs st) (db st) (trace st) (ticks st) (draws st) (spawned st)
          (dbops st) (ids st) v.

Definition initial : State := mkState [] [] [] 0 0 0 0 0 0.

(* ===================================================================== *)
(** * Computations: state, and exceptions that keep the state *)
(* ===================================================================== *)

(** A statement either completes with a value or throws an [Error]; the
    message of the error is all the handlers ever read.  Effects done
    before a throw stay done. *)
Inductive Outcome (A : Type) : Type :=
| Return (a : A)
| Throw (message : string).
Arguments Return {A} a.
Arguments Throw {A} message.

Definition M (A : Type) : Type := State -> Outcome A * State.

Definition ret {A} (a : A) : M A := fun st => (Return a, st).

Definition throw {A} (message : string) : M A := fun st => (Throw message, st).

Definition bind {A B} (m : M A) (k : A -> M B) : M B :=
  fun st =>
    match m st with
    | (Return a, st') => k a st'
    | (Throw e, st') => (Throw e, st')
    end.

(** [try { body } catch (error) { handler(error.message) }] *)
Definition try_catch {A} (body : M A) (handler : string -> M A) : M A :=
  fun st =>
    match body st with
    | (Return a, st') => (Return a, st')
    | (Throw e, st') => handler e st'
    end.

Declare Scope js_scope.
Delimit Scope js_scope with js.
Notation "x <- m ;; k" := (bind m (fun x => k))
  (at level 61, m at next level, right associativity) : js_scope.
Notation "m ;; k" := (bind m (fun _ => k))
  (at level 61, right associativity) : js_scope.
Local Open Scope js_scope.

(** The state a computation leaves, and the value it gives. *)
Definition exec_state {A} (m : M A) (st : State) : State := snd (m st).
Definition outcome {A} (m : M A) (st : State) : Outcome A := fst (m st).

Definition emit (e : Event) : M unit :=
  fun st => (Return tt, set_trace st (trace st ++ [e])).

(** Property access [v.k]; reading a property of undefined or null throws
    a TypeError. *)
Definition property (v : jsval) (k : string) : Outcome jsval :=
  match v with
  | JUndefined =>
      Throw ("Cannot read properties of undefined (reading '" ++ k ++ "')")
  | JNull =>
      Throw ("Cannot read properties of null (reading '" ++ k ++ "')")
  | JObj fields => Return (lookup k fields)
  | _ => Return JUndefined
  end.

Definition get (v : jsval) (k : string) : M jsval :=
  fun st => (property v k, st).

Definition mem (p : string) (l : list string) : bool :=
  existsb (String.eqb p) l.

Definition remove_path (p : string) (l : list string) : list string :=
  filter (fun q => negb (String.eqb p q)) l.

(** fs.existsSync: false for anything that is not an existing path. *)
Definition on_disk (p : jsval) (l : list string) : bool :=
  match p with
  | JStr s => mem s l
  | _ => false
  end.

Definition fs_existsSync (p : jsval) : M bool :=
  fun st => (Return (on_disk p (fs st)), st).

(** fs.unlinkSync: throws when the path is not a string or not on disk. *)
Definition fs_unlinkSync (p : jsval) : M unit :=
  fun st =>
    match p with
    | JStr s =>
        if mem s (fs st)
        then (Return tt,
              set_trace (set_fs st (remove_path s (fs st)))
                        (trace st ++ [EvUnlink s]))
        else (Throw ("ENOENT: no such file or directory, unlink '" ++ s ++ "'"),
              st)
    | _ => (Throw "The path argument must be of type string", st)
    end.

Definition fs_mkdirSync (dir : string) : M unit :=
  fun st =>
    (Return tt, set_trace (set_fs st (dir :: fs st)) (trace st ++ [EvMkdir dir])).

(** res.status(code).json(body) *)
Definition res_status_json (code : Z) (body : jsval) : M unit :=
  emit (EvRespond code body).

(** res.json(body) *)
Definition res_json (body : jsval) : M unit := res_status_json 200 body.

Section Router.

Variable w : World.

Definition Date_now : M N :=
  fun st => (Return (clock w (ticks st) (spawned st)), set_ticks st (S (ticks st))).

Definition Math_round_random_1e9 : M N :=
  fun st => (Return (random_1e9 w (draws st)), set_draws st (S (draws st))).

(** child_process.exec: the command runs in a child process; the callback
    gets what the world decides for that child. *)
Definition exec (command : string) (options : ExecOptions) : M ChildOutcome :=
  fun st =>
    let c := child w (spawned st) in
    (Return c,
     set_trace (set_spawned (set_fs st (fs st ++ exec_files c)) (S (spawned st)))
               (trace st ++ [EvExec command options])).

(** res.download(path, filename, callback): the callback gets the transfer
    error, if any. *)
Definition res_download (path filename : jsval) : M (option string) :=
  fun st =>
    (Return (transfer w (sends st)),
     set_trace (set_sends st (S (sends st)))
               (trace st ++ [EvDownload path filename])).

(* --------------------------------------------------------------------- *)
(** ** getPythonCommand, runPythonScript *)

Definition getPythonCommand : string :=
  if env_RENDER w then "python3"
  else if String.eqb (os_platform w) "win32" then "python" else "python3".

Definition PYTHON_CMD : string := getPythonCommand.

Definition exec_options : ExecOptions :=
  mkOptions 30000 (50 * 1024 * 1024) "utf-8".

(** The callback of [exec] inside runPythonScript: how the promise
    settles. *)
Definition settle (c : ChildOutcome) : Outcome jsval :=
  match exec_error c with
  | Some message =>
      Throw (if String.eqb (exec_stderr c) EmptyString
             then message else exec_stderr c)
  | None =>
      match JSON_parse w (trim (exec_stdout c)) with
      | Some result => Return result
      | None => Throw ("Failed to parse: " ++ exec_stdout c)
      end
  end.

Definition python_command (scriptPath : string) (args : list jsval) : string :=
  let argsString :=
    String.concat " " (map (fun arg => dquote ++ js_toString arg ++ dquote) args) in
  PYTHON_CMD ++ " " ++ dquote ++ scriptPath ++ dquote ++ " " ++ argsString.

Definition runPythonScript (scriptPath : string) (args : list jsval) : M jsval :=
  c <- exec (python_command scriptPath args) exec_options ;;
  match settle c with
  | Return result => ret result
  | Throw message => throw message
  end.

(* --------------------------------------------------------------------- *)
(** ** The EncryptedImage model *)

(** Mongoose casts a value to the type of its path and applies the
    setters of the path; what it makes of a value of another type is left
    to the world. *)
Definition cast_path (sp : SchemaPath) (v : jsval) : jsval :=
  let v1 := if has_type (sp_type sp) v then v
            else match v with
                 | JNull => JNull
                 | _ => mongoose_cast w (sp_type sp) v
                 end in
  if sp_trim sp
  then match v1 with JStr s => JStr (trim s) | _ => v1 end
  else v1.

(** The value a new document holds at a schema path: the value the object
    literal gives there, or the default of the path when it gives none. *)
Definition init_path (obj : jsval) (now : N) (sp : SchemaPath) : string * jsval :=
  (dotted (sp_path sp),
   match get_path obj (sp_path sp) with
   | JUndefined =>
       match sp_default sp with
       | NoDefault => JUndefined
       | DefaultValue d => d
       | DefaultNow => JNum (Z.of_N now)
       end
   | v => cast_path sp v
   end).

(** [new EncryptedImage(obj)].  The schema is strict (the default, which
    the schema options leave alone): keys of [obj] that are not paths of
    the schema do not reach the document. *)
Definition document (obj : jsval) (now : N) (id : string) : Doc :=
  ("_id", JStr id) :: map (init_path obj now) encryptedImageSchema.

Definition new_EncryptedImage (obj : jsval) : M Doc :=
  now <- Date_now ;;
  fun st =>
    (Return (document obj now (objectid w (ids st))), set_ids st (S (ids st))).

Definition store_op (op : StoreOp) : M unit :=
  fun st =>
    let st' := set_dbops st (S (dbops st)) in
    match store w (dbops st) op with
    | None => (Return tt, st')
    | Some message => (Throw message, st')
    end.

(** The schema option [timestamps: true] adds the two dates on save. *)
Definition timestamped (d : Doc) (now : N) : Doc :=
  if schema_timestamps
  then (d ++ [("createdAt", JNum (Z.of_N now));
              ("updatedAt", JNum (Z.of_N now))])%list
  else d.

(** [doc.save()]: validation and the write are the store's; the document
    is in the store only when the store accepts it. *)
Definition save (d : Doc) : M Doc :=
  now <- Date_now ;;
  let d' := timestamped d now in
  store_op (OpSave d') ;;
  fun st =>
    (Return d', set_trace (set_db st (db st ++ [d'])) (trace st ++ [EvSave d'])).

Definition is_str (v : jsval) (s : string) : bool :=
  match v with
  | JStr s' => String.eqb s' s
  | _ => false
  end.

Definition has_id (id : string) (d : Doc) : bool := is_str (doc_get d "_id") id.

Definition findById (id : string) : M (option Doc) :=
  store_op (OpFindById id) ;;
  fun st => (Return (find (has_id id) (db st)), st).

Definition findByIdAndDelete (id : string) : M (option Doc) :=
  store_op (OpFindByIdAndDelete id) ;;
  fun st =>
    match find (has_id id) (db st) with
    | None => (Return None, st)
    | Some d =>
        (Return (Some d),
         set_trace (set_db st (filter (fun d' => negb (has_id id d')) (db st)))
                   (trace st ++ [EvRemove id]))
    end.

Definition uploadDate_of (d : Doc) : Z :=
  match doc_get d "uploadDate" with
  | JNum z => z
  | _ => 0
  end.

Fixpoint insert_desc (d : Doc) (l : list Doc) : list Doc :=
  match l with
  | [] => [d]
  | d' :: rest =>
      if uploadDate_of d' <? uploadDate_of d
      then d :: l
      else d' :: insert_desc d rest
  end.

(** [find().sort({ uploadDate: -1 }).limit(100)] *)
Definition find_recent : M (list Doc) :=
  store_op OpFind ;;
  fun st => (Return (firstn 100 (fold_right insert_desc [] (db st))), st).

(* --------------------------------------------------------------------- *)
(** ** Staging of uploads: multer.diskStorage *)

(** A file part of a multipart request, and the file multer makes of it. *)
Record Part := mkPart {
  part_originalname : string;
  part_mimetype : string;
  part_size : Z
}.

Record File := mkFile {
  file_originalname : string;
  file_mimetype : string;
  file_size : Z;
  file_destination : string;
  file_filename : string;
  file_path : string
}.

Definition uploadDir : string :=
  if env_RENDER w
  then path_join w ["/tmp"; "uploads"; "original"]
  else path_join w [dirname w; "../uploads/original"].

Definition storage_destination : M string :=
  present <- fs_existsSync (JStr uploadDir) ;;
  (if negb present then fs_mkdirSync uploadDir else ret tt) ;;
  ret uploadDir.

Definition uniqueName (now random : N) (originalname : string) : string :=
  let uniqueSuffix := dec now ++ "-" ++ dec random in
  uniqueSuffix ++ "-" ++ originalname.

Definition storage_filename (p : Part) : M string :=
  now <- Date_now ;;
  random <- Math_round_random_1e9 ;;
  ret (uniqueName now random (part_originalname p)).

Definition limits_fileSize : Z := 50 * 1024 * 1024.

(** What the disk storage engine does with one accepted part: it asks the
    two callbacks and writes the part at the joined path.  A part that
    reaches the size limit is an error, and its partial file is removed. *)
Definition stage (p : Part) : M File :=
  destination <- storage_destination ;;
  filename <- storage_filename p ;;
  let path := path_join w [destination; filename] in
  if limits_fileSize <=? part_size p
  then throw "File too large"
  else
    (fun st => (Return tt, set_trace (set_fs st (path :: fs st))
                                     (trace st ++ [EvStage path]))) ;;
    ret (mkFile (part_originalname p) (part_mimetype p) (part_size p)
                destination filename path).

(* --------------------------------------------------------------------- *)
(** ** Requests *)

Record Request := mkRequest {
  body : list (string * string);          (* the text fields *)
  file : option File;                     (* req.file *)
  files : option (list (string * File));  (* req.files, one file per slot *)
  params_id : string                      (* req.params.id *)
}.

Fixpoint assoc {A} (k : string) (l : list (string * A)) : option A :=
  match l with
  | [] => None
  | (k', v) :: rest => if String.eqb k k' then Some v else assoc k rest
  end.

Definition opt_str (o : option string) : jsval :=
  match o with
  | Some s => JStr s
  | None => JUndefined
  end.

(** [!key || key.length < 8] *)
Definition key_too_short (key : option string) : bool :=
  match key with
  | None => true
  | Some k => String.eqb k EmptyString || (String.length k <? 8)%nat
  end.

(** [!key] *)
Definition key_missing (key : option string) : bool :=
  match key with
  | None => true
  | Some k => String.eqb k EmptyString
  end.

Definition or_default (o : option string) (d : string) : string :=
  match o with
  | Some s => s
  | None => d
  end.

Definition error_body (message : jsval) : jsval := JObj [("error", message)].

Definition server_error (message : string) : M unit :=
  res_status_json 500 (error_body (JStr message)).

(** The error handler of server.js, where an error handed to [next] ends:
    [res.status(500).json({ error: err.message })]. *)
Definition error_handler (message : string) : M unit :=
  res_status_json 500 (error_body (JStr message)).

(** res.download(path, filename) with no callback, as the two download
    routes call it.  Express refuses arguments of the wrong type with a
    TypeError, thrown to the caller, before it looks at the disk: a path
    that is not a string always, a file name that is neither a string nor
    absent as the world says.  The transfer of a file that is not there
    fails before anything is sent, and with no callback the error goes to
    [next], that is to the error handler of server.js.  A transfer that
    has begun is the answer to the request, however it ends. *)
Definition res_download_alone (path filename : jsval) : M unit :=
  match path with
  | JStr p =>
      match (match filename with
             | JStr _ | JNull | JUndefined => None
             | _ => download_name_error w filename
             end) with
      | Some message => throw message
      | None =>
          there <- fs_existsSync path ;;
          if there
          then _e <- res_download path filename ;; ret tt
          else error_handler ("ENOENT: no such file or directory, stat '"
                              ++ p ++ "'")
      end
  | _ => throw (download_path_error w path filename)
  end.

Definition wrong_key_hint : string :=
  "Make sure you are using the correct encryption key".

Definition default_entropy : jsval :=
  JObj [("original", JNum 0); ("encrypted", JNum 0)].

Definition metrics_object (encryptionTime : Z)
  (entropy NPCR UACI correlation PSNR MSE : jsval) : jsval :=
  JObj [("encryptionTime", JNum encryptionTime);
        ("entropy", entropy);
        ("NPCR", NPCR);
        ("UACI", UACI);
        ("correlation", correlation);
        ("PSNR", PSNR);
        ("MSE", MSE)].

Definition default_metrics (encryptionTime : Z) : jsval :=
  metrics_object encryptionTime default_entropy
                 (JNum 0) (JNum 0) (JNum 0) (JNum 0) (JNum 0).

(* --------------------------------------------------------------------- *)
(** ** POST /encrypt *)

Definition post_encrypt (req : Request) : M unit :=
  startTime <- Date_now ;;
  try_catch
    (let key := assoc "key" (body req) in
     let chaoticMap := or_default (assoc "chaoticMap" (body req)) "logistic" in
     match file req with
     | None => res_status_json 400 (error_body (JStr "No image file uploaded"))
     | Some req_file =>
       if key_too_short key
       then res_status_json 400
              (error_body (JStr "Key must be at least 8 characters"))
       else
         let imagePath := file_path req_file in
         let originalName := file_originalname req_file in
         let baseName :=
           path_basename_ext w originalName (path_extname w originalName) in
         timestamp <- Date_now ;;
         let encryptedName := baseName ++ "_encrypted_" ++ dec timestamp ++ ".bin" in
         let encryptionScript := path_join w [dirname w; "../python/encryption.py"] in
         let metricsScript := path_join w [dirname w; "../python/metrics_analyzer.py"] in
         (* Step 1 *)
         encryptResult <- runPythonScript encryptionScript
                            [JStr "encrypt"; JStr imagePath; opt_str key;
                             JStr chaoticMap] ;;
         success <- get encryptResult "success" ;;
         if negb (truthy success)
         then
           error <- get encryptResult "error" ;;
           res_status_json 500 (error_body (js_or error (JStr "Encryption failed")))
         else
           now <- Date_now ;;
           let encryptionTime := Z.of_N now - Z.of_N startTime in
           encryptedPath <- get encryptResult "encrypted_path" ;;
           (* Step 2 *)
           calculatedMetrics <-
             try_catch
               (metricsResult <- runPythonScript metricsScript
                                   [JStr "encryption"; JStr imagePath; encryptedPath] ;;
                ok <- get metricsResult "success" ;;
                if truthy ok
                then
                  entropy <- get metricsResult "entropy" ;;
                  npcr <- get metricsResult "npcr" ;;
                  uaci <- get metricsResult "uaci" ;;
                  correlation <- get metricsResult "correlation" ;;
                  ret (metrics_object encryptionTime
                         (js_or entropy default_entropy)
                         (js_or npcr (JNum 0))
                         (js_or uaci (JNum 0))
                         (js_or correlation (JNum 0))
                         (JNum 0) (JNum 0))
                else ret (default_metrics encryptionTime))
               (fun _ => ret (default_metrics encryptionTime)) ;;
           (* Step 3 *)
           newImage <- new_EncryptedImage
                         (JObj [("originalName", JStr originalName);
                                ("encryptedName", JStr encryptedName);
                                ("encryptedPath", encryptedPath);
                                ("originalPath", JStr imagePath);
                                ("size", JNum (file_size req_file));
                                ("mimeType", JStr (file_mimetype req_file));
                                ("chaoticMap", JStr chaoticMap);
                                ("encryptionType", JStr "basic");
                                ("status", JStr "completed");
                                ("metrics", calculatedMetrics)]) ;;
           saved <- save newImage ;;
           res_json (JObj [("success", JBool true);
                           ("message", JStr "Image encrypted successfully");
                           ("imageId", doc_get saved "_id");
                           ("encryptedName", JStr encryptedName);
                           ("encryptionTime", JNum encryptionTime);
                           ("metrics", calculatedMetrics)])
     end)
    server_error.

(* --------------------------------------------------------------------- *)
(** ** POST /decrypt and POST /decrypt-stego

    The two handlers differ in the script, the messages and the download
    name only. *)

(** The callback of res.download. *)
Definition cleanup_after_download (inputPath : string) (decryptedPath : jsval)
  : M unit :=
  try_catch
    (staged <- fs_existsSync (JStr inputPath) ;;
     (if staged then fs_unlinkSync (JStr inputPath) else ret tt) ;;
     produced <- fs_existsSync decryptedPath ;;
     (if produced then fs_unlinkSync decryptedPath else ret tt))
    (fun _ => ret tt).

Definition decrypt_with (script no_file failed not_found download_name : string)
  (req : Request) : M unit :=
  try_catch
    (let key := assoc "key" (body req) in
     match file req with
     | None => res_status_json 400 (error_body (JStr no_file))
     | Some req_file =>
       if key_missing key
       then res_status_json 400 (error_body (JStr "Decryption key required"))
       else
         let inputPath := file_path req_file in
         let pythonScript := path_join w [dirname w; script] in
         result <- runPythonScript pythonScript
                     [JStr "decrypt"; JStr inputPath; opt_str key] ;;
         success <- get result "success" ;;
         if negb (truthy success)
         then
           try_catch (fs_unlinkSync (JStr inputPath)) (fun _ => ret tt) ;;
           error <- get result "error" ;;
           res_status_json 500
             (JObj [("error", js_or error (JStr failed));
                    ("hint", JStr wrong_key_hint)])
         else
           decryptedPath <- get result "decrypted_path" ;;
           present <- fs_existsSync decryptedPath ;;
           if negb present
           then throw not_found
           else
             _downloadError <- res_download decryptedPath (JStr download_name) ;;
             cleanup_after_download inputPath decryptedPath
     end)
    server_error.

Definition post_decrypt : Request -> M unit :=
  decrypt_with "../python/encryption.py" "No file uploaded"
               "Decryption failed" "Decrypted file not found"
               "decrypted_image.png".

Definition post_decrypt_stego : Request -> M unit :=
  decrypt_with "../python/steganography.py" "No stego image uploaded"
               "Extraction failed" "Extracted file not found"
               "extracted_secret.png".

(* --------------------------------------------------------------------- *)
(** ** POST /encrypt-stego *)

(** path.basename of a value: a TypeError unless it is a string. *)
Definition basename_of (v : jsval) : M string :=
  match v with
  | JStr s => ret (path_basename w s)
  | _ => throw ("The " ++ dquote ++ "path" ++ dquote
                ++ " argument must be of type string")
  end.

Definition post_encrypt_stego (req : Request) : M unit :=
  startTime <- Date_now ;;
  try_catch
    (let key := assoc "key" (body req) in
     let chaoticMap := or_default (assoc "chaoticMap" (body req)) "logistic" in
     match files req with
     | None => res_status_json 400
                 (error_body (JStr "Both secret and cover images required"))
     | Some req_files =>
       match assoc "secretImage" req_files, assoc "coverImage" req_files with
       | Some secretImage, Some coverImage =>
         if key_too_short key
         then res_status_json 400
                (error_body (JStr "Key must be at least 8 characters"))
         else
           let secretPath := file_path secretImage in
           let coverPath := file_path coverImage in
           let stegoScript := path_join w [dirname w; "../python/steganography.py"] in
           let metricsScript := path_join w [dirname w; "../python/metrics_analyzer.py"] in
           (* Step 1 *)
           stegoResult <- runPythonScript stegoScript
                            [JStr "encrypt"; JStr secretPath; JStr coverPath;
                             opt_str key; JStr chaoticMap] ;;
           success <- get stegoResult "success" ;;
           if negb (truthy success)
           then
             error <- get stegoResult "error" ;;
             res_status_json 500
               (error_body (js_or error (JStr "Steganography failed")))
           else
             now <- Date_now ;;
             let encryptionTime := Z.of_N now - Z.of_N startTime in
             stegoPath <- get stegoResult "stego_path" ;;
             stegoName <- basename_of stegoPath ;;
             (* Step 2 *)
             calculatedMetrics <-
               try_catch
                 (metricsResult <- runPythonScript metricsScript
                                     [JStr "steganography"; JStr coverPath; stegoPath] ;;
                  ok <- get metricsResult "success" ;;
                  if truthy ok
                  then
                    psnr <- get metricsResult "psnr" ;;
                    mse <- get metricsResult "mse" ;;
                    ret (metrics_object encryptionTime default_entropy
                           (JNum 0) (JNum 0) (JNum 0)
                           (js_or psnr (JNum 0)) (js_or mse (JNum 0)))
                  else ret (default_metrics encryptionTime))
                 (fun _ => ret (default_metrics encryptionTime)) ;;
             newImage <- new_EncryptedImage
                           (JObj [("originalName", JStr (file_originalname secretImage));
                                  ("encryptedName", JStr stegoName);
                                  ("encryptedPath", stegoPath);
                                  ("originalPath", JStr secretPath);
                                  ("size", JNum (file_size secretImage));
                                  ("mimeType", JStr (file_mimetype secretImage));
                                  ("chaoticMap", JStr chaoticMap);
                                  ("encryptionType", JStr "steganography");
                                  ("status", JStr "completed");
                                  ("metrics", calculatedMetrics)]) ;;
             saved <- save newImage ;;
             res_json (JObj [("success", JBool true);
                             ("message", JStr "Triple-layer steganography successful");
                             ("imageId", doc_get saved "_id");
                             ("stegoName", JStr stegoName);
                             ("encryptionTime", JNum encryptionTime);
                             ("metrics", calculatedMetrics)])
       | _, _ => res_status_json 400
                   (error_body (JStr "Both secret and cover images required"))
       end
     end)
    server_error.

(* --------------------------------------------------------------------- *)
(** ** The routes over stored records *)

Definition get_images : M unit :=
  try_catch
    (images <- find_recent ;;
     res_json (JObj [("success", JBool true);
                     ("images", JArr (map JObj images))]))
    server_error.

Definition delete_image (req : Request) : M unit :=
  try_catch
    (found <- findByIdAndDelete (params_id req) ;;
     match found with
     | None => res_status_json 404 (error_body (JStr "Image not found"))
     | Some image =>
       let encryptedPath := doc_get image "encryptedPath" in
       let originalPath := doc_get image "originalPath" in
       there <- fs_existsSync encryptedPath ;;
       (if there then fs_unlinkSync encryptedPath else ret tt) ;;
       there' <- (if truthy originalPath then fs_existsSync originalPath
                  else ret false) ;;
       (if there' then fs_unlinkSync originalPath else ret tt) ;;
       res_json (JObj [("success", JBool true);
                       ("message", JStr "Image deleted")])
     end)
    server_error.

Definition get_download (req : Request) : M unit :=
  try_catch
    (found <- findById (params_id req) ;;
     match found with
     | None => res_status_json 404 (error_body (JStr "Image not found"))
     | Some image =>
       res_download_alone (doc_get image "encryptedPath")
                          (doc_get image "encryptedName")
     end)
    server_error.

Definition get_download_stego (req : Request) : M unit :=
  try_catch
    (found <- findById (params_id req) ;;
     match found with
     | None => res_status_json 404 (error_body (JStr "Image not found"))
     | Some image =>
       if negb (is_str (doc_get image "encryptionType") "steganography")
       then res_status_json 400 (error_body (JStr "Not a steganography image"))
       else
         res_download_alone (doc_get image "encryptedPath")
                            (JStr "stego_image.png")
     end)
    server_error.

Definition get_test_metrics : M unit :=
  try_catch
    (let metricsScript := path_join w [dirname w; "../python/metrics_analyzer.py"] in
     scriptExists <- fs_existsSync (JStr metricsScript) ;;
     res_json (JObj [("success", JBool true);
                     ("message", JStr "Metrics script configuration");
                     ("pythonPath", JStr PYTHON_CMD);
                     ("scriptPath", JStr metricsScript);
                     ("scriptExists", JBool scriptExists);
                     ("isRender", JBool (env_RENDER w));
                     ("environment",
                      js_or (opt_str (env_NODE_ENV w)) (JStr "development"))]))
    (fun message =>
       res_status_json 500 (JObj [("success", JBool false);
                                  ("error", JStr message)])).

(* --------------------------------------------------------------------- *)
(** ** The pipeline as a transition system *)

(** The four transformation requests of the pipeline. *)
Inductive Operation := Encrypt | Decrypt | StegoEncrypt | StegoDecrypt.

Definition pipeline (op : Operation) : Request -> M unit :=
  match op with
  | Encrypt => post_encrypt
  | Decrypt => post_decrypt
  | StegoEncrypt => post_encrypt_stego
  | StegoDecrypt => post_decrypt_stego
  end.

(** Everything the router can be asked to do, and the staging of an
    upload that precedes a request.  (The routers of metrics.js and
    admin.js only read the store, through find, countDocuments and
    aggregate; they are not part of this development.) *)
Inductive Call :=
| Transform (op : Operation) (req : Request)
| Upload (p : Part)
| GetImages
| DeleteImage (req : Request)
| GetDownload (req : Request)
| GetDownloadStego (req : Request)
| GetTestMetrics.

Definition handle (c : Call) : M unit :=
  match c with
  | Transform op req => pipeline op req
  | Upload p => try_catch (_f <- stage p ;; ret tt) server_error
  | GetImages => get_images
  | DeleteImage req => delete_image req
  | GetDownload req => get_download req
  | GetDownloadStego req => get_download_stego req
  | GetTestMetrics => get_test_metrics
  end.

(** The states the router reaches from an empty store. *)
Inductive reachable : State -> Prop :=
| reach_initial : reachable initial
| reach_handle st c : reachable st -> reachable (exec_state (handle c) st).

End Router.

(* ===================================================================== *)
(** * Vocabulary of the specification *)
(* ===================================================================== *)

(** A settled invocation reports success when it resolved with a payload
    whose [success] is truthy.  Everything else is a failure: a non-zero
    exit, a timeout, an overflow, output that does not parse, a payload
    that is null or says [success: false]. *)
Definition reports_success (o : Outcome jsval) : bool :=
  match o with
  | Return result =>
      match property result "success" with
      | Return s => truthy s
      | Throw _ => false
      end
  | Throw _ => false
  end.

(** The key of the request is absent, or has fewer than 8 characters. *)
Definition key_absent_or_short (req : Request) : Prop :=
  match assoc "key" (body req) with
  | None => True
  | Some k => (String.length k < 8)%nat
  end.

(** The key of the request is there and not empty. *)
Definition key_given (req : Request) : Prop :=
  exists k, assoc "key" (body req) = Some k /\ k <> EmptyString.

(** A required upload slot of the operation is empty. *)
Definition upload_slot_missing (op : Operation) (req : Request) : Prop :=
  match op with
  | StegoEncrypt =>
      match files req with
      | None => True
      | Some slots =>
          assoc "secretImage" slots = None \/ assoc "coverImage" slots = None
      end
  | _ => file req = None
  end.

Definition encrypting (op : Operation) : bool :=
  match op with
  | Encrypt | StegoEncrypt => true
  | Decrypt | StegoDecrypt => false
  end.

(** The request passes the validation of its operation. *)
Definition validated (op : Operation) (req : Request) : Prop :=
  ~ upload_slot_missing op req
  /\ (if encrypting op then ~ key_absent_or_short req else key_given req).

(** The transformation of a request is the child process that runs its
    transformation command.  It is the first child a handler starts, so its
    outcome is the one the world gives the next child, [child w (spawned
    st)]: the world numbers the children in the order in which [exec]
    starts them.  The transformation succeeded when the request was
    validated and that child reports success. *)
Definition transformation_succeeded (w : World) (op : Operation)
  (req : Request) (st : State) : Prop :=
  validated op req
  /\ reports_success (settle w (child w (spawned st))) = true.

(** The command line of the transformation of a request: the script of
    the operation, the mode, the staged upload (for stegoEncrypt the secret
    image, then the cover image), the key and, when encrypting, the chaotic
    map.  There is none while an upload is missing. *)
Definition transformation_command (w : World) (op : Operation) (req : Request)
  : option string :=
  let key := opt_str (assoc "key" (body req)) in
  let map := JStr (or_default (assoc "chaoticMap" (body req)) "logistic") in
  let encryption := path_join w [dirname w; "../python/encryption.py"] in
  let steganography := path_join w [dirname w; "../python/steganography.py"] in
  match op with
  | Encrypt =>
      match file req with
      | Some f =>
          Some (python_command w encryption
                  [JStr "encrypt"; JStr (file_path f); key; map])
      | None => None
      end
  | Decrypt =>
      match file req with
      | Some f =>
          Some (python_command w encryption
                  [JStr "decrypt"; JStr (file_path f); key])
      | None => None
      end
  | StegoEncrypt =>
      match files req with
      | Some slots =>
          match assoc "secretImage" slots, assoc "coverImage" slots with
          | Some secret, Some cover =>
              Some (python_command w steganography
                      [JStr "encrypt"; JStr (file_path secret);
                       JStr (file_path cover); key; map])
          | _, _ => None
          end
      | None => None
      end
  | StegoDecrypt =>
      match file req with
      | Some f =>
          Some (python_command w steganography
                  [JStr "decrypt"; JStr (file_path f); key])
      | None => None
      end
  end.

(** The field of the payload that names the output of an operation. *)
Definition output_field (op : Operation) : string :=
  match op with
  | Encrypt => "encrypted_path"
  | StegoEncrypt => "stego_path"
  | Decrypt | StegoDecrypt => "decrypted_path"
  end.

(** What the payload of the transformation gives as its output; undefined
    when the payload has no such field. *)
Definition transformation_output (w : World) (op : Operation) (st : State)
  : option jsval :=
  match settle w (child w (spawned st)) with
  | Return result =>
      match property result (output_field op) with
      | Return output => Some output
      | Throw _ => None
      end
  | Throw _ => None
  end.

(** The command line of the metrics computation of an encrypting request
    whose transformation gave [output]: the analyzer, the category, the
    staged image (for stegoEncrypt the cover image) and the output. *)
Definition metrics_command (w : World) (op : Operation) (req : Request)
  (output : jsval) : option string :=
  let analyzer := path_join w [dirname w; "../python/metrics_analyzer.py"] in
  match op with
  | Encrypt =>
      match file req with
      | Some f =>
          Some (python_command w analyzer
                  [JStr "encryption"; JStr (file_path f); output])
      | None => None
      end
  | StegoEncrypt =>
      match files req with
      | Some slots =>
          match assoc "coverImage" slots with
          | Some cover =>
              Some (python_command w analyzer
                      [JStr "steganography"; JStr (file_path cover); output])
          | None => None
          end
      | None => None
      end
  | Decrypt | StegoDecrypt => None
  end.

(** The two child processes of an encrypting request, in the order in
    which the trace must show them: the transformation, then the metrics
    computation on the output of the transformation. *)
Definition children_of (w : World) (op : Operation) (req : Request)
  (st : State) (transform measure : string) : Prop :=
  transformation_command w op req = Some transform
  /\ exists output,
       transformation_output w op st = Some output
       /\ metrics_command w op req output = Some measure.

(** The metrics computation of an encrypting request is the child process
    that runs its metrics command, the second child of its handler: its
    outcome is the one the world gives the child after the next. *)
Definition metrics_failed (w : World) (st : State) : Prop :=
  reports_success (settle w (child w (S (spawned st)))) = false.

(** The clock readings a handler takes before it measures the elapsed
    time: the start time, and for [Encrypt] the timestamp of the output
    name. *)
Definition readings_before_measure (op : Operation) : nat :=
  match op with
  | Encrypt => 2
  | _ => 1
  end.

(** The measured duration of the transformation: the reading taken when the
    transformation child has run and no other child has been started, minus
    the reading taken at the start of the request, before any child was
    started. *)
Definition measured_duration (w : World) (op : Operation) (st : State) : Z :=
  Z.of_N (clock w (ticks st + readings_before_measure op) (S (spawned st)))
  - Z.of_N (clock w (ticks st) (spawned st)).

Definition is_exec (e : Event) : bool :=
  match e with
  | EvExec _ _ => true
  | _ => false
  end.

(** The number of child processes a trace has started. *)
Definition invocations (t : list Event) : nat := length (filter is_exec t).

Definition completed (d : Doc) : Prop := doc_get d "status" = JStr "completed".

(* ===================================================================== *)
(** * Worlds for worked runs *)
(* ===================================================================== *)

Definition q (s : string) : string := dquote ++ s ++ dquote.

(** The text after the last occurrence of a character, if there is one. *)
Fixpoint after_last (c : ascii) (s : string) : option string :=
  match s with
  | EmptyString => None
  | String x rest =>
      match after_last c rest with
      | Some tail => Some tail
      | None => if Ascii.eqb x c then Some rest else None
      end
  end.

Definition simple_basename (p : string) : string :=
  match after_last "/" p with
  | Some name => name
  | None => p
  end.

Definition simple_extname (p : string) : string :=
  match after_last "." (simple_basename p) with
  | Some ext => "." ++ ext
  | None => EmptyString
  end.

Definition simple_basename_ext (p ext : string) : string :=
  let name := simple_basename p in
  let stem := (String.length name - String.length ext)%nat in
  if String.eqb (substring stem (String.length ext) name) ext
  then substring 0 stem name
  else name.

(** A Linux host outside Render: paths are joined with a slash, the clock
    advances 40 ms per reading, every random draw is the same, the children
    behave as listed, the payloads parse as tabulated, and the store gives
    the listed verdicts. *)
Definition scripted_world (children : list ChildOutcome)
  (payloads : list (string * jsval)) (verdict : StoreOp -> option string)
  : World :=
  mkWorld false None "linux" "/app/routes"
          (String.concat "/")
          simple_basename simple_basename_ext simple_extname
          (fun text => assoc text payloads)
          (fun k _ => 1700000000000 + 40 * N.of_nat k)%N
          (fun _ => 123456789%N)
          (fun k => nth k children (mkChild None EmptyString EmptyString []))
          (fun _ op => verdict op)
          (fun k => "id" ++ dec (N.of_nat k))
          (fun _ => None)
          (fun _ v => v)
          (fun _ _ => "The " ++ q "path" ++ " argument must be of type string")
          (fun _ => Some "filename must be a string").


Definition accepting : StoreOp -> option string := fun _ => None.

(** A store that cannot be reached when a record is to be written. *)
Definition refusing_saves : StoreOp -> option string :=
  fun op =>
    match op with
    | OpSave _ =>
        Some "Operation `encryptedimages.insertOne()` buffering timed out after 10000ms"
    | _ => None
    end.

Definition staged_cat : File :=
  mkFile "cat.png" "image/png" 10240 "/app/routes/../uploads/original"
         "1700000000000-123456789-cat.png"
         "/app/routes/../uploads/original/1700000000000-123456789-cat.png".

Definition request_with (key : string) (f : File) : Request :=
  mkRequest [("key", key); ("chaoticMap", "tent")] (Some f) None EmptyString.

Definition request_without_key (f : File) : Request :=
  mkRequest [] (Some f) None EmptyString.

Definition request_for (id : string) : Request :=
  mkRequest [] None None id.

Definition on_disk_state (paths : list string) : State :=
  mkState paths [] [] 0 0 0 0 0 0.


(** A stored record of a basic encryption. *)
Definition basic_record : Doc :=
  [("_id", JStr "id0");
   ("encryptedName", JStr "cat_encrypted_1700000000040.bin");
   ("encryptedPath", JStr "/app/uploads/encrypted/cat.bin");
   ("encryptionType", JStr "basic");
   ("status", JStr "completed")].

Definition stored_state (records : list Doc) : State :=
  mkState [] records [] 0 0 0 0 0 0.

(** What the children print. *)
Definition encrypted_text : string :=
  "{" ++ q "success" ++ ": true, " ++ q "encrypted_path" ++ ": "
      ++ q "/app/uploads/encrypted/cat.bin" ++ "}".
Definition encrypted_payload : jsval :=
  JObj [("success", JBool true);
        ("encrypted_path", JStr "/app/uploads/encrypted/cat.bin")].

(** Metric values are carried as scaled integers: 9961 stands for an NPCR
    of 99.61, 7997 for an entropy of 7.997. *)
Definition metrics_text : string :=
  "{" ++ q "success" ++ ": true, "
      ++ q "entropy" ++ ": {" ++ q "original" ++ ": 7214, "
                              ++ q "encrypted" ++ ": 7997}, "
      ++ q "npcr" ++ ": 9961, " ++ q "uaci" ++ ": 3346}".
Definition metrics_payload : jsval :=
  JObj [("success", JBool true);
        ("entropy", JObj [("original", JNum 7214); ("encrypted", JNum 7997)]);
        ("npcr", JNum 9961);
        ("uaci", JNum 3346)].

Definition decrypted_text : string :=
  "{" ++ q "success" ++ ": true, " ++ q "decrypted_path" ++ ": "
      ++ q "/app/uploads/decrypted/cat.png" ++ "}".
Definition decrypted_payload : jsval :=
  JObj [("success", JBool true);
        ("decrypted_path", JStr "/app/uploads/decrypted/cat.png")].

Definition payload_table : list (string * jsval) :=
  [(encrypted_text, encrypted_payload);
   (metrics_text, metrics_payload);
   (decrypted_text, decrypted_payload)].

Definition child_encrypts : ChildOutcome :=
  mkChild None encrypted_text EmptyString ["/app/uploads/encrypted/cat.bin"].
Definition child_measures : ChildOutcome :=
  mkChild None metrics_text EmptyString [].
Definition child_decrypts : ChildOutcome :=
  mkChild None decrypted_text EmptyString ["/app/uploads/decrypted/cat.png"].
(** A child that dies with a traceback on stderr. *)
Definition child_crashes : ChildOutcome :=
  mkChild (Some "Command failed: python3")
          EmptyString "Traceback (most recent call last): ValueError" [].
(** A child killed at the deadline before it wrote anything. *)
Definition child_killed : ChildOutcome :=
  mkChild (Some "Command failed: python3") EmptyString EmptyString [].

(* ===================================================================== *)
(** * Vocabulary of the proofs *)
(* ===================================================================== *)

(** [wp m Q st]: running [m] from [st] ends in an outcome and a state that
    satisfy [Q]. *)
Definition wp {A} (m : M A) (Q : Outcome A -> State -> Prop) (st : State) : Prop :=
  Q (fst (m st)) (snd (m st)).

Definition after {A B} (k : A -> M B) (Q : Outcome B -> State -> Prop)
  (o : Outcome A) (st : State) : Prop :=
  match o with
  | Return a => wp (k a) Q st
  | Throw e => Q (Throw e) st
  end.

Definition caught {A} (h : string -> M A) (Q : Outcome A -> State -> Prop)
  (o : Outcome A) (st : State) : Prop :=
  match o with
  | Return a => Q (Return a) st
  | Throw e => wp (h e) Q st
  end.

(** The single way a record comes into being: the transformation, the
    metrics computation on its output, the save, the success response. *)
Definition record_added (w : World) (op : Operation) (req : Request)
  (st st' : State) (d : Doc) : Prop :=
  db st' = (db st ++ [d])%list
  /\ exists transform measure body,
       children_of w op req st transform measure
       /\ trace st' = (trace st ++ [EvExec transform exec_options;
                                   EvExec measure exec_options;
                                   EvSave d;
                                   EvRespond 200 body])%list.

(** What one call may do to the store and to the saves in the trace:
    whatever is new is a completed record. *)
Definition writes_completed (st st' : State) : Prop :=
  (forall x, In x (db st') -> In x (db st) \/ completed x)
  /\ (forall x, In (EvSave x) (trace st') ->
                In (EvSave x) (trace st) \/ completed x).

(** The transformation of a stegoEncrypt request resolved with a payload
    that names the stego image. *)
Definition names_stego_path (w : World) (st : State) : Prop :=
  exists result p,
    settle w (child w (spawned st)) = Return result
    /\ property result "stego_path" = Return (JStr p).

(** What an encrypting request leaves behind when its transformation
    succeeded and the store took the record. *)
Definition persisted_and_answered (w : World) (op : Operation)
  (req : Request) (st st' : State) : Prop :=
  exists fields now id now' entropy NPCR UACI correlation PSNR MSE
         transform measure body,
    let elapsed := measured_duration w op st in
    let M := metrics_object elapsed entropy NPCR UACI correlation PSNR MSE in
    let d := timestamped (document w (JObj fields) now id) now' in
    db st' = (db st ++ [d])%list
    /\ trace st' = (trace st ++ [EvExec transform exec_options;
                                EvExec measure exec_options;
                                EvSave d;
                                EvRespond 200 body])%list
    /\ children_of w op req st transform measure
    /\ lookup "status" fields = JStr "completed"
    /\ lookup "metrics" fields = M
    /\ get_path body ["success"] = JBool true
    /\ get_path body ["encryptionTime"] = JNum elapsed
    /\ get_path body ["metrics"] = M
    /\ (metrics_failed w st -> M = default_metrics elapsed).


(* ===================================================================== *)
(** * Vocabulary of the route properties *)
(* ===================================================================== *)

(** The events that answer a request: a JSON response or a download. *)
Definition is_answer (e : Event) : bool :=
  match e with
  | EvRespond _ _ | EvDownload _ _ => true
  | _ => false
  end.

Definition answers (t : list Event) : nat := length (filter is_answer t).

(** The calls that are requests to a route of the router. *)
Definition is_request (c : Call) : bool :=
  match c with
  | Upload _ => false
  | _ => true
  end.

(** The routes that only look at the store or at the disk. *)
Definition read_only (c : Call) : bool :=
  match c with
  | GetImages | GetDownload _ | GetDownloadStego _ | GetTestMetrics => true
  | _ => false
  end.

(** The store operation with which a route over stored records begins. *)
Definition query_of (c : Call) : option StoreOp :=
  match c with
  | GetImages => Some OpFind
  | DeleteImage req => Some (OpFindByIdAndDelete (params_id req))
  | GetDownload req => Some (OpFindById (params_id req))
  | GetDownloadStego req => Some (OpFindById (params_id req))
  | _ => None
  end.

(** Records in the order of their upload dates, newest first. *)
Fixpoint descending (l : list Doc) : Prop :=
  match l with
  | [] => True
  | d :: rest =>
      (forall d', In d' rest -> uploadDate_of d' <= uploadDate_of d)
      /\ descending rest
  end.

(** The upload an encrypting request works on: the image, or the secret
    image of a stego request. *)
Definition source_file (op : Operation) (req : Request) : option File :=
  match op with
  | StegoEncrypt =>
      match files req with
      | Some slots => assoc "secretImage" slots
      | None => None
      end
  | _ => file req
  end.

(** The type an encrypting operation gives its record. *)
Definition record_type (op : Operation) : string :=
  match op with
  | StegoEncrypt => "steganography"
  | _ => "basic"
  end.

(** The message of a failed transformation that gives none itself. *)
Definition failure_message (op : Operation) : string :=
  match op with
  | Encrypt => "Encryption failed"
  | StegoEncrypt => "Steganography failed"
  | Decrypt => "Decryption failed"
  | StegoDecrypt => "Extraction failed"
  end.

Definition download_name (op : Operation) : string :=
  match op with
  | StegoDecrypt => "extracted_secret.png"
  | _ => "decrypted_image.png"
  end.

Definition not_found_message (op : Operation) : string :=
  match op with
  | StegoDecrypt => "Extracted file not found"
  | _ => "Decrypted file not found"
  end.

(** All characters of a string are whitespace. *)
Fixpoint all_ws (s : string) : bool :=
  match s with
  | EmptyString => true
  | String c rest => is_ws c && all_ws rest
  end.

(** The key under which the success response announces the output name. *)
Definition name_key (op : Operation) : string :=
  match op with
  | StegoEncrypt => "stegoName"
  | _ => "encryptedName"
  end.

(** What a successful encrypting request has done: the record it built
    from the upload and the payload, the store and the disk it leaves, and
    the response it gave. *)
Definition recorded (w : World) (op : Operation) (req : Request)
  (st st' : State) (source : File) (output : jsval) (d : Doc) (answer : jsval)
  : Prop :=
  exists fields now now' name entropy NPCR UACI correlation PSNR MSE
         transform measure result,
    let elapsed := measured_duration w op st in
    let M := metrics_object elapsed entropy NPCR UACI correlation PSNR MSE in
    d = timestamped (document w (JObj fields) now (objectid w (ids st))) now'
    /\ source_file op req = Some source
    /\ settle w (child w (spawned st)) = Return result
    /\ property result (output_field op) = Return output
    /\ db st' = (db st ++ [d])%list
    /\ trace st' = (trace st ++ [EvExec transform exec_options;
                                EvExec measure exec_options;
                                EvSave d;
                                EvRespond 200 answer])%list
    /\ fs st' = ((fs st ++ exec_files (child w (spawned st)))
                 ++ exec_files (child w (S (spawned st))))%list
    /\ dbops st' = S (dbops st)
    /\ get_path answer ["imageId"] = JStr (objectid w (ids st))
    /\ get_path answer [name_key op] = JStr name
    /\ get_path answer ["metrics"] = M
    /\ lookup "originalName" fields = JStr (file_originalname source)
    /\ lookup "encryptedName" fields = JStr name
    /\ lookup "encryptedPath" fields = output
    /\ lookup "originalPath" fields = JStr (file_path source)
    /\ lookup "size" fields = JNum (file_size source)
    /\ lookup "mimeType" fields = JStr (file_mimetype source)
    /\ lookup "chaoticMap" fields
       = JStr (or_default (assoc "chaoticMap" (body req)) "logistic")
    /\ lookup "encryptionType" fields = JStr (record_type op)
    /\ lookup "metrics" fields = M
    /\ (op = Encrypt -> PSNR = JNum 0 /\ MSE = JNum 0)
    /\ (op = StegoEncrypt ->
        entropy = default_entropy /\ NPCR = JNum 0 /\ UACI = JNum 0
        /\ correlation = JNum 0).

(** The paths a stored record releases when it is deleted: its output,
    and its original upload when the record names one. *)
Definition released (image : Doc) (q : string) : bool :=
  is_str (doc_get image "encryptedPath") q
  || (truthy (doc_get image "originalPath")
      && is_str (doc_get image "originalPath") q).

(** No record of the store has the id. *)
Definition fresh_id (id : string) (records : list Doc) : Prop :=
  forall x, In x records -> has_id id x = false.

(** The transformation resolved with a payload that names its output as
    the string [p]. *)
Definition names_output (w : World) (op : Operation) (st : State)
  (p : string) : Prop :=
  exists result,
    settle w (child w (spawned st)) = Return result
    /\ property result (output_field op) = Return (JStr p).


(** The directories a run has made. *)
Definition is_mkdir (e : Event) : bool :=
  match e with
  | EvMkdir _ => true
  | _ => false
  end.

Definition mkdirs (t : list Event) : nat := length (filter is_mkdir t).

(** The child of a successful run that wrote [pre], the text of [c] and
    [post] to its standard output. *)
Definition padded (pre post : string) (c : ChildOutcome) : ChildOutcome :=
  mkChild None (pre ++ exec_stdout c ++ post) (exec_stderr c) (exec_files c).

(* --------------------------------------------------------------------- *)
(** ** Further worlds for worked runs *)

Definition staged_beach : File :=
  mkFile "beach.png" "image/png" 20480 "/app/routes/../uploads/original"
         "1700000000000-123456789-beach.png"
         "/app/routes/../uploads/original/1700000000000-123456789-beach.png".

(** A stego request: the cat is to be hidden in the beach. *)
Definition stego_request : Request :=
  mkRequest [("key", "correct-horse")] None
            (Some [("secretImage", staged_cat); ("coverImage", staged_beach)])
            EmptyString.

Definition hidden_text : string :=
  "{" ++ q "success" ++ ": true, " ++ q "stego_path" ++ ": "
      ++ q "/app/uploads/stego/beach.png" ++ "}".
Definition hidden_payload : jsval :=
  JObj [("success", JBool true);
        ("stego_path", JStr "/app/uploads/stego/beach.png")].

Definition refused_text : string :=
  "{" ++ q "success" ++ ": false, " ++ q "error" ++ ": "
      ++ q "Invalid padding" ++ "}".
Definition refused_payload : jsval :=
  JObj [("success", JBool false); ("error", JStr "Invalid padding")].

Definition more_payloads : list (string * jsval) :=
  [(hidden_text, hidden_payload); (refused_text, refused_payload);
   ("null", JNull)].

Definition child_hides : ChildOutcome :=
  mkChild None hidden_text EmptyString ["/app/uploads/stego/beach.png"].
(** A child that reports a failure in its payload. *)
Definition child_refuses : ChildOutcome :=
  mkChild None refused_text EmptyString [].
(** A child that reports success and names a file it never wrote. *)
Definition child_pretends : ChildOutcome :=
  mkChild None decrypted_text EmptyString [].

(** A child that prints the JSON text null. *)
Definition child_prints_null : ChildOutcome :=
  mkChild None "null" EmptyString [].

(** A store that cannot be reached at all. *)
Definition unreachable : StoreOp -> option string :=
  fun _ => Some "connect ECONNREFUSED 127.0.0.1:27017".

(** The state in which a record and its output file are there. *)
Definition kept_state (records : list Doc) (paths : list string) : State :=
  mkState paths records [] 0 0 0 0 0 0.

(* ===================================================================== *)
(** * Properties *)
(* ===================================================================== *)

Local Open Scope list_scope.

(* --------------------------------------------------------------------- *)
(** ** Symbolic execution of handlers

    [wp m Q st]: running [m] from [st] ends in an outcome and a state that
    satisfy [Q].  The rules below run a handler one statement at a time;
    the state is kept as an explicit record so that every rule applies by
    unification. *)

Lemma wp_bind A B (m : M A) (k : A -> M B) Q st :
  wp m (after k Q) st -> wp (bind m k) Q st.
Proof.
  unfold wp, after, bind. destruct (m st) as [[a|e] st']; auto.
Qed.

Lemma wp_try A (m : M A) (h : string -> M A) Q st :
  wp m (caught h Q) st -> wp (try_catch m h) Q st.
Proof.
  unfold wp, caught, try_catch. destruct (m st) as [[a|e] st']; auto.
Qed.

Lemma wp_ret A (a : A) Q st : Q (Return a) st -> wp (ret a) Q st.
Proof. auto. Qed.

Lemma wp_throw A e (Q : Outcome A -> State -> Prop) st :
  Q (Throw e) st -> wp (throw e) Q st.
Proof. auto. Qed.

Lemma wp_get v k Q st : Q (property v k) st -> wp (get v k) Q st.
Proof. auto. Qed.

Ltac norm_state :=
  cbn [fst snd fs db trace ticks draws spawned dbops ids sends
       set_fs set_db set_trace set_ticks set_draws set_spawned set_dbops
       set_ids set_sends].

Section Rules.

Variable w : World.
Variables (f : list string) (d : list Doc) (t : list Event).
Variables (k r s o i n : nat).

Local Abbreviation here := (mkState f d t k r s o i n).

Lemma wp_respond code body Q :
  Q (Return tt) (mkState f d (t ++ [EvRespond code body]) k r s o i n) ->
  wp (res_status_json code body) Q here.
Proof. auto. Qed.

Lemma wp_res_json body Q :
  Q (Return tt) (mkState f d (t ++ [EvRespond 200 body]) k r s o i n) ->
  wp (res_json body) Q here.
Proof. auto. Qed.

Lemma wp_server_error message Q :
  Q (Return tt)
    (mkState f d (t ++ [EvRespond 500 (error_body (JStr message))]) k r s o i n) ->
  wp (server_error message) Q here.
Proof. auto. Qed.

Lemma wp_error_handler message Q :
  Q (Return tt)
    (mkState f d (t ++ [EvRespond 500 (error_body (JStr message))]) k r s o i n) ->
  wp (error_handler message) Q here.
Proof. auto. Qed.

Lemma wp_Date_now Q :
  Q (Return (clock w k s)) (mkState f d t (S k) r s o i n) ->
  wp (Date_now w) Q here.
Proof. auto. Qed.

Lemma wp_random Q :
  Q (Return (random_1e9 w r)) (mkState f d t k (S r) s o i n) ->
  wp (Math_round_random_1e9 w) Q here.
Proof. auto. Qed.

Lemma wp_existsSync p Q :
  Q (Return (on_disk p f)) here -> wp (fs_existsSync p) Q here.
Proof. auto. Qed.

Lemma wp_unlinkSync p Q :
  match p with
  | JStr path =>
      if mem path f
      then Q (Return tt)
             (mkState (remove_path path f) d (t ++ [EvUnlink path]) k r s o i n)
      else Q (Throw ("ENOENT: no such file or directory, unlink '"
                     ++ path ++ "'")%string) here
  | _ => Q (Throw "The path argument must be of type string") here
  end ->
  wp (fs_unlinkSync p) Q here.
Proof.
  unfold wp, fs_unlinkSync. destruct p as [| | | |path| |]; auto.
  cbn [fs]. destruct (mem path f); auto.
Qed.

Lemma wp_mkdirSync dir Q :
  Q (Return tt) (mkState (dir :: f) d (t ++ [EvMkdir dir]) k r s o i n) ->
  wp (fs_mkdirSync dir) Q here.
Proof. auto. Qed.

Lemma wp_runPythonScript script args Q :
  Q (settle w (child w s))
    (mkState (f ++ exec_files (child w s)) d
             (t ++ [EvExec (python_command w script args) (exec_options)])
             k r (S s) o i n) ->
  wp (runPythonScript w script args) Q here.
Proof.
  unfold wp, runPythonScript, bind, exec. norm_state.
  destruct (settle w (child w s)); auto.
Qed.

Lemma wp_res_download path name Q :
  Q (Return (transfer w n))
    (mkState f d (t ++ [EvDownload path name]) k r s o i (S n)) ->
  wp (res_download w path name) Q here.
Proof. auto. Qed.

Lemma wp_new_EncryptedImage obj Q :
  Q (Return (document w obj (clock w k s) (objectid w i)))
    (mkState f d t (S k) r s o (S i) n) ->
  wp (new_EncryptedImage w obj) Q here.
Proof. auto. Qed.

Lemma wp_save doc Q :
  match store w o (OpSave (timestamped doc (clock w k s))) with
  | None =>
      Q (Return (timestamped doc (clock w k s)))
        (mkState f (d ++ [timestamped doc (clock w k s)])
                 (t ++ [EvSave (timestamped doc (clock w k s))])
                 (S k) r s (S o) i n)
  | Some message => Q (Throw message) (mkState f d t (S k) r s (S o) i n)
  end ->
  wp (save w doc) Q here.
Proof.
  unfold wp, save, store_op, bind, Date_now. norm_state.
  destruct (store w o (OpSave (timestamped doc (clock w k s)))); auto.
Qed.

Lemma wp_findById id Q :
  match store w o (OpFindById id) with
  | None => Q (Return (find (has_id id) d)) (mkState f d t k r s (S o) i n)
  | Some message => Q (Throw message) (mkState f d t k r s (S o) i n)
  end ->
  wp (findById w id) Q here.
Proof.
  unfold wp, findById, store_op, bind. norm_state.
  destruct (store w o (OpFindById id)); auto.
Qed.

Lemma wp_findByIdAndDelete id Q :
  match store w o (OpFindByIdAndDelete id) with
  | None =>
      match find (has_id id) d with
      | None => Q (Return None) (mkState f d t k r s (S o) i n)
      | Some image =>
          Q (Return (Some image))
            (mkState f (filter (fun d' => negb (has_id id d')) d)
                     (t ++ [EvRemove id]) k r s (S o) i n)
      end
  | Some message => Q (Throw message) (mkState f d t k r s (S o) i n)
  end ->
  wp (findByIdAndDelete w id) Q here.
Proof.
  unfold wp, findByIdAndDelete, store_op, bind. norm_state.
  destruct (store w o (OpFindByIdAndDelete id)); norm_state; auto.
  destruct (find (has_id id) d); auto.
Qed.

Lemma wp_find_recent Q :
  match store w o OpFind with
  | None => Q (Return (firstn 100 (fold_right insert_desc [] d)))
              (mkState f d t k r s (S o) i n)
  | Some message => Q (Throw message) (mkState f d t k r s (S o) i n)
  end ->
  wp (find_recent w) Q here.
Proof.
  unfold wp, find_recent, store_op, bind. norm_state.
  destruct (store w o OpFind); auto.
Qed.

Lemma wp_basename_of v Q :
  match v with
  | JStr p => Q (Return (path_basename w p)) here
  | _ => Q (Throw ("The " ++ dquote ++ "path" ++ dquote
                   ++ " argument must be of type string")%string) here
  end ->
  wp (basename_of w v) Q here.
Proof. destruct v; auto. Qed.

Lemma wp_staged path Q :
  Q (Return tt) (mkState (path :: f) d (t ++ [EvStage path]) k r s o i n) ->
  wp (fun st => (Return tt, set_trace (set_fs st (path :: fs st))
                                      (trace st ++ [EvStage path]))) Q here.
Proof. auto. Qed.

End Rules.

(** One step of symbolic execution. *)
Ltac wp_next :=
  lazymatch goal with
  | |- after ?k ?Q (Return ?a) ?st =>
      let m := eval cbv beta zeta in (k a) in change (wp m Q st)
  | |- after ?k ?Q (Throw ?e) ?st => change (Q (Throw e) st)
  | |- after _ _ ?o _ => destruct o eqn:?
  | |- caught ?h ?Q (Return ?a) ?st => change (Q (Return a) st)
  | |- caught ?h ?Q (Throw ?e) ?st =>
      let m := eval cbv beta zeta in (h e) in change (wp m Q st)
  | |- caught _ _ ?o _ => destruct o eqn:?
  | |- wp (bind _ _) _ _ => apply wp_bind
  | |- wp (try_catch _ _) _ _ => apply wp_try
  | |- wp (ret _) _ _ => apply wp_ret
  | |- wp (throw _) _ _ => apply wp_throw
  | |- wp (get _ _) _ _ => apply wp_get
  | |- wp (res_status_json _ _) _ _ => apply wp_respond
  | |- wp (res_json _) _ _ => apply wp_res_json
  | |- wp (server_error _) _ _ => apply wp_server_error
  | |- wp (error_handler _) _ _ => apply wp_error_handler
  | |- wp (res_download_alone _ _ _) _ _ => unfold res_download_alone
  | |- wp (Date_now _) _ _ => apply wp_Date_now
  | |- wp (Math_round_random_1e9 _) _ _ => apply wp_random
  | |- wp (fs_existsSync _) _ _ => apply wp_existsSync
  | |- wp (fs_unlinkSync _) _ _ => apply wp_unlinkSync
  | |- wp (fs_mkdirSync _) _ _ => apply wp_mkdirSync
  | |- wp (runPythonScript _ _ _) _ _ => apply wp_runPythonScript
  | |- wp (res_download _ _ _) _ _ => apply wp_res_download
  | |- wp (new_EncryptedImage _ _) _ _ => apply wp_new_EncryptedImage
  | |- wp (save _ _) _ _ => apply wp_save
  | |- wp (findById _ _) _ _ => apply wp_findById
  | |- wp (findByIdAndDelete _ _) _ _ => apply wp_findByIdAndDelete
  | |- wp (find_recent _) _ _ => apply wp_find_recent
  | |- wp (basename_of _ _) _ _ => apply wp_basename_of
  | |- wp (cleanup_after_download _ _) _ _ => unfold cleanup_after_download
  | |- wp (storage_destination _) _ _ => unfold storage_destination
  | |- wp (storage_filename _ _) _ _ => unfold storage_filename
  | |- wp (stage _ _) _ _ => unfold stage
  | |- wp (fun st => (Return tt, _)) _ _ => apply wp_staged
  | |- wp (if ?b then _ else _) _ _ => destruct b eqn:?
  | |- wp (match ?x with _ => _ end) _ _ => destruct x eqn:?
  | |- match ?x with _ => _ end => destruct x eqn:?
  end.

Ltac wp_run := repeat wp_next.

(* --------------------------------------------------------------------- *)
(** ** Validation *)

Lemma key_too_short_iff req :
  key_too_short (assoc "key" (body req)) = true <-> key_absent_or_short req.
Proof.
  unfold key_too_short, key_absent_or_short.
  destruct (assoc "key" (body req)) as [k|]; [|tauto].
  rewrite orb_true_iff, Nat.ltb_lt. split; [|tauto].
  intros [H|H]; [|exact H].
  apply String.eqb_eq in H. subst k. cbn. lia.
Qed.

Lemma key_missing_iff req :
  key_missing (assoc "key" (body req)) = false <-> key_given req.
Proof.
  unfold key_missing, key_given.
  destruct (assoc "key" (body req)) as [k|].
  - rewrite String.eqb_neq. split.
    + intros H. exists k. auto.
    + intros (k' & [= <-] & H). exact H.
  - split; [discriminate|]. intros (k' & [=] & _).
Qed.

Lemma validated_encrypt req f :
  file req = Some f ->
  key_too_short (assoc "key" (body req)) = false ->
  validated Encrypt req.
Proof.
  intros Hf Hk. split; cbn.
  - congruence.
  - rewrite <- key_too_short_iff. congruence.
Qed.

Lemma validated_stego req slots secret cover :
  files req = Some slots ->
  assoc "secretImage" slots = Some secret ->
  assoc "coverImage" slots = Some cover ->
  key_too_short (assoc "key" (body req)) = false ->
  validated StegoEncrypt req.
Proof.
  intros Hf Hs Hc Hk. split; cbn.
  - rewrite Hf. intros [H|H]; congruence.
  - rewrite <- key_too_short_iff. congruence.
Qed.

Lemma invocations_app t1 t2 :
  invocations (t1 ++ t2) = (invocations t1 + invocations t2)%nat.
Proof. unfold invocations. now rewrite filter_app, length_app. Qed.

Lemma is_str_eq v s : is_str v s = true <-> v = JStr s.
Proof.
  destruct v; cbn; try (split; [discriminate|intros [=]]).
  rewrite String.eqb_eq. split; [now intros ->|now intros [= ->]].
Qed.

(* --------------------------------------------------------------------- *)
(** ** What a handler does to the store *)

(** The commands in the trace are those of the request. *)
Ltac close_children :=
  unfold children_of, transformation_command, transformation_output,
    metrics_command;
  cbn [spawned output_field];
  repeat match goal with
         | H : file _ = Some _ |- _ => rewrite H
         | H : files _ = Some _ |- _ => rewrite H
         | H : assoc _ _ = Some _ |- _ => rewrite H
         | H : settle _ _ = Return _ |- _ => rewrite H
         | H : property _ _ = Return _ |- _ => rewrite H
         end;
  (split; [reflexivity | eexists; split; reflexivity]).

Section Store.

Variable w : World.

Lemma document_completed fields now id now' :
  lookup "status" fields = JStr "completed" ->
  completed (timestamped (document w (JObj fields) now id) now').
Proof.
  intros H. unfold completed, doc_get, timestamped, document. cbn.
  rewrite H. reflexivity.
Qed.

Ltac close_added :=
  right; eexists; split;
  [ split; [reflexivity|];
    do 3 eexists;
    (split; [|cbn [trace]; rewrite <- !app_assoc; reflexivity]);
    close_children
  | split; [apply document_completed; reflexivity|] ].

Lemma post_encrypt_store req st :
  wp (post_encrypt w req)
     (fun _ st' =>
        db st' = db st
        \/ exists d, record_added w Encrypt req st st' d /\ completed d
                     /\ transformation_succeeded w Encrypt req st) st.
Proof.
  destruct st as [f d t k r s o i n].
  unfold transformation_succeeded, record_added. cbn [db trace spawned].
  set (Q := fun _ _ => _).
  unfold post_encrypt. wp_run.
  all: subst Q; cbv beta; cbn [db].
  all: try (left; reflexivity).
  all: close_added.
  all: split; [eapply validated_encrypt; eassumption|].
  all: unfold reports_success;
    repeat match goal with H : _ = Return _ |- _ => rewrite H end;
    match goal with H : negb _ = false |- _ => now apply negb_false_iff in H end.
Qed.

Lemma post_encrypt_stego_store req st :
  wp (post_encrypt_stego w req)
     (fun _ st' =>
        db st' = db st
        \/ exists d, record_added w StegoEncrypt req st st' d /\ completed d
                     /\ transformation_succeeded w StegoEncrypt req st) st.
Proof.
  destruct st as [f d t k r s o i n].
  unfold transformation_succeeded, record_added. cbn [db trace spawned].
  set (Q := fun _ _ => _).
  unfold post_encrypt_stego. wp_run.
  all: subst Q; cbv beta; cbn [db].
  all: try (left; reflexivity).
  all: close_added.
  all: split; [eapply validated_stego; eassumption|].
  all: unfold reports_success;
    repeat match goal with H : _ = Return _ |- _ => rewrite H end;
    match goal with H : negb _ = false |- _ => now apply negb_false_iff in H end.
Qed.

Lemma decrypt_with_store script no_file failed not_found name req st :
  wp (decrypt_with w script no_file failed not_found name req)
     (fun _ st' => db st' = db st) st.
Proof.
  destruct st as [f d t k r s o i n]. cbn [db].
  set (Q := fun _ _ => _).
  unfold decrypt_with. wp_run.
  all: subst Q; reflexivity.
Qed.

End Store.

(* --------------------------------------------------------------------- *)
(** ** Validation comes first *)

Section Validation.

Variable w : World.

(** C2. An encrypt or stegoEncrypt request with an empty upload slot, or
    whose key is absent or shorter than 8 characters, is answered with a
    400 error and nothing else happens: no child process is started, no
    file and no record is touched. *)
Theorem C2_validation_fails_before_any_process
  (op : Operation) (req : Request) (st : State) :
  encrypting op = true ->
  upload_slot_missing op req \/ key_absent_or_short req ->
  let st' := exec_state (pipeline w op req) st in
  (exists message,
      trace st' = trace st ++ [EvRespond 400 (error_body (JStr message))])
  /\ invocations (trace st') = invocations (trace st)
  /\ spawned st' = spawned st
  /\ db st' = db st
  /\ fs st' = fs st.
Proof.
  intros Hop Hbad. cbv zeta.
  assert (Hshape : exists message,
             exec_state (pipeline w op req) st
             = set_trace (set_ticks st (S (ticks st)))
                 (trace st ++ [EvRespond 400 (error_body (JStr message))])).
  { rewrite <- key_too_short_iff in Hbad.
    destruct op; try discriminate Hop; cbn [pipeline].
    - unfold exec_state, post_encrypt, bind, try_catch, Date_now. cbn.
      destruct (file req) as [f|] eqn:Hf.
      + destruct Hbad as [Hbad|Hbad]; [cbn in Hbad; congruence|].
        rewrite Hbad. cbn. eauto.
      + cbn. eauto.
    - unfold exec_state, post_encrypt_stego, bind, try_catch, Date_now. cbn.
      destruct (files req) as [slots|] eqn:Hf; [|cbn; eauto].
      destruct (assoc "secretImage" slots) as [s|] eqn:Hs; [|cbn; eauto].
      destruct (assoc "coverImage" slots) as [c|] eqn:Hc;
        [|destruct s; cbn; eauto].
      destruct Hbad as [Hbad|Hbad].
      + cbn in Hbad. rewrite Hf in Hbad. destruct Hbad; congruence.
      + rewrite Hbad. cbn. eauto. }
  destruct Hshape as [message ->].
  cbn [set_trace set_ticks trace spawned db fs].
  split; [eauto|].
  rewrite invocations_app. cbn. repeat split; lia.
Qed.

End Validation.

(* --------------------------------------------------------------------- *)
(** ** The success path of the encrypting handlers *)

Lemma property_throws_once v k1 x k2 e :
  property v k1 = Return x -> property v k2 = Throw e -> False.
Proof. destruct v; cbn; congruence. Qed.

Ltac property_absurd :=
  match goal with
  | H1 : property ?v _ = Return _, H2 : property ?v _ = Throw _ |- _ =>
      exfalso; exact (property_throws_once _ _ _ _ _ H1 H2)
  end.

Section Success.

Variable w : World.

Ltac use_success Hs :=
  repeat match goal with
         | H : negb (truthy _) = true |- _ =>
             apply negb_true_iff in H; rewrite H in Hs; discriminate Hs
         end.

Ltac close_success :=
  do 13 eexists; cbn [db trace];
  split; [reflexivity|];
  split; [rewrite <- !app_assoc; reflexivity|];
  split; [close_children|];
  split; [reflexivity|];
  split; [reflexivity|];
  split; [reflexivity|];
  split; [reflexivity|];
  split; [reflexivity|].

Ltac refute_metrics_failed :=
  let H := fresh in
  intros H; exfalso; unfold metrics_failed, reports_success in H;
  cbn [spawned] in H;
  repeat match goal with E : _ = Return _ |- _ => rewrite E in H end;
  congruence.

Lemma post_encrypt_success req st f :
  file req = Some f ->
  key_too_short (assoc "key" (body req)) = false ->
  reports_success (settle w (child w (spawned st))) = true ->
  (forall x, store w (dbops st) (OpSave x) = None) ->
  wp (post_encrypt w req)
     (fun _ st' => persisted_and_answered w Encrypt req st st') st.
Proof.
  destruct st as [fs0 d t k r s o i n].
  unfold persisted_and_answered, measured_duration.
  cbn [db trace spawned dbops ticks readings_before_measure].
  replace (k + 2)%nat with (S (S k)) by lia.
  intros Hf Hk Hs Hst. unfold reports_success in Hs.
  set (Q := fun _ _ => _).
  unfold post_encrypt. rewrite Hf, Hk. wp_run.
  all: try discriminate Hs.
  all: try (use_success Hs).
  all: try property_absurd.
  all: try match goal with
           | H : store _ _ _ = Some _ |- _ => rewrite Hst in H; discriminate H
           end.
  all: subst Q; cbv beta; close_success.
  all: try reflexivity.
  all: refute_metrics_failed.
Qed.

Lemma post_encrypt_stego_success req st slots secret cover :
  files req = Some slots ->
  assoc "secretImage" slots = Some secret ->
  assoc "coverImage" slots = Some cover ->
  key_too_short (assoc "key" (body req)) = false ->
  reports_success (settle w (child w (spawned st))) = true ->
  names_stego_path w st ->
  (forall x, store w (dbops st) (OpSave x) = None) ->
  wp (post_encrypt_stego w req)
     (fun _ st' => persisted_and_answered w StegoEncrypt req st st') st.
Proof.
  destruct st as [fs0 d t k r s o i n].
  unfold persisted_and_answered, measured_duration, names_stego_path.
  cbn [db trace spawned dbops ticks readings_before_measure].
  replace (k + 1)%nat with (S k) by lia.
  intros Hf Hsecret Hcover Hk Hs (result & p & Hr & Hp) Hst.
  unfold reports_success in Hs. rewrite Hr in Hs.
  set (Q := fun _ _ => _).
  unfold post_encrypt_stego. rewrite Hf, Hsecret, Hcover, Hk.
  repeat (wp_next; try rewrite Hr; try rewrite Hp).
  all: try discriminate.
  all: try (use_success Hs).
  all: try property_absurd.
  all: try match goal with
           | H : store _ _ _ = Some _ |- _ => rewrite Hst in H; discriminate H
           end.
  all: subst Q; cbv beta; close_success.
  all: try reflexivity.
  all: refute_metrics_failed.
Qed.

End Success.

(* --------------------------------------------------------------------- *)
(** ** Records and transformations *)

Section Records.

Variable w : World.

Lemma document_metrics fields now id now' e ent a b c p m :
  lookup "metrics" fields = metrics_object e ent a b c p m ->
  let d := timestamped (document w (JObj fields) now id) now' in
  doc_get d "metrics.encryptionTime" = JNum e
  /\ doc_get d "metrics.npcr" = JNum 0
  /\ doc_get d "metrics.uaci" = JNum 0.
Proof.
  intros H. unfold doc_get, timestamped, document. cbn. rewrite H.
  repeat split; reflexivity.
Qed.

Lemma document_default_entropy fields now id now' e a b c p m :
  lookup "metrics" fields = metrics_object e default_entropy a b c p m ->
  let d := timestamped (document w (JObj fields) now id) now' in
  doc_get d "metrics.entropy.original" = JNum 0
  /\ doc_get d "metrics.entropy.encrypted" = JNum 0.
Proof.
  intros H. unfold doc_get, timestamped, document. cbn. rewrite H.
  split; reflexivity.
Qed.

Lemma validated_encrypt_inv req :
  validated Encrypt req ->
  exists f, file req = Some f
            /\ key_too_short (assoc "key" (body req)) = false.
Proof.
  intros [Hup Hkey]. cbn in Hup, Hkey.
  destruct (file req) as [f|]; [|congruence].
  exists f. split; [reflexivity|].
  rewrite <- key_too_short_iff in Hkey.
  now destruct (key_too_short (assoc "key" (body req))).
Qed.

Lemma validated_stego_inv req :
  validated StegoEncrypt req ->
  exists slots secret cover,
    files req = Some slots
    /\ assoc "secretImage" slots = Some secret
    /\ assoc "coverImage" slots = Some cover
    /\ key_too_short (assoc "key" (body req)) = false.
Proof.
  intros [Hup Hkey]. cbn in Hup, Hkey.
  destruct (files req) as [slots|]; [|tauto].
  destruct (assoc "secretImage" slots) as [secret|] eqn:Hs;
    [|exfalso; apply Hup; auto].
  destruct (assoc "coverImage" slots) as [cover|] eqn:Hc;
    [|exfalso; apply Hup; auto].
  rewrite <- key_too_short_iff in Hkey.
  exists slots, secret, cover. repeat split; auto.
  now destruct (key_too_short (assoc "key" (body req))).
Qed.

(** An encrypting request whose transformation succeeded and whose record
    the store takes persists it and answers with success. *)
Lemma encrypting_success op req st :
  encrypting op = true ->
  transformation_succeeded w op req st ->
  (op = StegoEncrypt -> names_stego_path w st) ->
  (forall x, store w (dbops st) (OpSave x) = None) ->
  persisted_and_answered w op req st (exec_state (pipeline w op req) st).
Proof.
  intros Hop [Hval Hok] Hpath Hstore.
  destruct op; try discriminate Hop; cbn [pipeline].
  - destruct (validated_encrypt_inv req Hval) as (f & Hf & Hk).
    exact (post_encrypt_success w req st f Hf Hk Hok Hstore).
  - destruct (validated_stego_inv req Hval) as (slots & secret & cover & H1 & H2 & H3 & H4).
    exact (post_encrypt_stego_success w req st slots secret cover
             H1 H2 H3 H4 Hok (Hpath eq_refl) Hstore).
Qed.

(** Whatever the metrics child computed, the record of a successful
    encrypting request holds zero at metrics.npcr and metrics.uaci: the
    handlers write the keys NPCR and UACI, which are not paths of the
    schema. *)
Lemma persisted_npcr_uaci_are_zero op req st :
  encrypting op = true ->
  transformation_succeeded w op req st ->
  (op = StegoEncrypt -> names_stego_path w st) ->
  (forall x, store w (dbops st) (OpSave x) = None) ->
  exists d,
    db (exec_state (pipeline w op req) st) = db st ++ [d]
    /\ doc_get d "metrics.npcr" = JNum 0
    /\ doc_get d "metrics.uaci" = JNum 0.
Proof.
  intros Hop Hok Hpath Hstore.
  destruct (encrypting_success op req st Hop Hok Hpath Hstore)
    as (fields & now & id & now' & e1 & e2 & e3 & e4 & e5 & e6
        & c1 & c2 & b & Hdb & _ & _ & _ & Hm & _).
  destruct (document_metrics fields now id now' _ _ _ _ _ _ _ Hm) as (_ & M2 & M3).
  eauto.
Qed.

Lemma app_one_neq A (l : list A) x : l <> l ++ [x].
Proof.
  intros H. apply (f_equal (@length A)) in H.
  rewrite length_app in H. cbn in H. lia.
Qed.

(** C1 (amended). A request adds at most one record, and only by saving it
    after both child processes: the first runs the transformation command
    of the request, the second the metrics command on the output of the
    transformation, and the save follows them.  A record is added only by
    an encrypting request whose transformation succeeded; decrypt and
    stegoDecrypt never add one; and an encrypting request whose
    transformation succeeded does add one when the store accepts the save
    (and, for stegoEncrypt, the result names the stego path). *)
Theorem C1_record_only_after_successful_encrypting_transformation
  (op : Operation) (req : Request) (st : State) :
  let st' := exec_state (pipeline w op req) st in
  (db st' = db st \/ exists d, record_added w op req st st' d)
  /\ ((exists d, db st' = db st ++ [d]) ->
      encrypting op = true /\ transformation_succeeded w op req st)
  /\ (encrypting op = false -> db st' = db st)
  /\ (encrypting op = true ->
      transformation_succeeded w op req st ->
      (op = StegoEncrypt -> names_stego_path w st) ->
      (forall x, store w (dbops st) (OpSave x) = None) ->
      exists d, record_added w op req st st' d).
Proof.
  cbv zeta.
  assert (Hsum : db (exec_state (pipeline w op req) st) = db st
                 \/ exists d, record_added w op req st
                                (exec_state (pipeline w op req) st) d
                              /\ encrypting op = true
                              /\ transformation_succeeded w op req st).
  { destruct op; cbn [pipeline encrypting].
    - destruct (post_encrypt_store w req st) as [H|(d & H1 & _ & H2)]; eauto.
    - left. exact (decrypt_with_store w _ _ _ _ _ req st).
    - destruct (post_encrypt_stego_store w req st) as [H|(d & H1 & _ & H2)]; eauto.
    - left. exact (decrypt_with_store w _ _ _ _ _ req st). }
  split; [|split; [|split]].
  - destruct Hsum as [H|(d & H & _)]; eauto.
  - intros [d Hd].
    destruct Hsum as [H|(d' & _ & H)]; [|exact H].
    rewrite H in Hd. now apply app_one_neq in Hd.
  - intros Hop. destruct Hsum as [H|(d & _ & H & _)]; [exact H|congruence].
  - intros Hop Hok Hpath Hstore.
    destruct (encrypting_success op req st Hop Hok Hpath Hstore)
      as (fields & now & id & now' & e1 & e2 & e3 & e4 & e5 & e6
          & c1 & c2 & b & Hdb & Htr & Hrun & _).
    eexists. split; [exact Hdb|]. eauto.
Qed.

(** C3 (amended). When the transformation of an encrypt or stegoEncrypt
    request succeeded (for stegoEncrypt, naming the stego path) and the
    store accepts the save, a failed metrics computation changes nothing
    else.  The trace shows the transformation command of the request, then
    the metrics command on the output of the transformation, the child
    that failed; the record is persisted with status 'completed', the
    response is the success response, and every metric is at its zero
    default except encryptionTime, which is the measured duration: the
    clock reading taken when the transformation child had run and the
    metrics child had not been started, minus the reading taken at the
    start of the request. *)
Theorem C3_metrics_failure_is_swallowed
  (op : Operation) (req : Request) (st : State) :
  encrypting op = true ->
  transformation_succeeded w op req st ->
  (op = StegoEncrypt -> names_stego_path w st) ->
  (forall x, store w (dbops st) (OpSave x) = None) ->
  metrics_failed w st ->
  let st' := exec_state (pipeline w op req) st in
  let elapsed := measured_duration w op st in
  exists d transform measure body,
    db st' = db st ++ [d]
    /\ trace st' = trace st ++ [EvExec transform exec_options;
                                EvExec measure exec_options;
                                EvSave d;
                                EvRespond 200 body]
    /\ children_of w op req st transform measure
    /\ doc_get d "status" = JStr "completed"
    /\ doc_get d "metrics.encryptionTime" = JNum elapsed
    /\ doc_get d "metrics.entropy.original" = JNum 0
    /\ doc_get d "metrics.entropy.encrypted" = JNum 0
    /\ doc_get d "metrics.npcr" = JNum 0
    /\ doc_get d "metrics.uaci" = JNum 0
    /\ get_path body ["success"] = JBool true
    /\ get_path body ["metrics"] = default_metrics elapsed.
Proof.
  intros Hop Hok Hpath Hstore Hfail. cbv zeta.
  destruct (encrypting_success op req st Hop Hok Hpath Hstore)
    as (fields & now & id & now' & e1 & e2 & e3 & e4 & e5 & e6
        & c1 & c2 & b & Hdb & Htr & Hrun & Hstatus & Hm & Hb1 & _ & Hb2 & Hdef).
  specialize (Hdef Hfail). rewrite Hdef in Hm, Hb2.
  destruct (document_metrics fields now id now' _ _ _ _ _ _ _ Hm) as (M1 & M2 & M3).
  destruct (document_default_entropy fields now id now' _ _ _ _ _ _ Hm) as (M4 & M5).
  eexists _, c1, c2, b.
  split; [exact Hdb|]. split; [exact Htr|]. split; [exact Hrun|].
  repeat split; try eassumption.
  exact (document_completed w fields now id now' Hstatus).
Qed.

End Records.

(* --------------------------------------------------------------------- *)
(** ** Every record the router writes is completed *)

Lemma in_snoc_save x (t : list Event) e :
  In (EvSave x) (t ++ [e]) -> In (EvSave x) t \/ e = EvSave x.
Proof.
  intros H. apply in_app_or in H as [H|[H|[]]]; auto.
Qed.

Ltac saves_in_trace :=
  repeat match goal with
         | H : In (EvSave _) (_ ++ [_]) |- _ =>
             apply in_snoc_save in H as [H|H]; [|try discriminate H]
         end.

Section Invariant.

Variable w : World.

Ltac close_writes :=
  split; cbn [db trace]; intros x Hx;
  [ try (left; exact Hx);
    try (apply in_app_or in Hx as [Hx|[Hx|[]]];
         [left; exact Hx
         |right; subst x; apply document_completed; reflexivity]);
    try (apply filter_In in Hx as [Hx _]; left; exact Hx)
  | saves_in_trace; try (left; exact Hx);
    try (right; injection Hx as <-; apply document_completed; reflexivity) ].

Lemma handle_writes_completed c st :
  wp (handle w c) (fun _ st' => writes_completed st st') st.
Proof.
  destruct st as [f d t k r s o i n].
  set (Q := fun _ _ => _).
  destruct c as [[| | |] req|p| |req|req|req|]; cbn [handle pipeline].
  - unfold post_encrypt. wp_run. all: subst Q; close_writes.
  - unfold post_decrypt, decrypt_with. wp_run. all: subst Q; close_writes.
  - unfold post_encrypt_stego. wp_run. all: subst Q; close_writes.
  - unfold post_decrypt_stego, decrypt_with. wp_run. all: subst Q; close_writes.
  - wp_run. all: subst Q; close_writes.
  - unfold get_images. wp_run. all: subst Q; close_writes.
  - unfold delete_image. wp_run. all: subst Q; close_writes.
  - unfold get_download. wp_run. all: subst Q; close_writes.
  - unfold get_download_stego. wp_run. all: subst Q; close_writes.
  - unfold get_test_metrics. wp_run. all: subst Q; close_writes.
Qed.

Lemma reachable_completed st :
  reachable w st ->
  (forall x, In x (db st) -> completed x)
  /\ (forall x, In (EvSave x) (trace st) -> completed x).
Proof.
  induction 1 as [|st c _ [IHdb IHtr]].
  - split; intros x [].
  - destruct (handle_writes_completed c st) as [Hdb Htr].
    split; intros x Hx.
    + destruct (Hdb x Hx); auto.
    + destruct (Htr x Hx); auto.
Qed.

(** C10. In every state the router reaches, every record in the store and
    every record ever saved has status 'completed'; none has one of the
    other states the schema permits. *)
Theorem C10_every_persisted_record_is_completed (st : State) (d : Doc) :
  reachable w st ->
  In d (db st) \/ In (EvSave d) (trace st) ->
  doc_get d "status" = JStr "completed"
  /\ forall s, In s status_enum -> s <> "completed" ->
               doc_get d "status" <> JStr s.
Proof.
  intros Hreach Hd.
  destruct (reachable_completed st Hreach) as [Hdb Htr].
  assert (Hc : completed d) by (destruct Hd; auto).
  split; [exact Hc|].
  intros s _ Hs. rewrite Hc. congruence.
Qed.

End Invariant.

(* --------------------------------------------------------------------- *)
(** ** The capability invoker *)

Section Invoker.

Variable w : World.

Lemma runPythonScript_run scriptPath args st :
  runPythonScript w scriptPath args st
  = (settle w (child w (spawned st)),
     exec_state (exec w (python_command w scriptPath args) exec_options) st).
Proof.
  unfold runPythonScript, bind, exec_state, exec. cbn [fst snd].
  destruct (settle w (child w (spawned st))); reflexivity.
Qed.

(** C4 (amended). One invocation starts exactly one child process, with a
    deadline of 30 seconds and an output cap of 50 MB, and settles from
    what that child hands back: on an error it rejects with the stderr
    text when there is some and with the message of the error otherwise;
    without an error it resolves with the payload parsed from the trimmed
    stdout, and rejects when that does not parse.  There is no second
    child: the invoker never retries. *)
Theorem C4_invoker_contract
  (scriptPath : string) (args : list jsval) (st : State) :
  let c := child w (spawned st) in
  let run := runPythonScript w scriptPath args in
  trace (exec_state run st)
  = trace st ++ [EvExec (python_command w scriptPath args) exec_options]
  /\ invocations (trace (exec_state run st)) = S (invocations (trace st))
  /\ timeout exec_options = 30 * 1000
  /\ maxBuffer exec_options = 50 * 1024 * 1024
  /\ (forall message, exec_error c = Some message ->
        exec_stderr c <> EmptyString ->
        outcome run st = Throw (exec_stderr c))
  /\ (forall message, exec_error c = Some message ->
        exec_stderr c = EmptyString ->
        outcome run st = Throw message)
  /\ (exec_error c = None ->
        JSON_parse w (trim (exec_stdout c)) = None ->
        exists detail, outcome run st = Throw detail)
  /\ (forall result, exec_error c = None ->
        JSON_parse w (trim (exec_stdout c)) = Some result ->
        outcome run st = Return result).
Proof.
  cbv zeta. unfold exec_state, outcome.
  rewrite runPythonScript_run. cbn [fst snd].
  unfold exec_state, exec. cbn [fst snd trace set_trace].
  split; [reflexivity|].
  split; [rewrite invocations_app; cbn; lia|].
  split; [reflexivity|]. split; [reflexivity|].
  unfold settle.
  split; [|split; [|split]].
  - intros message He Hs. rewrite He.
    apply String.eqb_neq in Hs. now rewrite Hs.
  - intros message He Hs. rewrite He, Hs. reflexivity.
  - intros He Hp. rewrite He, Hp. eauto.
  - intros result He Hp. now rewrite He, Hp.
Qed.

End Invoker.

(* --------------------------------------------------------------------- *)
(** ** Staging paths *)







Section Staging.

Variable w : World.


End Staging.

(* --------------------------------------------------------------------- *)
(** ** Downloading stego images *)

Section Download.

Variable w : World.

Lemma findById_found id st image :
  outcome (findById w id) st = Return (Some image) ->
  store w (dbops st) (OpFindById id) = None
  /\ find (has_id id) (db st) = Some image.
Proof.
  unfold outcome, findById, store_op, bind. cbn [fst snd].
  destruct (store w (dbops st) (OpFindById id)); cbn; [discriminate|].
  now intros [= ->].
Qed.

(** C9. When the store returns a record for the id of a download-stego
    request and the record is not of type 'steganography', the handler
    answers 400 'Not a steganography image' and does nothing else; the
    route starts a download only for a record of type 'steganography'. *)
Theorem C9_download_stego_only_for_steganography_records
  (req : Request) (st : State) (image : Doc) :
  outcome (findById w (params_id req)) st = Return (Some image) ->
  let st' := exec_state (get_download_stego w req) st in
  (doc_get image "encryptionType" <> JStr "steganography" ->
   trace st' = trace st
               ++ [EvRespond 400 (error_body (JStr "Not a steganography image"))])
  /\ (forall path name,
         In (EvDownload path name) (trace st') ->
         In (EvDownload path name) (trace st)
         \/ (doc_get image "encryptionType" = JStr "steganography"
             /\ path = doc_get image "encryptedPath")).
Proof.
  intros Hfound. apply findById_found in Hfound as [Hstore Hfind].
  cbv zeta.
  assert (Hwp : wp (get_download_stego w req)
                   (fun _ st' =>
                      (doc_get image "encryptionType" <> JStr "steganography" ->
                       trace st' = trace st
                         ++ [EvRespond 400 (error_body (JStr "Not a steganography image"))])
                      /\ (forall path name,
                             In (EvDownload path name) (trace st') ->
                             In (EvDownload path name) (trace st)
                             \/ (doc_get image "encryptionType" = JStr "steganography"
                                 /\ path = doc_get image "encryptedPath"))) st).
  { destruct st as [f d t k r s o i n]. cbn [dbops db trace] in *.
    set (Q := fun _ _ => _).
    unfold get_download_stego.
    repeat (wp_next; try rewrite Hstore; try rewrite Hfind).
    all: try discriminate.
    all: try match goal with H : Some _ = Some _ |- _ => injection H as <- end.
    all: try match goal with
             | H : negb (is_str _ _) = false |- _ =>
                 apply negb_false_iff, is_str_eq in H
             end.
    all: subst Q; cbn [trace].
    all: split; [intros ?; first [reflexivity | congruence]|].
    all: intros path name H; apply in_app_or in H as [H|[H|[]]]; [auto|].
    all: first [discriminate H | injection H as <- _; auto]. }
  exact Hwp.
Qed.

End Download.

(* --------------------------------------------------------------------- *)
(** ** Cleanup and failure responses of the decrypting handlers *)

Lemma mem_remove_path p l : mem p (remove_path p l) = false.
Proof.
  unfold mem, remove_path. induction l as [|x l IH]; [reflexivity|].
  cbn. destruct (String.eqb p x) eqn:E; cbn; [exact IH|].
  now rewrite E, IH.
Qed.

Lemma mem_remove_path_absent p q l :
  mem p l = false -> mem p (remove_path q l) = false.
Proof.
  unfold mem, remove_path. induction l as [|x l IH]; [reflexivity|].
  cbn. intros H. apply orb_false_iff in H as [Hx Hl].
  destruct (String.eqb q x); cbn; [auto|].
  rewrite Hx. auto.
Qed.

Section Decrypting.

Variable w : World.

(** The invocation rejects (a non-zero exit, a timeout, output that does
    not parse): the handler answers 500 with the detail alone, and deletes
    nothing. *)
Lemma decrypt_with_rejected script no_file failed not_found name req st f detail :
  file req = Some f ->
  key_missing (assoc "key" (body req)) = false ->
  settle w (child w (spawned st)) = Throw detail ->
  let st' := exec_state (decrypt_with w script no_file failed not_found name req) st in
  (exists command,
      trace st' = trace st ++ [EvExec command exec_options;
                               EvRespond 500 (error_body (JStr detail))])
  /\ fs st' = fs st ++ exec_files (child w (spawned st)).
Proof.
  intros Hf Hk Hs. cbv zeta.
  change (wp (decrypt_with w script no_file failed not_found name req)
            (fun _ st' =>
               (exists command,
                   trace st' = trace st ++ [EvExec command exec_options;
                                            EvRespond 500 (error_body (JStr detail))])
               /\ fs st' = fs st ++ exec_files (child w (spawned st))) st).
  destruct st as [fs0 d t k r s o i n]. cbn [trace fs spawned] in *.
  set (Q := fun _ _ => _).
  unfold decrypt_with. rewrite Hf, Hk.
  repeat (wp_next; try rewrite Hs).
  subst Q. cbn [trace fs]. rewrite <- app_assoc.
  split; [eexists; reflexivity|reflexivity].
Qed.

(** The invocation resolves with a payload that reports failure: the
    staged input is deleted, then the handler answers 500 with the detail
    and the hint. *)
Lemma decrypt_with_reported_failure
  script no_file failed not_found name req st f result flag :
  file req = Some f ->
  key_missing (assoc "key" (body req)) = false ->
  settle w (child w (spawned st)) = Return result ->
  property result "success" = Return flag ->
  truthy flag = false ->
  mem (file_path f) (fs st ++ exec_files (child w (spawned st))) = true ->
  let st' := exec_state (decrypt_with w script no_file failed not_found name req) st in
  (exists command detail,
      trace st' = trace st ++ [EvExec command exec_options;
                               EvUnlink (file_path f);
                               EvRespond 500 (JObj [("error", detail);
                                                    ("hint", JStr wrong_key_hint)])])
  /\ mem (file_path f) (fs st') = false.
Proof.
  intros Hf Hk Hs Hp Ht Hm. cbv zeta.
  change (wp (decrypt_with w script no_file failed not_found name req)
            (fun _ st' =>
               (exists command detail,
                   trace st' = trace st ++ [EvExec command exec_options;
                                            EvUnlink (file_path f);
                                            EvRespond 500
                                              (JObj [("error", detail);
                                                     ("hint", JStr wrong_key_hint)])])
               /\ mem (file_path f) (fs st') = false) st).
  destruct st as [fs0 d t k r s o i n]. cbn [trace fs spawned] in *.
  set (Q := fun _ _ => _).
  unfold decrypt_with. rewrite Hf, Hk.
  repeat (wp_next; try rewrite Hs; try rewrite Hp; try rewrite Ht;
          try rewrite Hm).
  all: try discriminate.
  all: try property_absurd.
  subst Q. cbn [trace fs]. rewrite <- !app_assoc.
  split; [do 2 eexists; reflexivity|apply mem_remove_path].
Qed.

(** The invocation resolves with a payload that reports success and names
    a file that exists: the file is sent, and afterwards neither the
    staged input nor the produced output is on disk. *)
Lemma decrypt_with_success
  script no_file failed not_found name req st f result flag output :
  file req = Some f ->
  key_missing (assoc "key" (body req)) = false ->
  settle w (child w (spawned st)) = Return result ->
  property result "success" = Return flag ->
  truthy flag = true ->
  property result "decrypted_path" = Return (JStr output) ->
  mem output (fs st ++ exec_files (child w (spawned st))) = true ->
  let st' := exec_state (decrypt_with w script no_file failed not_found name req) st in
  In (EvDownload (JStr output) (JStr name)) (trace st')
  /\ mem (file_path f) (fs st') = false
  /\ mem output (fs st') = false.
Proof.
  intros Hf Hk Hs Hp Ht Hout Hm. cbv zeta.
  change (wp (decrypt_with w script no_file failed not_found name req)
            (fun _ st' =>
               In (EvDownload (JStr output) (JStr name)) (trace st')
               /\ mem (file_path f) (fs st') = false
               /\ mem output (fs st') = false) st).
  destruct st as [fs0 d t k r s o i n]. cbn [trace fs spawned] in *.
  set (Q := fun _ _ => _).
  unfold decrypt_with. rewrite Hf, Hk.
  repeat (wp_next; try rewrite Hs; try rewrite Hp; try rewrite Ht;
          try rewrite Hout; cbn [on_disk negb]; try rewrite Hm).
  all: try discriminate.
  all: try property_absurd.
  all: subst Q; cbn [trace fs]; split;
    [rewrite !in_app_iff; cbn [In]; auto 10|].
  all: cbn [on_disk] in *.
  all: repeat match goal with
              | |- _ /\ _ => split
              | |- _ => assumption
              | |- mem ?p (remove_path ?p _) = false => apply mem_remove_path
              | |- mem _ (remove_path _ _) = false => apply mem_remove_path_absent
              end.
Qed.

End Decrypting.

(* --------------------------------------------------------------------- *)
(** ** The routes over stored records *)

Lemma answers_app t1 t2 : answers (t1 ++ t2) = (answers t1 + answers t2)%nat.
Proof. unfold answers. now rewrite filter_app, length_app. Qed.

Lemma find_after_removal id (l : list Doc) :
  find (has_id id) (filter (fun d => negb (has_id id d)) l) = None.
Proof.
  induction l as [|x l IH]; [reflexivity|]. cbn.
  destruct (has_id id x) eqn:E; cbn; [exact IH|]. now rewrite E.
Qed.

Lemma on_disk_remove_path p l s :
  on_disk p l = false -> on_disk p (remove_path s l) = false.
Proof. destruct p; cbn; auto. apply mem_remove_path_absent. Qed.

Lemma on_disk_removed s l : on_disk (JStr s) (remove_path s l) = false.
Proof. apply mem_remove_path. Qed.

Lemma mem_remove_path_sub p q l :
  mem p (remove_path q l) = true -> mem p l = true.
Proof.
  unfold mem, remove_path. rewrite !existsb_exists.
  intros (x & Hx & Hp). apply filter_In in Hx as [Hx _]. eauto.
Qed.

Lemma mem_remove_path_eq p q l :
  mem p (remove_path q l) = mem p l && negb (String.eqb q p).
Proof.
  unfold mem, remove_path. induction l as [|x l IH]; [reflexivity|].
  cbn. destruct (String.eqb q x) eqn:E; cbn.
  - apply String.eqb_eq in E. subst x. rewrite IH.
    rewrite (String.eqb_sym p q). destruct (String.eqb q p); cbn;
      [now rewrite andb_false_r | reflexivity].
  - rewrite IH. destruct (String.eqb p x) eqn:E'; cbn; [|reflexivity].
    apply String.eqb_eq in E'. subst x. now rewrite E.
Qed.

(** Boolean facts about paths on disk, by cases on the equalities of
    paths. *)
Ltac close_disk :=
  rewrite ?mem_remove_path_eq in *;
  repeat match goal with
         | H : context [mem _ _] |- _ => revert H
         | H : context [String.eqb _ _] |- _ => revert H
         end;
  repeat match goal with
         | |- context [String.eqb ?a ?b] =>
             let E := fresh "E" in
             destruct (String.eqb a b) eqn:E;
             [apply String.eqb_eq in E; try subst|]
         end;
  repeat match goal with
         | |- context [mem ?p ?l] => destruct (mem p l)
         end;
  cbn [andb orb negb]; intros;
  rewrite ?String.eqb_refl, ?andb_false_r, ?andb_true_r in *;
  cbn [andb orb negb];
  try reflexivity; try discriminate; try congruence.

Ltac pick_unlinks :=
  match goal with
  | |- context [_ ++ [_; ?a; ?b; _] = _] => exists [a; b]
  | |- context [_ ++ [_; ?a; _] = _] => exists [a]
  | |- context [_ ++ [_; _] = _] => exists []
  end.

Lemma released_spec (image : Doc) (q : string) (there : bool) :
  there && negb (released image q) = true
  <-> there = true
      /\ doc_get image "encryptedPath" <> JStr q
      /\ ~ (truthy (doc_get image "originalPath") = true
            /\ doc_get image "originalPath" = JStr q).
Proof.
  unfold released.
  destruct there; cbn [andb];
    [|split; [discriminate | intros [H _]; discriminate H]].
  destruct (is_str (doc_get image "encryptedPath") q) eqn:E1;
    destruct (truthy (doc_get image "originalPath")) eqn:E2;
    destruct (is_str (doc_get image "originalPath") q) eqn:E3;
    cbn [orb andb negb]; (split; [intros H; try discriminate H|]).
  all: try (split; [reflexivity|]; split;
            [ intros Heq; apply is_str_eq in Heq; congruence
            | intros [Ht Heq]; try discriminate Ht;
              apply is_str_eq in Heq; congruence ]).
  all: intros (_ & Hn1 & Hn2); try reflexivity; exfalso.
  all: try (apply Hn1, is_str_eq; exact E1).
  all: apply Hn2; split; [reflexivity | apply is_str_eq; exact E3].
Qed.

Section StoredRecords.

Variable w : World.

(** X1. Deleting an id for which the store has no record answers 404 and
    changes neither the store nor the disk. *)
Theorem X1_delete_of_missing_record_is_not_found (req : Request) (st : State) :
  store w (dbops st) (OpFindByIdAndDelete (params_id req)) = None ->
  find (has_id (params_id req)) (db st) = None ->
  let st' := exec_state (delete_image w req) st in
  trace st' = trace st ++ [EvRespond 404 (error_body (JStr "Image not found"))]
  /\ db st' = db st
  /\ fs st' = fs st.
Proof.
  intros Hstore Hfind. cbv zeta.
  change (wp (delete_image w req)
            (fun _ st' =>
               trace st' = trace st
                           ++ [EvRespond 404 (error_body (JStr "Image not found"))]
               /\ db st' = db st /\ fs st' = fs st) st).
  destruct st as [f d t k r s o i n]. cbn [dbops db trace fs] in *.
  set (Q := fun _ _ => _).
  unfold delete_image.
  repeat (wp_next; try rewrite Hstore; try rewrite Hfind).
  all: try discriminate.
  subst Q. cbn [trace db fs]. auto.
Qed.

(** What the deletion of a stored record does to the store, the disk and
    the trace. *)
Lemma delete_image_found
  (req : Request) (st : State) (image : Doc) :
  store w (dbops st) (OpFindByIdAndDelete (params_id req)) = None ->
  find (has_id (params_id req)) (db st) = Some image ->
  let st' := exec_state (delete_image w req) st in
  db st' = filter (fun d => negb (has_id (params_id req) d)) (db st)
  /\ find (has_id (params_id req)) (db st') = None
  /\ on_disk (doc_get image "encryptedPath") (fs st') = false
  /\ (truthy (doc_get image "originalPath") = true ->
      on_disk (doc_get image "originalPath") (fs st') = false)
  /\ exists unlinks,
       trace st' = trace st ++ EvRemove (params_id req) :: unlinks
                     ++ [EvRespond 200 (JObj [("success", JBool true);
                                              ("message", JStr "Image deleted")])]
       /\ forall e, In e unlinks ->
                    exists p, e = EvUnlink p
                              /\ (doc_get image "encryptedPath" = JStr p
                                  \/ doc_get image "originalPath" = JStr p).
Proof.
  intros Hstore Hfind. cbv zeta.
  change (wp (delete_image w req)
            (fun _ st' =>
               db st' = filter (fun d => negb (has_id (params_id req) d)) (db st)
               /\ find (has_id (params_id req)) (db st') = None
               /\ on_disk (doc_get image "encryptedPath") (fs st') = false
               /\ (truthy (doc_get image "originalPath") = true ->
                   on_disk (doc_get image "originalPath") (fs st') = false)
               /\ exists unlinks,
                   trace st' = trace st ++ EvRemove (params_id req) :: unlinks
                     ++ [EvRespond 200 (JObj [("success", JBool true);
                                              ("message", JStr "Image deleted")])]
                   /\ forall e, In e unlinks ->
                        exists p, e = EvUnlink p
                                  /\ (doc_get image "encryptedPath" = JStr p
                                      \/ doc_get image "originalPath" = JStr p)) st).
  destruct st as [f d t k r s o i n]. cbn [dbops db trace fs] in *.
  set (Q := fun _ _ => _).
  unfold delete_image.
  repeat (wp_next; try rewrite Hstore; try rewrite Hfind).
  all: try discriminate.
  all: match goal with H : Some _ = Some _ |- _ => injection H as <- end.
  all: cbn [on_disk] in *; try congruence.
  all: subst Q; cbn [db fs trace];
    (split; [reflexivity|]); (split; [apply find_after_removal|]).
  all: repeat match goal with H : doc_get _ _ = _ |- _ => rewrite H end.
  all: cbn [on_disk truthy].
  all: rewrite <- ?app_assoc; cbn [app].
  all: repeat split; try discriminate; try reflexivity; intros;
    try (repeat apply mem_remove_path_absent; assumption);
    try (apply mem_remove_path);
    try (apply mem_remove_path_absent, mem_remove_path);
    try (repeat match goal with
                | H : mem _ (remove_path _ _) = true |- _ =>
                    apply mem_remove_path_sub in H
                end; assumption).
  all: try congruence.
  all: try (apply on_disk_remove_path; assumption).
  all: pick_unlinks; (split; [reflexivity|]);
    intros e He; cbn [In] in He;
    repeat match goal with
           | H : _ \/ _ |- _ => destruct H
           | H : False |- _ => destruct H
           end; subst e; eauto.
Qed.

(** The disk after the deletion of a stored record: what was there, less
    the files the record releases. *)
Lemma delete_image_disk (req : Request) (st : State) (image : Doc) :
  store w (dbops st) (OpFindByIdAndDelete (params_id req)) = None ->
  find (has_id (params_id req)) (db st) = Some image ->
  forall q,
    mem q (fs (exec_state (delete_image w req) st))
    = mem q (fs st) && negb (released image q).
Proof.
  intros Hstore Hfind.
  change (wp (delete_image w req)
            (fun _ st' =>
               forall q, mem q (fs st')
                         = mem q (fs st) && negb (released image q)) st).
  destruct st as [f d t k r s o i n]. cbn [dbops db trace fs] in *.
  set (Q := fun _ _ => _).
  unfold delete_image.
  repeat (wp_next; try rewrite Hstore; try rewrite Hfind).
  all: try discriminate.
  all: match goal with H : Some _ = Some _ |- _ => injection H as <- end.
  all: cbn [on_disk] in *; try congruence.
  all: subst Q; cbn [fs]; intros q; unfold released.
  all: repeat match goal with H : doc_get _ _ = _ |- _ => rewrite H in * end.
  all: repeat match goal with
              | |- context [doc_get ?record ?key] =>
                  destruct (doc_get record key) eqn:?
              end.
  all: cbn [on_disk truthy is_str] in *.
  all: close_disk.
Qed.

(** X3. When the store rejects the query of a route over stored records
    (the list, a deletion, a download), the route answers 500 with the
    message of the store and changes neither the store nor the disk. *)
Theorem X3_store_fault_is_answered_500
  (c : Call) (op : StoreOp) (message : string) (st : State) :
  query_of c = Some op ->
  store w (dbops st) op = Some message ->
  let st' := exec_state (handle w c) st in
  trace st' = trace st ++ [EvRespond 500 (error_body (JStr message))]
  /\ db st' = db st
  /\ fs st' = fs st.
Proof.
  intros Hq Hstore. cbv zeta.
  change (wp (handle w c)
            (fun _ st' =>
               trace st' = trace st ++ [EvRespond 500 (error_body (JStr message))]
               /\ db st' = db st /\ fs st' = fs st) st).
  destruct st as [f d t k r s o i n]. cbn [dbops db trace fs] in *.
  set (Q := fun _ _ => _).
  destruct c; try discriminate Hq; cbn [query_of] in Hq;
    injection Hq as <-; cbn [handle];
    unfold get_images, delete_image, get_download, get_download_stego;
    repeat (wp_next; try rewrite Hstore).
  all: try discriminate.
  all: subst Q; cbn [trace db fs]; auto.
Qed.

(** The download route changes neither the store nor the disk, and
    answers 404 when the store has no record for the id. *)
Lemma get_download_kept (req : Request) (st : State) :
  store w (dbops st) (OpFindById (params_id req)) = None ->
  let st' := exec_state (get_download w req) st in
  (find (has_id (params_id req)) (db st) = None ->
   trace st' = trace st ++ [EvRespond 404 (error_body (JStr "Image not found"))])
  /\ db st' = db st
  /\ fs st' = fs st.
Proof.
  intros Hstore. cbv zeta.
  change (wp (get_download w req)
            (fun _ st' =>
               (find (has_id (params_id req)) (db st) = None ->
                trace st' = trace st
                  ++ [EvRespond 404 (error_body (JStr "Image not found"))])
               /\ db st' = db st /\ fs st' = fs st) st).
  destruct st as [f d t k r s o i n]. cbn [dbops db trace fs] in *.
  set (Q := fun _ _ => _).
  unfold get_download.
  repeat (wp_next; try rewrite Hstore).
  all: try discriminate.
  all: subst Q; cbn [trace db fs]; repeat split; try reflexivity.
  all: intros Hnone; congruence.
Qed.

(** The one event of the download route for a record whose path and name
    are strings: the download when the file is there, the answer of the
    error handler of server.js when it is not. *)
Lemma get_download_found (req : Request) (st : State) (image : Doc)
  (p name : string) :
  store w (dbops st) (OpFindById (params_id req)) = None ->
  find (has_id (params_id req)) (db st) = Some image ->
  doc_get image "encryptedPath" = JStr p ->
  doc_get image "encryptedName" = JStr name ->
  let st' := exec_state (get_download w req) st in
  trace st'
  = trace st
    ++ [if mem p (fs st)
        then EvDownload (JStr p) (JStr name)
        else EvRespond 500
               (error_body (JStr ("ENOENT: no such file or directory, stat '"
                                  ++ p ++ "'")%string))]
  /\ db st' = db st
  /\ fs st' = fs st.
Proof.
  intros Hstore Hfind Hpath Hname. cbv zeta.
  change (wp (get_download w req)
            (fun _ st' =>
               trace st'
               = trace st
                 ++ [if mem p (fs st)
                     then EvDownload (JStr p) (JStr name)
                     else EvRespond 500
                            (error_body
                               (JStr ("ENOENT: no such file or directory, stat '"
                                      ++ p ++ "'")%string))]
               /\ db st' = db st /\ fs st' = fs st) st).
  destruct st as [f d t k r s o i n]. cbn [dbops db trace fs] in *.
  set (Q := fun _ _ => _).
  unfold get_download.
  repeat (wp_next; try rewrite Hstore; try rewrite Hfind;
          try match goal with
              | H : Some _ = Some _ |- _ => injection H as <-
              end;
          try rewrite Hpath; try rewrite Hname).
  all: try discriminate.
  all: subst Q; cbn [trace db fs on_disk] in *.
  all: repeat match goal with
              | H : JStr _ = JStr _ |- _ => injection H as <-
              | H : mem _ _ = _ |- _ => rewrite H
              end; auto.
Qed.

(** The one event of the stego download route for a record whose path is a
    string. *)
Lemma get_download_stego_found (req : Request) (st : State) (image : Doc)
  (p : string) :
  store w (dbops st) (OpFindById (params_id req)) = None ->
  find (has_id (params_id req)) (db st) = Some image ->
  doc_get image "encryptedPath" = JStr p ->
  let st' := exec_state (get_download_stego w req) st in
  trace st'
  = trace st
    ++ [if is_str (doc_get image "encryptionType") "steganography"
        then if mem p (fs st)
             then EvDownload (JStr p) (JStr "stego_image.png")
             else EvRespond 500
                    (error_body
                       (JStr ("ENOENT: no such file or directory, stat '"
                              ++ p ++ "'")%string))
        else EvRespond 400 (error_body (JStr "Not a steganography image"))]
  /\ db st' = db st
  /\ fs st' = fs st.
Proof.
  intros Hstore Hfind Hpath. cbv zeta.
  change (wp (get_download_stego w req)
            (fun _ st' =>
               trace st'
               = trace st
                 ++ [if is_str (doc_get image "encryptionType") "steganography"
                     then if mem p (fs st)
                          then EvDownload (JStr p) (JStr "stego_image.png")
                          else EvRespond 500
                                 (error_body
                                    (JStr ("ENOENT: no such file or directory, stat '"
                                           ++ p ++ "'")%string))
                     else EvRespond 400
                            (error_body (JStr "Not a steganography image"))]
               /\ db st' = db st /\ fs st' = fs st) st).
  destruct st as [f d t k r s o i n]. cbn [dbops db trace fs] in *.
  set (Q := fun _ _ => _).
  unfold get_download_stego.
  repeat (wp_next; try rewrite Hstore; try rewrite Hfind;
          try match goal with
              | H : Some _ = Some _ |- _ => injection H as <-
              end;
          try rewrite Hpath).
  all: try discriminate.
  all: subst Q; cbn [trace db fs on_disk] in *.
  all: repeat match goal with
              | H : negb _ = true |- _ => apply negb_true_iff in H
              | H : negb _ = false |- _ => apply negb_false_iff in H
              end.
  all: repeat match goal with
              | H : JStr _ = JStr _ |- _ => injection H as <-
              | H : mem _ _ = _ |- _ => rewrite H
              | H : is_str _ _ = _ |- _ => rewrite H
              end; auto.
Qed.

(** X2. Deleting an id the store has a record for removes every record
    with that id and no other, then deletes the files the record names, its
    output and (when the record names one) its original upload, and answers
    with success.  A path is on disk afterwards exactly when it was on disk
    before and is not one of those two: nothing else leaves the disk and
    nothing is created. *)
Theorem X2_delete_removes_the_record_then_its_files
  (req : Request) (st : State) (image : Doc) :
  store w (dbops st) (OpFindByIdAndDelete (params_id req)) = None ->
  find (has_id (params_id req)) (db st) = Some image ->
  let st' := exec_state (delete_image w req) st in
  db st' = filter (fun d => negb (has_id (params_id req) d)) (db st)
  /\ find (has_id (params_id req)) (db st') = None
  /\ on_disk (doc_get image "encryptedPath") (fs st') = false
  /\ (truthy (doc_get image "originalPath") = true ->
      on_disk (doc_get image "originalPath") (fs st') = false)
  /\ (forall q,
        mem q (fs st') = true
        <-> mem q (fs st) = true
            /\ doc_get image "encryptedPath" <> JStr q
            /\ ~ (truthy (doc_get image "originalPath") = true
                  /\ doc_get image "originalPath" = JStr q))
  /\ exists unlinks,
       trace st' = trace st ++ EvRemove (params_id req) :: unlinks
                     ++ [EvRespond 200 (JObj [("success", JBool true);
                                              ("message", JStr "Image deleted")])]
       /\ forall e, In e unlinks ->
                    exists p, e = EvUnlink p
                              /\ (doc_get image "encryptedPath" = JStr p
                                  \/ doc_get image "originalPath" = JStr p).
Proof.
  intros Hstore Hfind. cbv zeta.
  destruct (delete_image_found req st image Hstore Hfind)
    as (Hdb & Hgone & Hout & Horig & Htrace).
  repeat (split; [assumption|]).
  split; [|exact Htrace].
  intros q. rewrite (delete_image_disk req st image Hstore Hfind q).
  apply released_spec.
Qed.

(** X4. The download route serves the record the store has for the id,
    of any type.  For a record whose encryptedPath and encryptedName are
    strings it sends the file at that path under that name when the file
    is on disk; when the file is not there nothing is sent and the request
    is answered 500 by the error handler of the application.  Without a
    record the route answers 404.  Store and disk are unchanged in every
    case. *)
Theorem X4_download_sends_the_output_of_the_record (req : Request) (st : State) :
  store w (dbops st) (OpFindById (params_id req)) = None ->
  let st' := exec_state (get_download w req) st in
  (find (has_id (params_id req)) (db st) = None ->
   trace st' = trace st ++ [EvRespond 404 (error_body (JStr "Image not found"))])
  /\ (forall image p name,
         find (has_id (params_id req)) (db st) = Some image ->
         doc_get image "encryptedPath" = JStr p ->
         doc_get image "encryptedName" = JStr name ->
         (mem p (fs st) = true ->
          trace st' = trace st ++ [EvDownload (JStr p) (JStr name)])
         /\ (mem p (fs st) = false ->
             exists detail,
               trace st' = trace st ++ [EvRespond 500 (error_body (JStr detail))]))
  /\ db st' = db st
  /\ fs st' = fs st.
Proof.
  intros Hstore. cbv zeta.
  destruct (get_download_kept req st Hstore) as (Hmissing & Hdb & Hfs).
  split; [exact Hmissing|]. split; [|split; assumption].
  intros image p name Hfind Hpath Hname.
  destruct (get_download_found req st image p name Hstore Hfind Hpath Hname)
    as (Htr & _).
  split; intros Hdisk; rewrite Hdisk in Htr; eauto.
Qed.

(** X6. The routes that only look (the list, the two downloads, the
    metrics test) answer with a single event and change nothing: no record
    is written or removed, no file is created or deleted, no child process
    is started. *)
Theorem X6_looking_routes_change_nothing (c : Call) (st : State) :
  read_only c = true ->
  let st' := exec_state (handle w c) st in
  (exists e, trace st' = trace st ++ [e] /\ is_answer e = true)
  /\ db st' = db st
  /\ fs st' = fs st
  /\ spawned st' = spawned st.
Proof.
  intros Hc. cbv zeta.
  change (wp (handle w c)
            (fun _ st' =>
               (exists e, trace st' = trace st ++ [e] /\ is_answer e = true)
               /\ db st' = db st /\ fs st' = fs st
               /\ spawned st' = spawned st) st).
  destruct st as [f d t k r s o i n]. cbn [dbops db trace fs spawned] in *.
  set (Q := fun _ _ => _).
  destruct c; try discriminate Hc; cbn [handle];
    unfold get_images, get_download, get_download_stego, get_test_metrics;
    wp_run.
  all: subst Q; cbn [trace db fs spawned]; eauto 6.
Qed.

(** X7. Every request is answered exactly once: whatever happens, a route
    handler adds one response or one download to the trace, never none and
    never two. *)
Theorem X7_every_request_is_answered_once (c : Call) (st : State) :
  is_request c = true ->
  answers (trace (exec_state (handle w c) st)) = S (answers (trace st)).
Proof.
  intros Hc.
  change (wp (handle w c)
            (fun _ st' => answers (trace st') = S (answers (trace st))) st).
  destruct st as [f d t k r s o i n]. cbn [trace].
  set (Q := fun _ _ => _).
  destruct c as [[| | |] req|p| |req|req|req|]; try discriminate Hc;
    cbn [handle pipeline];
    unfold post_encrypt, post_decrypt, post_decrypt_stego, decrypt_with,
      post_encrypt_stego, get_images, delete_image, get_download,
      get_download_stego, get_test_metrics;
    wp_run.
  all: subst Q; cbn [trace]; rewrite !answers_app; cbn; lia.
Qed.

End StoredRecords.

(* --------------------------------------------------------------------- *)
(** ** The list of images *)

Lemma insert_desc_perm d l : Permutation (insert_desc d l) (d :: l).
Proof.
  induction l as [|x l IH]; cbn; [reflexivity|].
  destruct (uploadDate_of x <? uploadDate_of d); [reflexivity|].
  rewrite IH. apply perm_swap.
Qed.

Lemma sorted_desc_perm l : Permutation (fold_right insert_desc [] l) l.
Proof.
  induction l as [|x l IH]; cbn; [reflexivity|].
  rewrite insert_desc_perm. now constructor.
Qed.

Lemma insert_desc_descending d l :
  descending l -> descending (insert_desc d l).
Proof.
  induction l as [|x l IH]; cbn; intros H.
  - split; [intros d' []|exact I].
  - destruct H as [Hx Hl].
    destruct (uploadDate_of x <? uploadDate_of d) eqn:E.
    + apply Z.ltb_lt in E. split; [|split; assumption].
      intros d' [<-|Hd']; [lia|]. specialize (Hx d' Hd'). lia.
    + apply Z.ltb_ge in E. split; [|auto].
      intros d' Hd'.
      apply (Permutation_in _ (insert_desc_perm d l)) in Hd' as [<-|Hd'];
        [exact E|auto].
Qed.

Lemma sorted_desc_descending l : descending (fold_right insert_desc [] l).
Proof.
  induction l as [|x l IH]; cbn; [exact I|].
  now apply insert_desc_descending.
Qed.

Lemma in_firstn (A : Type) n (l : list A) x : In x (firstn n l) -> In x l.
Proof. intros H. rewrite <- (firstn_skipn n l). apply in_or_app. auto. Qed.

Lemma in_skipn (A : Type) n (l : list A) x : In x (skipn n l) -> In x l.
Proof. intros H. rewrite <- (firstn_skipn n l). apply in_or_app. auto. Qed.

Lemma descending_split n l d d' :
  descending l -> In d (firstn n l) -> In d' (skipn n l) ->
  uploadDate_of d' <= uploadDate_of d.
Proof.
  revert n. induction l as [|x l IH]; intros [|n] Hl Hd Hd'; cbn in *;
    try contradiction.
  destruct Hl as [Hx Hl]. destruct Hd as [<-|Hd].
  - apply Hx. exact (in_skipn _ _ _ _ Hd').
  - eauto.
Qed.

Lemma descending_firstn n l : descending l -> descending (firstn n l).
Proof.
  revert n. induction l as [|x l IH]; intros [|n] H; cbn in *; auto.
  destruct H as [Hx Hl]. split; [|auto].
  intros d' Hd'. apply Hx. exact (in_firstn _ _ _ _ Hd').
Qed.

Section ImageList.

Variable w : World.

(** X5. The list route answers with at most 100 records of the store,
    newest upload first; every record it leaves out is no newer than any
    record it lists, and with 100 records or fewer in the store it lists
    them all.  The store is left as it is. *)
Theorem X5_images_are_the_hundred_most_recent (st : State) :
  store w (dbops st) OpFind = None ->
  let st' := exec_state (get_images w) st in
  exists images,
    trace st' = trace st ++ [EvRespond 200 (JObj [("success", JBool true);
                                                  ("images", JArr (map JObj images))])]
    /\ db st' = db st
    /\ (length images <= 100)%nat
    /\ incl images (db st)
    /\ descending images
    /\ (forall d d', In d images -> In d' (db st) -> ~ In d' images ->
                     uploadDate_of d' <= uploadDate_of d)
    /\ ((length (db st) <= 100)%nat -> Permutation images (db st)).
Proof.
  intros Hstore. cbv zeta.
  exists (firstn 100 (fold_right insert_desc [] (db st))).
  assert (Hrun : trace (exec_state (get_images w) st)
                 = trace st ++ [EvRespond 200
                                  (JObj [("success", JBool true);
                                         ("images",
                                          JArr (map JObj
                                                  (firstn 100
                                                     (fold_right insert_desc []
                                                        (db st)))))])]
                 /\ db (exec_state (get_images w) st) = db st).
  { change (wp (get_images w)
              (fun _ st' =>
                 trace st' = trace st ++ [EvRespond 200
                                  (JObj [("success", JBool true);
                                         ("images",
                                          JArr (map JObj
                                                  (firstn 100
                                                     (fold_right insert_desc []
                                                        (db st)))))])]
                 /\ db st' = db st) st).
    destruct st as [f d t k r s o i n]. cbn [dbops db trace] in *.
    set (Q := fun _ _ => _). unfold get_images.
    repeat (wp_next; try rewrite Hstore).
    all: try discriminate.
    subst Q. cbn [trace db]. auto. }
  destruct Hrun as [Htrace Hdb].
  pose proof (sorted_desc_perm (db st)) as Hperm.
  pose proof (sorted_desc_descending (db st)) as Hdesc.
  split; [exact Htrace|]. split; [exact Hdb|].
  split; [apply firstn_le_length|].
  split.
  { intros x Hx. apply in_firstn in Hx. exact (Permutation_in _ Hperm Hx). }
  split; [apply descending_firstn; exact Hdesc|].
  split.
  { intros d d' Hd Hd' Hout.
    apply (descending_split 100 _ d d' Hdesc Hd).
    apply (Permutation_in _ (Permutation_sym Hperm)) in Hd'.
    rewrite <- (firstn_skipn 100) in Hd'.
    apply in_app_or in Hd' as [Hd'|Hd']; [contradiction|exact Hd']. }
  intros Hlen. rewrite firstn_all2; [exact Hperm|].
  now rewrite (Permutation_length Hperm).
Qed.

End ImageList.

(* --------------------------------------------------------------------- *)
(** ** The transformation routes *)

Lemma mem_app p l1 l2 : mem p (l1 ++ l2) = mem p l1 || mem p l2.
Proof. unfold mem. apply existsb_app. Qed.

Lemma mem_app_l p l1 l2 : mem p l1 = true -> mem p (l1 ++ l2) = true.
Proof. intros H. now rewrite mem_app, H. Qed.

Lemma validated_decrypting op req f :
  encrypting op = false ->
  file req = Some f ->
  key_missing (assoc "key" (body req)) = false ->
  validated op req.
Proof.
  intros Hop Hf Hk. apply key_missing_iff in Hk.
  destruct op; try discriminate Hop; (split; cbn; [congruence|exact Hk]).
Qed.

(** Events of a trace grown one event at a time. *)
Ltac in_grown_trace H :=
  repeat (apply in_app_or in H as [H|[H|[]]]; [|try discriminate H]).

Ltac success_from_equations :=
  unfold reports_success;
  repeat match goal with H : _ = Return _ |- _ => rewrite H end;
  match goal with H : negb _ = false |- _ => now apply negb_false_iff in H end.

Ltac close_detail :=
  try congruence;
  repeat match goal with H : Return _ = Return _ |- _ => injection H as <- end;
  try property_absurd;
  repeat match goal with
         | H1 : property ?v ?k = _, H2 : property ?v ?k = _ |- _ =>
             rewrite H1 in H2; first [discriminate H2 | injection H2 as <-]
         end;
  try reflexivity.

(** The command in the trace is the transformation command of the
    request. *)
Ltac close_command :=
  unfold transformation_command;
  repeat match goal with
         | H : file _ = Some _ |- _ => rewrite H
         | H : files _ = Some _ |- _ => rewrite H
         | H : assoc _ _ = Some _ |- _ => rewrite H
         end;
  reflexivity.

Section Transformations.

Variable w : World.

(** X8. The encrypting routes never delete a file: on every path, success
    or failure, whatever was on disk before is on disk afterwards, the
    staged upload included, and the trace gains no unlink. *)
Theorem X8_encrypting_routes_never_delete
  (op : Operation) (req : Request) (st : State) :
  encrypting op = true ->
  let st' := exec_state (pipeline w op req) st in
  (exists left_behind, fs st' = fs st ++ left_behind)
  /\ (forall p, mem p (fs st) = true -> mem p (fs st') = true)
  /\ (forall p, In (EvUnlink p) (trace st') -> In (EvUnlink p) (trace st)).
Proof.
  intros Hop. cbv zeta.
  change (wp (pipeline w op req)
            (fun _ st' =>
               (exists left_behind, fs st' = fs st ++ left_behind)
               /\ (forall p, mem p (fs st) = true -> mem p (fs st') = true)
               /\ (forall p, In (EvUnlink p) (trace st') ->
                             In (EvUnlink p) (trace st))) st).
  destruct st as [f d t k r s o i n]. cbn [fs trace].
  set (Q := fun _ _ => _).
  destruct op; try discriminate Hop; cbn [pipeline];
    unfold post_encrypt, post_encrypt_stego; wp_run.
  all: subst Q; cbn [fs trace]; split;
    [first [exists []; now rewrite app_nil_r
           | eexists; reflexivity
           | eexists; rewrite <- app_assoc; reflexivity]
    | split;
      [intros p Hp; repeat apply mem_app_l; exact Hp
      | intros p Hp; in_grown_trace Hp; exact Hp]].
Qed.

(** X9. A request starts at most two child processes when it encrypts and
    at most one when it decrypts; it starts none unless it was validated,
    and it starts the second, the metrics computation, only after the
    transformation succeeded. *)
Theorem X9_child_processes_of_a_request
  (op : Operation) (req : Request) (st : State) :
  let st' := exec_state (pipeline w op req) st in
  exists started,
    invocations (trace st') = (invocations (trace st) + started)%nat
    /\ spawned st' = (spawned st + started)%nat
    /\ (started <= if encrypting op then 2 else 1)%nat
    /\ ((1 <= started)%nat -> validated op req)
    /\ (started = 2%nat -> transformation_succeeded w op req st).
Proof.
  cbv zeta.
  change (wp (pipeline w op req)
            (fun _ st' =>
               exists started,
                 invocations (trace st') = (invocations (trace st) + started)%nat
                 /\ spawned st' = (spawned st + started)%nat
                 /\ (started <= if encrypting op then 2 else 1)%nat
                 /\ ((1 <= started)%nat -> validated op req)
                 /\ (started = 2%nat -> transformation_succeeded w op req st)) st).
  destruct st as [f d t k r s o i n].
  unfold transformation_succeeded. cbn [trace spawned].
  set (Q := fun _ _ => _).
  destruct op; cbn [pipeline];
    unfold post_encrypt, post_encrypt_stego, post_decrypt, post_decrypt_stego,
      decrypt_with; wp_run.
  all: subst Q; cbn [trace spawned encrypting]; rewrite ?invocations_app;
    cbn [invocations filter is_exec length Nat.add].
  all: first
         [ exists 0%nat; split; [lia|]; split; [lia|]; split; [lia|];
           split; [lia|discriminate]
         | exists 1%nat; split; [lia|]; split; [lia|]; split; [lia|];
           split; [|discriminate]; intros _;
           first [ eapply validated_encrypt; eassumption
                 | eapply validated_stego; eassumption
                 | eapply validated_decrypting; [reflexivity|eassumption..] ]
         | exists 2%nat; split; [lia|]; split; [lia|]; split; [lia|];
           split; intros _;
           [ first [ eapply validated_encrypt; eassumption
                   | eapply validated_stego; eassumption ]
           | split;
             [ first [ eapply validated_encrypt; eassumption
                     | eapply validated_stego; eassumption ]
             | success_from_equations ] ] ].
Qed.

(** X10. When the transformation of a validated encrypting request does not
    report success, the request ends there: one child process, the one
    that runs the transformation command of the request, a single 500
    response, no record.  The response carries the detail of the rejection
    when the child was rejected; the text of the TypeError when the payload
    is null, of which no property can be read; and otherwise the error of
    the payload, or the route's own failure message when that error is
    falsy. *)
Theorem X10_failed_transformation_ends_the_encrypting_request
  (op : Operation) (req : Request) (st : State) :
  encrypting op = true ->
  validated op req ->
  reports_success (settle w (child w (spawned st))) = false ->
  let st' := exec_state (pipeline w op req) st in
  exists command body,
    trace st' = trace st ++ [EvExec command exec_options; EvRespond 500 body]
    /\ transformation_command w op req = Some command
    /\ db st' = db st
    /\ spawned st' = S (spawned st)
    /\ (forall detail, settle w (child w (spawned st)) = Throw detail ->
                       body = error_body (JStr detail))
    /\ (forall result detail,
           settle w (child w (spawned st)) = Return result ->
           property result "success" = Throw detail ->
           body = error_body (JStr detail))
    /\ (forall result flag error,
           settle w (child w (spawned st)) = Return result ->
           property result "success" = Return flag ->
           property result "error" = Return error ->
           body = error_body (js_or error (JStr (failure_message op)))).
Proof.
  intros Hop Hval Hfail. cbv zeta.
  change (wp (pipeline w op req)
            (fun _ st' =>
               exists command body,
                 trace st' = trace st ++ [EvExec command exec_options;
                                          EvRespond 500 body]
                 /\ transformation_command w op req = Some command
                 /\ db st' = db st
                 /\ spawned st' = S (spawned st)
                 /\ (forall detail, settle w (child w (spawned st)) = Throw detail ->
                                    body = error_body (JStr detail))
                 /\ (forall result detail,
                        settle w (child w (spawned st)) = Return result ->
                        property result "success" = Throw detail ->
                        body = error_body (JStr detail))
                 /\ (forall result flag error,
                        settle w (child w (spawned st)) = Return result ->
                        property result "success" = Return flag ->
                        property result "error" = Return error ->
                        body = error_body
                                 (js_or error (JStr (failure_message op))))) st).
  destruct st as [f d t k r s o i n]. cbn [trace db spawned] in *.
  unfold reports_success in Hfail.
  set (Q := fun _ _ => _).
  destruct op; try discriminate Hop; cbn [pipeline].
  - destruct (validated_encrypt_inv req Hval) as (f0 & Hf & Hk).
    unfold post_encrypt. rewrite Hf, Hk. wp_run.
    all: try (match goal with H : negb (truthy _) = false |- _ =>
                apply negb_false_iff in H; congruence end).
    all: try property_absurd.
    all: subst Q; cbn [trace db spawned failure_message]; rewrite <- app_assoc;
      do 2 eexists; (split; [reflexivity|]); (split; [close_command|]);
      (split; [reflexivity|]); (split; [reflexivity|]);
      repeat split; intros; close_detail.
  - destruct (validated_stego_inv req Hval)
      as (slots & secret & cover & H1 & H2 & H3 & H4).
    unfold post_encrypt_stego. rewrite H1, H2, H3, H4. wp_run.
    all: try (match goal with H : negb (truthy _) = false |- _ =>
                apply negb_false_iff in H; congruence end).
    all: try property_absurd.
    all: subst Q; cbn [trace db spawned failure_message]; rewrite <- app_assoc;
      do 2 eexists; (split; [reflexivity|]); (split; [close_command|]);
      (split; [reflexivity|]); (split; [reflexivity|]);
      repeat split; intros; close_detail.
Qed.

End Transformations.

(* --------------------------------------------------------------------- *)
(** ** The decrypting routes, path by path *)

Section DecryptingRoutes.

Variable w : World.


(** X17. When the payload of a validated decrypt or stegoDecrypt request
    reports failure, the staged upload is deleted first (if it is still
    there), and then the request is answered 500 with the error of the
    payload, or the route's own failure message when the payload gives
    none, and with the wrong-key hint.  The upload is gone afterwards. *)
Theorem X17_reported_decrypt_failure_deletes_the_upload_then_hints
  (op : Operation) (req : Request) (st : State) (f : File)
  (result flag : jsval) :
  encrypting op = false ->
  file req = Some f ->
  key_given req ->
  settle w (child w (spawned st)) = Return result ->
  property result "success" = Return flag ->
  truthy flag = false ->
  let st' := exec_state (pipeline w op req) st in
  let staged := file_path f in
  exists command error,
    property result "error" = Return error
    /\ trace st'
       = trace st
         ++ EvExec command exec_options
            :: (if mem staged (fs st ++ exec_files (child w (spawned st)))
                then [EvUnlink staged] else [])
            ++ [EvRespond 500
                  (JObj [("error", if truthy error then error
                                   else JStr (failure_message op));
                         ("hint", JStr wrong_key_hint)])]
    /\ mem staged (fs st') = false
    /\ db st' = db st.
Proof.
  intros Hop Hf Hkey Hs Hp Ht. cbv zeta.
  apply key_missing_iff in Hkey.
  change (wp (pipeline w op req)
            (fun _ st' =>
               exists command error,
                 property result "error" = Return error
                 /\ trace st'
                    = trace st
                      ++ EvExec command exec_options
                         :: (if mem (file_path f)
                                    (fs st ++ exec_files (child w (spawned st)))
                             then [EvUnlink (file_path f)] else [])
                         ++ [EvRespond 500
                               (JObj [("error", if truthy error then error
                                                else JStr (failure_message op));
                                      ("hint", JStr wrong_key_hint)])]
                 /\ mem (file_path f) (fs st') = false
                 /\ db st' = db st) st).
  destruct st as [fs0 d t k r s o i n]. cbn [trace fs db spawned] in *.
  set (Q := fun _ _ => _).
  destruct op; try discriminate Hop; cbn [pipeline];
    unfold post_decrypt, post_decrypt_stego, decrypt_with; rewrite Hf, Hkey;
    repeat (wp_next; try rewrite Hs; try rewrite Hp; try rewrite Ht).
  all: try discriminate.
  all: try property_absurd.
  all: subst Q; cbn [trace fs db failure_message]; do 2 eexists;
    (split; [reflexivity|]);
    rewrite <- ?app_assoc; cbn [app];
    (split; [reflexivity|]); split;
    [first [apply mem_remove_path|assumption]|reflexivity].
Qed.

(** X18. When the payload of a validated decrypt or stegoDecrypt request
    reports success and names a file that exists, the file is sent under
    the fixed download name, and after the transfer, whether it went
    through or broke off, the staged upload and the produced file are both
    deleted. *)
Theorem X18_successful_decrypt_sends_then_deletes_both_files
  (op : Operation) (req : Request) (st : State) (f : File)
  (result flag : jsval) (output : string) :
  encrypting op = false ->
  file req = Some f ->
  key_given req ->
  settle w (child w (spawned st)) = Return result ->
  property result "success" = Return flag ->
  truthy flag = true ->
  property result "decrypted_path" = Return (JStr output) ->
  mem output (fs st ++ exec_files (child w (spawned st))) = true ->
  let st' := exec_state (pipeline w op req) st in
  exists command unlinks,
    trace st' = trace st
                ++ EvExec command exec_options
                   :: EvDownload (JStr output) (JStr (download_name op))
                   :: unlinks
    /\ (forall e, In e unlinks ->
                  e = EvUnlink (file_path f) \/ e = EvUnlink output)
    /\ mem (file_path f) (fs st') = false
    /\ mem output (fs st') = false
    /\ db st' = db st.
Proof.
  intros Hop Hf Hkey Hs Hp Ht Hout Hm. cbv zeta.
  apply key_missing_iff in Hkey.
  change (wp (pipeline w op req)
            (fun _ st' =>
               exists command unlinks,
                 trace st' = trace st
                             ++ EvExec command exec_options
                                :: EvDownload (JStr output) (JStr (download_name op))
                                :: unlinks
                 /\ (forall e, In e unlinks ->
                               e = EvUnlink (file_path f) \/ e = EvUnlink output)
                 /\ mem (file_path f) (fs st') = false
                 /\ mem output (fs st') = false
                 /\ db st' = db st) st).
  destruct st as [fs0 d t k r s o i n]. cbn [trace fs db spawned] in *.
  set (Q := fun _ _ => _).
  destruct op; try discriminate Hop; cbn [pipeline];
    unfold post_decrypt, post_decrypt_stego, decrypt_with; rewrite Hf, Hkey;
    repeat (wp_next; try rewrite Hs; try rewrite Hp; try rewrite Ht;
            try rewrite Hout; cbn [on_disk negb]; try rewrite Hm).
  all: try discriminate.
  all: try property_absurd.
  all: cbn [on_disk] in *.
  all: subst Q; cbn [trace fs db download_name];
    rewrite <- ?app_assoc; cbn [app]; do 2 eexists;
    (split; [reflexivity|]);
    (split; [intros e He; cbn [In] in He;
             repeat match goal with
                    | H : _ \/ _ |- _ => destruct H
                    | H : False |- _ => destruct H
                    end; subst e; auto|]);
    repeat match goal with
           | |- _ /\ _ => split
           | |- _ => assumption
           | |- _ => reflexivity
           | |- mem ?p (remove_path ?p _) = false => apply mem_remove_path
           | |- mem _ (remove_path _ _) = false => apply mem_remove_path_absent
           end.
Qed.

(** X19. When the payload of a validated decrypt or stegoDecrypt request
    reports success but the file it names is not there, the request is
    answered 500 with the route's not-found message; nothing is sent, and
    nothing is deleted, the staged upload included. *)
Theorem X19_decrypt_with_missing_output_is_answered_500
  (op : Operation) (req : Request) (st : State) (f : File)
  (result flag path : jsval) :
  encrypting op = false ->
  file req = Some f ->
  key_given req ->
  settle w (child w (spawned st)) = Return result ->
  property result "success" = Return flag ->
  truthy flag = true ->
  property result "decrypted_path" = Return path ->
  on_disk path (fs st ++ exec_files (child w (spawned st))) = false ->
  let st' := exec_state (pipeline w op req) st in
  exists command,
    trace st' = trace st
                ++ [EvExec command exec_options;
                    EvRespond 500 (error_body (JStr (not_found_message op)))]
    /\ fs st' = fs st ++ exec_files (child w (spawned st))
    /\ db st' = db st.
Proof.
  intros Hop Hf Hkey Hs Hp Ht Hout Hm. cbv zeta.
  apply key_missing_iff in Hkey.
  change (wp (pipeline w op req)
            (fun _ st' =>
               exists command,
                 trace st' = trace st
                             ++ [EvExec command exec_options;
                                 EvRespond 500
                                   (error_body (JStr (not_found_message op)))]
                 /\ fs st' = fs st ++ exec_files (child w (spawned st))
                 /\ db st' = db st) st).
  destruct st as [fs0 d t k r s o i n]. cbn [trace fs db spawned] in *.
  set (Q := fun _ _ => _).
  destruct op; try discriminate Hop; cbn [pipeline];
    unfold post_decrypt, post_decrypt_stego, decrypt_with; rewrite Hf, Hkey;
    repeat (wp_next; try rewrite Hs; try rewrite Hp; try rewrite Ht;
            try rewrite Hout; try rewrite Hm).
  all: try discriminate.
  all: try property_absurd.
  all: subst Q; cbn [trace fs db not_found_message];
    rewrite <- ?app_assoc; cbn [app]; eexists; repeat split.
Qed.

End DecryptingRoutes.

(* --------------------------------------------------------------------- *)
(** ** What a successful encrypting request records *)

Section Recording.

Variable w : World.

Ltac close_recorded :=
  do 13 eexists; cbn [db trace fs dbops ids];
  repeat match goal with
         | |- _ /\ _ => split
         | |- _ = _ => first [reflexivity | eassumption
                              | rewrite <- !app_assoc; reflexivity]
         | |- _ -> _ => intros; first [discriminate | repeat split; reflexivity]
         end.

Lemma post_encrypt_recorded req st f :
  file req = Some f ->
  key_too_short (assoc "key" (body req)) = false ->
  reports_success (settle w (child w (spawned st))) = true ->
  (forall x, store w (dbops st) (OpSave x) = None) ->
  wp (post_encrypt w req)
     (fun _ st' => exists output d body,
          recorded w Encrypt req st st' f output d body) st.
Proof.
  destruct st as [fs0 d t k r s o i n].
  unfold recorded, measured_duration.
  cbn [db trace fs spawned dbops ids ticks readings_before_measure
       source_file output_field name_key record_type].
  replace (k + 2)%nat with (S (S k)) by lia.
  intros Hf Hk Hs Hst. unfold reports_success in Hs.
  set (Q := fun _ _ => _).
  unfold post_encrypt. rewrite Hf, Hk. wp_run.
  all: try discriminate Hs.
  all: try (repeat match goal with
                   | H : negb (truthy _) = true |- _ =>
                       apply negb_true_iff in H; rewrite H in Hs; discriminate Hs
                   end).
  all: try property_absurd.
  all: try match goal with
           | H : store _ _ _ = Some _ |- _ => rewrite Hst in H; discriminate H
           end.
  all: subst Q; cbv beta; do 3 eexists; close_recorded.
Qed.

Lemma post_encrypt_stego_recorded req st slots secret cover :
  files req = Some slots ->
  assoc "secretImage" slots = Some secret ->
  assoc "coverImage" slots = Some cover ->
  key_too_short (assoc "key" (body req)) = false ->
  reports_success (settle w (child w (spawned st))) = true ->
  names_stego_path w st ->
  (forall x, store w (dbops st) (OpSave x) = None) ->
  wp (post_encrypt_stego w req)
     (fun _ st' => exists output d body,
          recorded w StegoEncrypt req st st' secret output d body) st.
Proof.
  destruct st as [fs0 d t k r s o i n].
  unfold recorded, measured_duration, names_stego_path.
  cbn [db trace fs spawned dbops ids ticks readings_before_measure
       source_file output_field name_key record_type].
  replace (k + 1)%nat with (S k) by lia.
  intros Hf Hsecret Hcover Hk Hs (result & p & Hr & Hp) Hst.
  unfold reports_success in Hs. rewrite Hr in Hs. rewrite Hf, Hsecret.
  set (Q := fun _ _ => _).
  unfold post_encrypt_stego. rewrite Hf, Hsecret, Hcover, Hk.
  repeat (wp_next; try rewrite Hr; try rewrite Hp).
  all: try discriminate.
  all: try (repeat match goal with
                   | H : negb (truthy _) = true |- _ =>
                       apply negb_true_iff in H; rewrite H in Hs; discriminate Hs
                   end).
  all: try property_absurd.
  all: try match goal with
           | H : store _ _ _ = Some _ |- _ => rewrite Hst in H; discriminate H
           end.
  all: subst Q; cbv beta; do 3 eexists; close_recorded.
Qed.

(** The record and the response of an encrypting request whose
    transformation succeeded and whose record the store takes. *)
Lemma encrypting_recorded op req st :
  encrypting op = true ->
  transformation_succeeded w op req st ->
  (op = StegoEncrypt -> names_stego_path w st) ->
  (forall x, store w (dbops st) (OpSave x) = None) ->
  exists source output d answer,
    recorded w op req st (exec_state (pipeline w op req) st)
             source output d answer.
Proof.
  intros Hop [Hval Hok] Hpath Hstore.
  destruct op; try discriminate Hop; cbn [pipeline].
  - destruct (validated_encrypt_inv req Hval) as (f & Hf & Hk).
    exists f. exact (post_encrypt_recorded req st f Hf Hk Hok Hstore).
  - destruct (validated_stego_inv req Hval)
      as (slots & secret & cover & H1 & H2 & H3 & H4).
    exists secret.
    exact (post_encrypt_stego_recorded req st slots secret cover
             H1 H2 H3 H4 Hok (Hpath eq_refl) Hstore).
Qed.

(** The paths of the document made from an object literal. *)
Lemma document_fields fields now id now' name encName path type map
      mime size outp :
  lookup "originalName" fields = JStr name ->
  lookup "encryptedName" fields = JStr encName ->
  lookup "encryptedPath" fields = JStr outp ->
  lookup "originalPath" fields = JStr path ->
  lookup "size" fields = JNum size ->
  lookup "mimeType" fields = JStr mime ->
  lookup "chaoticMap" fields = JStr map ->
  lookup "encryptionType" fields = JStr type ->
  let d := timestamped (document w (JObj fields) now id) now' in
  doc_get d "_id" = JStr id
  /\ doc_get d "originalName" = JStr (trim name)
  /\ doc_get d "encryptedName" = JStr (trim encName)
  /\ doc_get d "encryptedPath" = JStr outp
  /\ doc_get d "originalPath" = JStr path
  /\ doc_get d "size" = JNum size
  /\ doc_get d "mimeType" = JStr mime
  /\ doc_get d "chaoticMap" = JStr map
  /\ doc_get d "encryptionType" = JStr type.
Proof.
  intros H1 H2 H3 H4 H5 H6 H7 H8.
  unfold doc_get, timestamped, document. cbn.
  rewrite H1, H2, H3, H4, H5, H6, H7, H8. repeat split; reflexivity.
Qed.

Lemma names_output_stego st p :
  names_output w StegoEncrypt st p -> names_stego_path w st.
Proof. intros (result & Hr & Hp). exists result, p. auto. Qed.

Lemma has_id_of_document d id : doc_get d "_id" = JStr id -> has_id id d = true.
Proof. unfold has_id. intros ->. cbn. apply String.eqb_refl. Qed.

Lemma find_fresh id l d :
  fresh_id id l -> has_id id d = true -> find (has_id id) (l ++ [d]) = Some d.
Proof.
  intros Hl Hd. induction l as [|x l IH]; cbn.
  - now rewrite Hd.
  - rewrite (Hl x (or_introl eq_refl)). apply IH.
    intros y Hy. apply Hl. now right.
Qed.

Lemma filter_fresh id l d :
  fresh_id id l -> has_id id d = true ->
  filter (fun x => negb (has_id id x)) (l ++ [d]) = l.
Proof.
  intros Hl Hd. induction l as [|x l IH]; cbn.
  - now rewrite Hd.
  - rewrite (Hl x (or_introl eq_refl)). cbn. f_equal. apply IH.
    intros y Hy. apply Hl. now right.
Qed.

(** The record of a successful encrypting request whose payload names the
    output [p], path by path. *)
Lemma recorded_document op req st st' source output d answer p :
  recorded w op req st st' source output d answer ->
  names_output w op st p ->
  output = JStr p
  /\ doc_get d "_id" = JStr (objectid w (ids st))
  /\ doc_get d "originalName" = JStr (trim (file_originalname source))
  /\ doc_get d "encryptedPath" = JStr p
  /\ doc_get d "originalPath" = JStr (file_path source)
  /\ doc_get d "size" = JNum (file_size source)
  /\ doc_get d "mimeType" = JStr (file_mimetype source)
  /\ doc_get d "chaoticMap"
     = JStr (or_default (assoc "chaoticMap" (body req)) "logistic")
  /\ doc_get d "encryptionType" = JStr (record_type op)
  /\ exists name,
       get_path answer [name_key op] = JStr name
       /\ doc_get d "encryptedName" = JStr (trim name).
Proof.
  intros (fields & now & now' & name & e1 & e2 & e3 & e4 & e5 & e6 & c1 & c2
          & result & Hd & _ & Hr & Hout & _ & _ & _ & _ & _ & Hname & _
          & F1 & F2 & F3 & F4 & F5 & F6 & F7 & F8 & _)
         (result' & Hr' & Hp).
  rewrite Hr in Hr'. injection Hr' as <-. rewrite Hout in Hp.
  injection Hp as ->. subst d.
  destruct (document_fields fields now (objectid w (ids st)) now'
              _ _ _ _ _ _ _ _ F1 F2 F3 F4 F5 F6 F7 F8)
    as (D0 & D1 & D2 & D3 & D4 & D5 & D6 & D7 & D8).
  repeat split; try assumption. eauto.
Qed.

(** X11. The record of a successful encrypting request holds the id the
    response announces, the trimmed original name and output name, the
    output path of the payload, the path, size and type of the upload, the
    requested map, 'logistic' when none was requested, and the type of the
    route: 'basic' for encrypt, 'steganography' for stegoEncrypt. *)
Theorem X11_record_of_a_successful_encrypting_request
  (op : Operation) (req : Request) (st : State) (p : string) :
  encrypting op = true ->
  transformation_succeeded w op req st ->
  names_output w op st p ->
  (forall x, store w (dbops st) (OpSave x) = None) ->
  let st' := exec_state (pipeline w op req) st in
  exists d source answer transform measure,
    db st' = db st ++ [d]
    /\ trace st' = trace st ++ [EvExec transform exec_options;
                                EvExec measure exec_options;
                                EvSave d;
                                EvRespond 200 answer]
    /\ source_file op req = Some source
    /\ get_path answer ["imageId"] = doc_get d "_id"
    /\ doc_get d "originalName" = JStr (trim (file_originalname source))
    /\ doc_get d "encryptedPath" = JStr p
    /\ doc_get d "originalPath" = JStr (file_path source)
    /\ doc_get d "size" = JNum (file_size source)
    /\ doc_get d "mimeType" = JStr (file_mimetype source)
    /\ doc_get d "chaoticMap"
       = JStr (or_default (assoc "chaoticMap" (body req)) "logistic")
    /\ doc_get d "encryptionType" = JStr (record_type op)
    /\ exists name,
         get_path answer [name_key op] = JStr name
         /\ doc_get d "encryptedName" = JStr (trim name).
Proof.
  intros Hop Hok Hp Hstore. cbv zeta.
  destruct (encrypting_recorded op req st Hop Hok
              (fun e => names_output_stego st p
                          (eq_ind op (fun o => names_output w o st p) Hp _ e))
              Hstore)
    as (source & output & d & answer & Hrec).
  destruct (recorded_document _ _ _ _ _ _ _ _ _ Hrec Hp)
    as (_ & D0 & D1 & D3 & D4 & D5 & D6 & D7 & D8 & Dn).
  destruct Hrec as (fields & now & now' & name & e1 & e2 & e3 & e4 & e5 & e6
                    & c1 & c2 & result & _ & Hsrc & _ & _ & Hdb & Htr & _ & _
                    & Hid & _).
  exists d, source, answer, c1, c2.
  rewrite D0. repeat split; assumption.
Qed.

(** X12. The metrics of the success response are those of the category of
    the route: after encrypt, PSNR and MSE are zero; after stegoEncrypt,
    the entropy is the zero default and NPCR, UACI and correlation are
    zero.  The encryptionTime is the measured duration in both. *)
Theorem X12_metrics_stay_within_their_category
  (op : Operation) (req : Request) (st : State) :
  encrypting op = true ->
  transformation_succeeded w op req st ->
  (op = StegoEncrypt -> names_stego_path w st) ->
  (forall x, store w (dbops st) (OpSave x) = None) ->
  let st' := exec_state (pipeline w op req) st in
  exists earlier answer entropy NPCR UACI correlation PSNR MSE,
    trace st' = earlier ++ [EvRespond 200 answer]
    /\ get_path answer ["metrics"]
       = metrics_object (measured_duration w op st)
                        entropy NPCR UACI correlation PSNR MSE
    /\ (op = Encrypt -> PSNR = JNum 0 /\ MSE = JNum 0)
    /\ (op = StegoEncrypt ->
        entropy = default_entropy /\ NPCR = JNum 0 /\ UACI = JNum 0
        /\ correlation = JNum 0).
Proof.
  intros Hop Hok Hpath Hstore. cbv zeta.
  destruct (encrypting_recorded op req st Hop Hok Hpath Hstore)
    as (source & output & d & answer & fields & now & now' & name
        & e1 & e2 & e3 & e4 & e5 & e6 & c1 & c2 & result
        & _ & _ & _ & _ & _ & Htr & _ & _ & _ & _ & Hm & _ & _ & _ & _ & _ & _
        & _ & _ & _ & Hbasic & Hstego).
  exists (trace st ++ [EvExec c1 exec_options; EvExec c2 exec_options; EvSave d]),
    answer, e1, e2, e3, e4, e5, e6.
  split; [rewrite Htr, <- app_assoc; reflexivity|].
  auto.
Qed.

(** The disk a successful encrypting request leaves holds what the disk
    held when the transformation child had run. *)
Lemma recorded_disk op req st st' source output d answer q :
  recorded w op req st st' source output d answer ->
  mem q (fs st ++ exec_files (child w (spawned st))) = true ->
  mem q (fs st') = true.
Proof.
  intros (fields & now & now' & name & e1 & e2 & e3 & e4 & e5 & e6 & c1 & c2
          & result & _ & _ & _ & _ & _ & _ & Hfs & _) Hq.
  rewrite Hfs. apply mem_app_l. exact Hq.
Qed.

(** X13. The id a successful encrypting request announces decides what the
    stego download gives for it: after stegoEncrypt the stego image of the
    payload, when the transformation left it on disk, is sent as
    'stego_image.png'; after encrypt the route answers 400, for the record
    is of type 'basic'. *)
Theorem X13_stego_download_of_a_new_record
  (op : Operation) (req req' : Request) (st : State) (p : string) :
  encrypting op = true ->
  transformation_succeeded w op req st ->
  names_output w op st p ->
  (forall x, store w (dbops st) (OpSave x) = None) ->
  fresh_id (objectid w (ids st)) (db st) ->
  params_id req' = objectid w (ids st) ->
  store w (S (dbops st)) (OpFindById (objectid w (ids st))) = None ->
  (op = StegoEncrypt ->
   mem p (fs st ++ exec_files (child w (spawned st))) = true) ->
  let st1 := exec_state (pipeline w op req) st in
  let st2 := exec_state (get_download_stego w req') st1 in
  trace st2
  = trace st1
    ++ [match op with
        | StegoEncrypt => EvDownload (JStr p) (JStr "stego_image.png")
        | _ => EvRespond 400 (error_body (JStr "Not a steganography image"))
        end].
Proof.
  intros Hop Hok Hp Hstore Hfresh Hid Hfind Hdisk. cbv zeta.
  destruct (encrypting_recorded op req st Hop Hok
              (fun e => names_output_stego st p
                          (eq_ind op (fun o => names_output w o st p) Hp _ e))
              Hstore)
    as (source & output & d & answer & Hrec).
  destruct (recorded_document _ _ _ _ _ _ _ _ _ Hrec Hp)
    as (_ & D0 & _ & D3 & _ & _ & _ & _ & D8 & _).
  pose proof (fun H => recorded_disk _ _ _ _ _ _ _ _ p Hrec (Hdisk H)) as Hthere.
  destruct Hrec as (fields & now & now' & name & e1 & e2 & e3 & e4 & e5 & e6
                    & c1 & c2 & result & _ & _ & _ & _ & Hdb & _ & _ & Hops & _).
  destruct (get_download_stego_found w req'
              (exec_state (pipeline w op req) st) d p)
    as (Htr & _).
  { rewrite Hops, Hid. exact Hfind. }
  { rewrite Hdb, Hid. exact (find_fresh _ _ _ Hfresh (has_id_of_document _ _ D0)). }
  { exact D3. }
  rewrite Htr, D8.
  destruct op; try discriminate Hop; cbn [record_type is_str]; [reflexivity|].
  rewrite (Hthere eq_refl). reflexivity.
Qed.

(** X14. Deleting the record a successful encrypting request has just
    announced puts the store back as it was before the request and
    releases the two files the record names, the output of the
    transformation and the staged upload (for stegoEncrypt the secret
    image), and nothing else: every other path is on disk afterwards
    exactly when it was on disk after the request.  So the staged cover
    image of a stegoEncrypt request, which no route deletes, stays on
    disk. *)
Theorem X14_delete_releases_the_two_files_of_the_record
  (op : Operation) (req req' : Request) (st : State) (p : string) :
  encrypting op = true ->
  transformation_succeeded w op req st ->
  names_output w op st p ->
  (forall x, store w (dbops st) (OpSave x) = None) ->
  fresh_id (objectid w (ids st)) (db st) ->
  params_id req' = objectid w (ids st) ->
  store w (S (dbops st)) (OpFindByIdAndDelete (objectid w (ids st))) = None ->
  let st1 := exec_state (pipeline w op req) st in
  let st2 := exec_state (delete_image w req') st1 in
  exists source,
    source_file op req = Some source
    /\ db st2 = db st
    /\ (forall q,
          mem q (fs st2) = true
          <-> mem q (fs st1) = true
              /\ q <> p
              /\ ~ (file_path source <> EmptyString /\ q = file_path source))
    /\ (forall slots cover,
          files req = Some slots ->
          assoc "coverImage" slots = Some cover ->
          mem (file_path cover) (fs st) = true ->
          file_path cover <> p ->
          file_path cover <> file_path source ->
          mem (file_path cover) (fs st2) = true)
    /\ exists earlier,
         trace st2 = earlier ++ [EvRespond 200 (JObj [("success", JBool true);
                                                      ("message", JStr "Image deleted")])].
Proof.
  intros Hop Hok Hp Hstore Hfresh Hid Hfind. cbv zeta.
  destruct (encrypting_recorded op req st Hop Hok
              (fun e => names_output_stego st p
                          (eq_ind op (fun o => names_output w o st p) Hp _ e))
              Hstore)
    as (source & output & d & answer & Hrec).
  destruct (recorded_document _ _ _ _ _ _ _ _ _ Hrec Hp)
    as (_ & D0 & _ & D3 & D4 & _).
  pose proof (fun q => recorded_disk _ _ _ _ _ _ _ _ q Hrec) as Hkept.
  destruct Hrec as (fields & now & now' & name & e1 & e2 & e3 & e4 & e5 & e6
                    & c1 & c2 & result & _ & Hsrc & _ & _ & Hdb & _ & _ & Hops & _).
  pose proof (has_id_of_document _ _ D0) as Hhas.
  assert (Hq : store w (dbops (exec_state (pipeline w op req) st))
                 (OpFindByIdAndDelete (params_id req')) = None)
    by (rewrite Hops, Hid; exact Hfind).
  assert (Hd : find (has_id (params_id req'))
                 (db (exec_state (pipeline w op req) st)) = Some d)
    by (rewrite Hdb, Hid; exact (find_fresh _ _ _ Hfresh Hhas)).
  destruct (delete_image_found w req' (exec_state (pipeline w op req) st) d Hq Hd)
    as (Hdb2 & _ & _ & _ & unlinks & Htr & _).
  pose proof (delete_image_disk w req' (exec_state (pipeline w op req) st) d Hq Hd)
    as Hdisk.
  assert (Hiff : forall q,
             mem q (fs (exec_state (delete_image w req')
                          (exec_state (pipeline w op req) st))) = true
             <-> mem q (fs (exec_state (pipeline w op req) st)) = true
                 /\ q <> p
                 /\ ~ (file_path source <> EmptyString /\ q = file_path source)).
  { intros q. rewrite Hdisk, released_spec, D3, D4. cbn [truthy].
    rewrite negb_true_iff, String.eqb_neq.
    split; intros (H1 & H2 & H3); (split; [exact H1|]); split.
    - intros Heq. apply H2. congruence.
    - intros [Hne Heq]. apply H3. split; [exact Hne | congruence].
    - intros Heq. apply H2. congruence.
    - intros [Hne Heq]. apply H3. split; [exact Hne | congruence]. }
  exists source. split; [exact Hsrc|].
  split; [rewrite Hdb2, Hdb, Hid; exact (filter_fresh _ _ _ Hfresh Hhas)|].
  split; [exact Hiff|]. split.
  - intros slots cover _ _ Hthere Hnp Hns. apply Hiff.
    split; [apply Hkept, mem_app_l, Hthere|]. split; [exact Hnp|].
    intros [_ Heq]. now apply Hns.
  - eexists. rewrite Htr. rewrite app_comm_cons, app_assoc. reflexivity.
Qed.

(** X21. Downloading the record a successful encrypting request has just
    announced sends the output file of the payload, when the
    transformation left it on disk, under the output name the response
    gave, trimmed. *)
Theorem X21_download_of_a_new_record
  (op : Operation) (req req' : Request) (st : State) (p : string) :
  encrypting op = true ->
  transformation_succeeded w op req st ->
  names_output w op st p ->
  (forall x, store w (dbops st) (OpSave x) = None) ->
  fresh_id (objectid w (ids st)) (db st) ->
  params_id req' = objectid w (ids st) ->
  store w (S (dbops st)) (OpFindById (objectid w (ids st))) = None ->
  mem p (fs st ++ exec_files (child w (spawned st))) = true ->
  let st1 := exec_state (pipeline w op req) st in
  let st2 := exec_state (get_download w req') st1 in
  exists earlier answer name,
    trace st1 = earlier ++ [EvRespond 200 answer]
    /\ get_path answer [name_key op] = JStr name
    /\ trace st2 = trace st1 ++ [EvDownload (JStr p) (JStr (trim name))].
Proof.
  intros Hop Hok Hp Hstore Hfresh Hid Hfind Hdisk. cbv zeta.
  destruct (encrypting_recorded op req st Hop Hok
              (fun e => names_output_stego st p
                          (eq_ind op (fun o => names_output w o st p) Hp _ e))
              Hstore)
    as (source & output & d & answer & Hrec).
  destruct (recorded_document _ _ _ _ _ _ _ _ _ Hrec Hp)
    as (_ & D0 & _ & D3 & _ & _ & _ & _ & _ & name & Hname & Dn).
  pose proof (recorded_disk _ _ _ _ _ _ _ _ p Hrec Hdisk) as Hthere.
  destruct Hrec as (fields & now & now' & name' & e1 & e2 & e3 & e4 & e5 & e6
                    & c1 & c2 & result & _ & _ & _ & _ & Hdb & Htr1 & _ & Hops & _).
  destruct (get_download_found w req' (exec_state (pipeline w op req) st)
              d p (trim name))
    as (Htr & _).
  { rewrite Hops, Hid. exact Hfind. }
  { rewrite Hdb, Hid. exact (find_fresh _ _ _ Hfresh (has_id_of_document _ _ D0)). }
  { exact D3. }
  { exact Dn. }
  exists (trace st ++ [EvExec c1 exec_options; EvExec c2 exec_options; EvSave d]),
    answer, name.
  split; [rewrite Htr1, <- app_assoc; reflexivity|].
  split; [exact Hname|].
  rewrite Htr, Hthere. reflexivity.
Qed.

End Recording.

(* --------------------------------------------------------------------- *)
(** ** The upload directory *)

Lemma mkdirs_app t1 t2 : mkdirs (t1 ++ t2) = (mkdirs t1 + mkdirs t2)%nat.
Proof. unfold mkdirs. now rewrite filter_app, length_app. Qed.

Section UploadDirectory.

Variable w : World.

Lemma stage_directory (p : Part) (st : State) :
  let st' := exec_state (stage w p) st in
  mem (uploadDir w) (fs st') = true
  /\ mkdirs (trace st')
     = (mkdirs (trace st) + (if mem (uploadDir w) (fs st) then 0 else 1))%nat.
Proof.
  cbv zeta.
  change (wp (stage w p)
            (fun _ st' =>
               mem (uploadDir w) (fs st') = true
               /\ mkdirs (trace st')
                  = (mkdirs (trace st)
                     + (if mem (uploadDir w) (fs st) then 0 else 1))%nat) st).
  destruct st as [f d t k r s o i n]. cbn [fs trace].
  set (Q := fun _ _ => _).
  wp_run.
  all: subst Q; cbv beta; cbn [fs trace on_disk] in *.
  all: repeat rewrite mkdirs_app; cbn [mkdirs filter is_mkdir length].
  all: match goal with
       | H : negb ?b = _ |- _ => destruct b eqn:Hd; try discriminate H
       end.
  all: cbn [mem existsb]; rewrite ?String.eqb_refl, ?orb_true_r; cbn [orb].
  all: unfold mem in Hd; rewrite ?Hd; cbn; split; try reflexivity; lia.
Qed.

(** X15. Staging an upload leaves the upload directory on disk and makes it
    exactly when it was missing; the staging of a further upload makes no
    directory.  This holds for parts the size limit rejects as well. *)
Theorem X15_upload_directory_is_made_once
  (p p' : Part) (st : State) :
  let st1 := exec_state (stage w p) st in
  let st2 := exec_state (stage w p') st1 in
  mem (uploadDir w) (fs st1) = true
  /\ mkdirs (trace st1)
     = (mkdirs (trace st) + (if mem (uploadDir w) (fs st) then 0 else 1))%nat
  /\ mkdirs (trace st2) = mkdirs (trace st1).
Proof.
  cbv zeta.
  destruct (stage_directory p st) as [H1 H2].
  destruct (stage_directory p' (exec_state (stage w p) st)) as [_ H3].
  rewrite H1 in H3. repeat split; try assumption. lia.
Qed.

End UploadDirectory.

(* --------------------------------------------------------------------- *)
(** ** Whitespace around the payload of a child process *)

Lemma trimStart_all_ws s : all_ws s = true -> trimStart s = EmptyString.
Proof.
  induction s as [|c s IH]; cbn; [reflexivity|].
  destruct (is_ws c); cbn; [exact IH | discriminate].
Qed.

Lemma trimStart_padded pre s :
  all_ws pre = true -> trimStart (pre ++ s) = trimStart s.
Proof.
  induction pre as [|c pre IH]; cbn; [reflexivity|].
  destruct (is_ws c); cbn; [exact IH | discriminate].
Qed.

Lemma trimEnd_all_ws s : all_ws s = true -> trimEnd s = EmptyString.
Proof.
  induction s as [|c s IH]; cbn; [reflexivity|].
  destruct (is_ws c); cbn; [|discriminate].
  intros H. now rewrite (IH H).
Qed.

Lemma trimEnd_padded s post :
  all_ws post = true -> trimEnd (s ++ post) = trimEnd s.
Proof.
  intros H. induction s as [|c s IH]; cbn.
  - now apply trimEnd_all_ws.
  - now rewrite IH.
Qed.

Lemma trim_padded pre s post :
  all_ws pre = true -> all_ws post = true ->
  trim (pre ++ s ++ post) = trim s.
Proof.
  intros Hpre Hpost. unfold trim. rewrite (trimStart_padded _ _ Hpre).
  induction s as [|c s IH].
  - cbn. rewrite (trimStart_all_ws _ Hpost). reflexivity.
  - cbn [append trimStart]. destruct (is_ws c); [exact IH|].
    exact (trimEnd_padded (String c s) post Hpost).
Qed.

Section PaddedOutput.

Variable w : World.

(** X20. Whitespace a child writes around its payload changes no result of
    the invoker: a successful child whose output is padded resolves with
    the same value, and it is rejected exactly when the unpadded one is.
    The message of the rejection quotes the output as it was written. *)
Theorem X20_invoker_ignores_whitespace_around_the_payload
  (c : ChildOutcome) (pre post : string) :
  exec_error c = None ->
  all_ws pre = true ->
  all_ws post = true ->
  (forall result,
      settle w (padded pre post c) = Return result
      <-> settle w c = Return result)
  /\ (forall message,
        settle w (padded pre post c) = Throw message ->
        message = ("Failed to parse: " ++ pre ++ exec_stdout c ++ post)%string
        /\ settle w c = Throw ("Failed to parse: " ++ exec_stdout c)%string).
Proof.
  intros He Hpre Hpost. unfold settle, padded.
  cbn [exec_error exec_stdout]. rewrite He, (trim_padded _ _ _ Hpre Hpost).
  destruct (JSON_parse w (trim (exec_stdout c))) as [result|].
  - split; [intros r; split; auto | intros m H; discriminate H].
  - split; [intros r; split; intros H; discriminate H|].
    intros m H. injection H as <-. auto.
Qed.

End PaddedOutput.

(* ===================================================================== *)
(** * Worked runs *)
(* ===================================================================== *)

(** ** A decrypt request whose child process dies *)

(** C5. The child of a decrypt (or decrypt-stego) request exits non-zero:
    the response is a 500 and the staged input is still on disk when the
    handler is done.  A request without a key is answered 400 and leaves
    its staged input as well. *)
Theorem C5_staged_input_survives_rejected_invocation :
  let w := scripted_world [child_crashes] payload_table accepting in
  let staged := file_path staged_cat in
  let st := on_disk_state [staged] in
  let crashed := exec_state (post_decrypt w (request_with "correct-horse" staged_cat)) st in
  let crashed_stego :=
    exec_state (post_decrypt_stego w (request_with "correct-horse" staged_cat)) st in
  let keyless := exec_state (post_decrypt w (request_without_key staged_cat)) st in
  ((exists command body,
       trace crashed = [EvExec command exec_options; EvRespond 500 body])
   /\ mem staged (fs crashed) = true)
  /\ ((exists command body,
          trace crashed_stego = [EvExec command exec_options; EvRespond 500 body])
      /\ mem staged (fs crashed_stego) = true)
  /\ ((exists body, trace keyless = [EvRespond 400 body])
      /\ mem staged (fs keyless) = true).
Proof.
  vm_compute. repeat split; repeat eexists.
Qed.

(** C7. The same request: the transformation failed, yet no file is
    deleted before the 500 response, and the body carries the error detail
    without the hint. *)
Theorem C7_rejected_invocation_answers_without_cleanup_or_hint :
  let w := scripted_world [child_crashes] payload_table accepting in
  let st := on_disk_state [file_path staged_cat] in
  let body := error_body (JStr "Traceback (most recent call last): ValueError") in
  let run handler :=
    trace (exec_state (handler (request_with "correct-horse" staged_cat)) st) in
  (exists command, run (post_decrypt w) = [EvExec command exec_options;
                                           EvRespond 500 body])
  /\ (exists command, run (post_decrypt_stego w) = [EvExec command exec_options;
                                                    EvRespond 500 body])
  /\ get_path body ["hint"] = JUndefined
  /\ (forall path, ~ In (EvUnlink path) (run (post_decrypt w)))
  /\ (forall path, ~ In (EvUnlink path) (run (post_decrypt_stego w))).
Proof.
  vm_compute. repeat split; try (eexists; reflexivity).
  all: intros path [H|[H|[]]]; discriminate H.
Qed.

(** ** An encrypt request whose metrics are computed *)

(** C6. The metrics child computes entropy, NPCR 9961 and UACI 3346: the
    response carries them, the one record that is persisted holds the
    measured duration and the entropy, and its npcr and uaci are zero. *)
Theorem C6_persisted_npcr_and_uaci_are_zero_though_computed :
  let w := scripted_world [child_encrypts; child_measures] payload_table accepting in
  let st := on_disk_state [file_path staged_cat] in
  let st' := exec_state (post_encrypt w (request_with "correct-horse" staged_cat)) st in
  exists d transform measure body,
    db st' = [d]
    /\ trace st' = [EvExec transform exec_options; EvExec measure exec_options;
                    EvSave d; EvRespond 200 body]
    /\ doc_get d "metrics.encryptionTime" = JNum (measured_duration w Encrypt st)
    /\ doc_get d "metrics.entropy.encrypted" = JNum 7997
    /\ get_path body ["metrics"; "NPCR"] = JNum 9961
    /\ get_path body ["metrics"; "UACI"] = JNum 3346
    /\ doc_get d "metrics.npcr" = JNum 0
    /\ doc_get d "metrics.uaci" = JNum 0
    /\ doc_get d "metrics.NPCR" = JUndefined
    /\ doc_get d "metrics.UACI" = JUndefined.
Proof.
  vm_compute. do 4 eexists. repeat split.
Qed.

(** ** Counterexamples *)

Lemma validated_cat_decrypt :
  validated Decrypt (request_with "correct-horse" staged_cat).
Proof.
  split; cbn.
  - discriminate.
  - exists "correct-horse". split; [reflexivity|discriminate].
Qed.

Lemma validated_cat_encrypt :
  validated Encrypt (request_with "correct-horse" staged_cat).
Proof.
  split; cbn.
  - discriminate.
  - unfold key_absent_or_short. cbn. lia.
Qed.

(** C1, as stated, fails: a decrypt request whose transformation succeeds
    ends with no record. *)
Lemma C1_counterexample_successful_decrypt_persists_nothing :
  ~ (forall w op req st,
        transformation_succeeded w op req st ->
        exists d, db (exec_state (pipeline w op req) st) = db st ++ [d]).
Proof.
  intros H.
  destruct (H (scripted_world [child_decrypts] payload_table accepting)
              Decrypt (request_with "correct-horse" staged_cat)
              (on_disk_state [file_path staged_cat])) as [d Hd].
  - split; [exact validated_cat_decrypt|reflexivity].
  - vm_compute in Hd. discriminate Hd.
Qed.

(** C3, as stated, fails: the transformation succeeds, the metrics child is
    killed, and the store cannot be reached; no record is persisted and the
    response is a 500. *)
Lemma C3_counterexample_store_refuses_the_record :
  ~ (forall w op req st,
        encrypting op = true ->
        transformation_succeeded w op req st ->
        metrics_failed w st ->
        exists d, db (exec_state (pipeline w op req) st) = db st ++ [d]).
Proof.
  intros H.
  destruct (H (scripted_world [child_encrypts; child_killed] payload_table
                              refusing_saves)
              Encrypt (request_with "correct-horse" staged_cat)
              (on_disk_state [file_path staged_cat])) as [d Hd].
  - reflexivity.
  - split; [exact validated_cat_encrypt|reflexivity].
  - reflexivity.
  - vm_compute in Hd. discriminate Hd.
Qed.

(** C4, as stated, fails: a child killed at the deadline has written
    nothing to stderr, and the rejection carries the message of the error
    instead. *)
Lemma C4_counterexample_empty_stderr :
  ~ (forall w scriptPath args st message,
        exec_error (child w (spawned st)) = Some message ->
        outcome (runPythonScript w scriptPath args) st
        = Throw (exec_stderr (child w (spawned st)))).
Proof.
  intros H.
  specialize (H (scripted_world [child_killed] payload_table accepting)
                "/app/python/encryption.py" [JStr "decrypt"] initial
                "Command failed: python3" eq_refl).
  vm_compute in H. discriminate H.
Qed.


(** ** The theorems at concrete inputs *)

Lemma C1_witness :
  let w := scripted_world [child_encrypts; child_measures] payload_table accepting in
  let req := request_with "correct-horse" staged_cat in
  let st := on_disk_state [file_path staged_cat] in
  transformation_succeeded w Encrypt req st
  /\ exists d, record_added w Encrypt req st
                            (exec_state (pipeline w Encrypt req) st) d.
Proof.
  cbv zeta.
  assert (Hok : transformation_succeeded
                  (scripted_world [child_encrypts; child_measures]
                                  payload_table accepting)
                  Encrypt (request_with "correct-horse" staged_cat)
                  (on_disk_state [file_path staged_cat]))
    by (split; [exact validated_cat_encrypt|reflexivity]).
  split; [exact Hok|].
  apply (C1_record_only_after_successful_encrypting_transformation
           (scripted_world [child_encrypts; child_measures] payload_table accepting)
           Encrypt (request_with "correct-horse" staged_cat)
           (on_disk_state [file_path staged_cat])).
  - reflexivity.
  - exact Hok.
  - discriminate.
  - reflexivity.
Defined.

Lemma C2_witness :
  let w := scripted_world [child_encrypts] payload_table accepting in
  let req := request_with "short" staged_cat in
  let st := on_disk_state [file_path staged_cat] in
  key_absent_or_short req
  /\ spawned (exec_state (pipeline w Encrypt req) st) = spawned st.
Proof.
  cbv zeta.
  assert (Hkey : key_absent_or_short (request_with "short" staged_cat))
    by (unfold key_absent_or_short; cbn; lia).
  split; [exact Hkey|].
  apply (C2_validation_fails_before_any_process
           (scripted_world [child_encrypts] payload_table accepting)
           Encrypt (request_with "short" staged_cat)
           (on_disk_state [file_path staged_cat]) eq_refl (or_intror Hkey)).
Defined.

Lemma C3_witness :
  let w := scripted_world [child_encrypts; child_killed] payload_table accepting in
  let req := request_with "correct-horse" staged_cat in
  let st := on_disk_state [file_path staged_cat] in
  transformation_succeeded w Encrypt req st
  /\ metrics_failed w st
  /\ exists d transform measure body,
       db (exec_state (pipeline w Encrypt req) st) = db st ++ [d]
       /\ trace (exec_state (pipeline w Encrypt req) st)
          = trace st ++ [EvExec transform exec_options;
                         EvExec measure exec_options;
                         EvSave d;
                         EvRespond 200 body]
       /\ children_of w Encrypt req st transform measure
       /\ doc_get d "status" = JStr "completed"
       /\ doc_get d "metrics.encryptionTime" = JNum 80
       /\ doc_get d "metrics.entropy.original" = JNum 0
       /\ doc_get d "metrics.entropy.encrypted" = JNum 0
       /\ doc_get d "metrics.npcr" = JNum 0
       /\ doc_get d "metrics.uaci" = JNum 0
       /\ get_path body ["success"] = JBool true
       /\ get_path body ["metrics"] = default_metrics 80.
Proof.
  cbv zeta.
  assert (Hok : transformation_succeeded
                  (scripted_world [child_encrypts; child_killed]
                                  payload_table accepting)
                  Encrypt (request_with "correct-horse" staged_cat)
                  (on_disk_state [file_path staged_cat]))
    by (split; [exact validated_cat_encrypt|reflexivity]).
  split; [exact Hok|]. split; [reflexivity|].
  apply (C3_metrics_failure_is_swallowed
           (scripted_world [child_encrypts; child_killed] payload_table accepting)
           Encrypt (request_with "correct-horse" staged_cat)
           (on_disk_state [file_path staged_cat])).
  - reflexivity.
  - exact Hok.
  - discriminate.
  - reflexivity.
  - reflexivity.
Defined.

Lemma C4_witness :
  let w := scripted_world [child_crashes] payload_table accepting in
  exec_error (child w 0) = Some "Command failed: python3"
  /\ exec_stderr (child w 0) <> EmptyString
  /\ outcome (runPythonScript w "/app/python/encryption.py" [JStr "decrypt"]) initial
     = Throw "Traceback (most recent call last): ValueError".
Proof.
  cbv zeta. split; [reflexivity|]. split; [discriminate|].
  apply (proj1 (proj2 (proj2 (proj2 (proj2
           (C4_invoker_contract
              (scripted_world [child_crashes] payload_table accepting)
              "/app/python/encryption.py" [JStr "decrypt"] initial)))))
           "Command failed: python3").
  - reflexivity.
  - discriminate.
Defined.


Lemma C9_witness :
  let w := scripted_world [] payload_table accepting in
  let st := stored_state [basic_record] in
  outcome (findById w "id0") st = Return (Some basic_record)
  /\ doc_get basic_record "encryptionType" <> JStr "steganography"
  /\ trace (exec_state (get_download_stego w (request_for "id0")) st)
     = trace st ++ [EvRespond 400 (error_body (JStr "Not a steganography image"))].
Proof.
  cbv zeta. split; [reflexivity|]. split; [discriminate|].
  apply (proj1 (C9_download_stego_only_for_steganography_records
                  (scripted_world [] payload_table accepting)
                  (request_for "id0") (stored_state [basic_record])
                  basic_record eq_refl)).
  discriminate.
Defined.

Lemma C10_witness :
  let w := scripted_world [child_encrypts; child_measures] payload_table accepting in
  let st := exec_state (handle w (Transform Encrypt
                                    (request_with "correct-horse" staged_cat)))
                       initial in
  let d := nth 0 (db st) [] in
  reachable w st
  /\ In d (db st)
  /\ doc_get d "status" = JStr "completed".
Proof.
  cbv zeta.
  assert (Hreach : reachable
                     (scripted_world [child_encrypts; child_measures]
                                     payload_table accepting)
                     (exec_state
                        (handle (scripted_world [child_encrypts; child_measures]
                                                payload_table accepting)
                                (Transform Encrypt
                                   (request_with "correct-horse" staged_cat)))
                        initial))
    by (apply reach_handle, reach_initial).
  assert (Hin : In (nth 0 (db (exec_state
                        (handle (scripted_world [child_encrypts; child_measures]
                                                payload_table accepting)
                                (Transform Encrypt
                                   (request_with "correct-horse" staged_cat)))
                        initial)) [])
                   (db (exec_state
                        (handle (scripted_world [child_encrypts; child_measures]
                                                payload_table accepting)
                                (Transform Encrypt
                                   (request_with "correct-horse" staged_cat)))
                        initial)))
    by (vm_compute; left; reflexivity).
  split; [exact Hreach|]. split; [exact Hin|].
  exact (proj1 (C10_every_persisted_record_is_completed
                  (scripted_world [child_encrypts; child_measures]
                                  payload_table accepting)
                  _ _ Hreach (or_introl Hin))).
Defined.

(* --------------------------------------------------------------------- *)
(** ** The route properties at concrete inputs *)


Lemma key_given_cat key :
  key <> EmptyString -> key_given (request_with key staged_cat).
Proof. intros H. exists key. split; [reflexivity|exact H]. Qed.

Lemma validated_stego_request : validated StegoEncrypt stego_request.
Proof.
  split; cbn.
  - intros [H|H]; discriminate H.
  - unfold key_absent_or_short. cbn. lia.
Qed.

Lemma X1_witness :
  let w := scripted_world [] payload_table accepting in
  let req := request_for "id7" in
  let st := stored_state [basic_record] in
  store w (dbops st) (OpFindByIdAndDelete (params_id req)) = None
  /\ find (has_id (params_id req)) (db st) = None
  /\ trace (exec_state (delete_image w req) st)
     = [EvRespond 404 (error_body (JStr "Image not found"))]
  /\ db (exec_state (delete_image w req) st) = [basic_record].
Proof.
  cbv zeta. split; [reflexivity|]. split; [reflexivity|].
  destruct (X1_delete_of_missing_record_is_not_found
              (scripted_world [] payload_table accepting)
              (request_for "id7") (stored_state [basic_record])
              eq_refl eq_refl) as (Htr & Hdb & _).
  split; [exact Htr | exact Hdb].
Defined.

Lemma X2_witness :
  let w := scripted_world [] payload_table accepting in
  let req := request_for "id0" in
  let st := kept_state [basic_record] ["/app/uploads/encrypted/cat.bin"] in
  store w (dbops st) (OpFindByIdAndDelete (params_id req)) = None
  /\ find (has_id (params_id req)) (db st) = Some basic_record
  /\ db (exec_state (delete_image w req) st) = []
  /\ mem "/app/uploads/encrypted/cat.bin"
         (fs (exec_state (delete_image w req) st)) = false.
Proof.
  cbv zeta. split; [reflexivity|]. split; [reflexivity|].
  destruct (X2_delete_removes_the_record_then_its_files
              (scripted_world [] payload_table accepting)
              (request_for "id0")
              (kept_state [basic_record] ["/app/uploads/encrypted/cat.bin"])
              basic_record eq_refl eq_refl) as (Hdb & _ & Hout & _).
  split; [exact Hdb | exact Hout].
Defined.

Lemma X3_witness :
  let w := scripted_world [] payload_table unreachable in
  let st := stored_state [basic_record] in
  query_of GetImages = Some OpFind
  /\ store w (dbops st) OpFind = Some "connect ECONNREFUSED 127.0.0.1:27017"
  /\ trace (exec_state (handle w GetImages) st)
     = [EvRespond 500
          (error_body (JStr "connect ECONNREFUSED 127.0.0.1:27017"))].
Proof.
  cbv zeta. split; [reflexivity|]. split; [reflexivity|].
  exact (proj1 (X3_store_fault_is_answered_500
                  (scripted_world [] payload_table unreachable)
                  GetImages OpFind "connect ECONNREFUSED 127.0.0.1:27017"
                  (stored_state [basic_record]) eq_refl eq_refl)).
Defined.

Lemma X4_witness :
  let w := scripted_world [] payload_table accepting in
  let req := request_for "id0" in
  let st := kept_state [basic_record] ["/app/uploads/encrypted/cat.bin"] in
  store w (dbops st) (OpFindById (params_id req)) = None
  /\ find (has_id (params_id req)) (db st) = Some basic_record
  /\ mem "/app/uploads/encrypted/cat.bin" (fs st) = true
  /\ trace (exec_state (get_download w req) st)
     = [EvDownload (JStr "/app/uploads/encrypted/cat.bin")
                   (JStr "cat_encrypted_1700000000040.bin")].
Proof.
  cbv zeta. split; [reflexivity|]. split; [reflexivity|]. split; [reflexivity|].
  exact (proj1 (proj1 (proj2 (X4_download_sends_the_output_of_the_record
                                (scripted_world [] payload_table accepting)
                                (request_for "id0")
                                (kept_state [basic_record]
                                            ["/app/uploads/encrypted/cat.bin"])
                                eq_refl))
                      basic_record "/app/uploads/encrypted/cat.bin"
                      "cat_encrypted_1700000000040.bin" eq_refl eq_refl eq_refl)
               eq_refl).
Defined.

Lemma X5_witness :
  let w := scripted_world [] payload_table accepting in
  let st := stored_state [basic_record] in
  store w (dbops st) OpFind = None
  /\ exists images,
       trace (exec_state (get_images w) st)
       = [EvRespond 200 (JObj [("success", JBool true);
                               ("images", JArr (map JObj images))])]
       /\ Permutation images [basic_record].
Proof.
  cbv zeta. split; [reflexivity|].
  destruct (X5_images_are_the_hundred_most_recent
              (scripted_world [] payload_table accepting)
              (stored_state [basic_record]) eq_refl)
    as (images & Htr & _ & _ & _ & _ & _ & Hall).
  exists images. split; [exact Htr|].
  apply Hall. cbn. lia.
Defined.

Lemma X6_witness :
  let w := scripted_world [] payload_table accepting in
  let st := kept_state [basic_record] ["/app/uploads/encrypted/cat.bin"] in
  let st' := exec_state (handle w (GetDownloadStego (request_for "id0"))) st in
  read_only (GetDownloadStego (request_for "id0")) = true
  /\ db st' = [basic_record]
  /\ fs st' = ["/app/uploads/encrypted/cat.bin"]
  /\ spawned st' = 0%nat.
Proof.
  cbv zeta. split; [reflexivity|].
  exact (proj2 (X6_looking_routes_change_nothing
                  (scripted_world [] payload_table accepting)
                  (GetDownloadStego (request_for "id0"))
                  (kept_state [basic_record] ["/app/uploads/encrypted/cat.bin"])
                  eq_refl)).
Defined.

Lemma X7_witness :
  let w := scripted_world [child_encrypts; child_measures] payload_table accepting in
  let c := Transform Encrypt (request_with "correct-horse" staged_cat) in
  let st := on_disk_state [file_path staged_cat] in
  is_request c = true
  /\ answers (trace (exec_state (handle w c) st)) = 1%nat.
Proof.
  cbv zeta. split; [reflexivity|].
  exact (X7_every_request_is_answered_once
           (scripted_world [child_encrypts; child_measures] payload_table accepting)
           (Transform Encrypt (request_with "correct-horse" staged_cat))
           (on_disk_state [file_path staged_cat]) eq_refl).
Defined.

Lemma X8_witness :
  let w := scripted_world [child_encrypts; child_measures] payload_table accepting in
  let req := request_with "correct-horse" staged_cat in
  let st := on_disk_state [file_path staged_cat] in
  encrypting Encrypt = true
  /\ mem (file_path staged_cat) (fs st) = true
  /\ mem (file_path staged_cat) (fs (exec_state (pipeline w Encrypt req) st)) = true.
Proof.
  cbv zeta. split; [reflexivity|].
  assert (Hthere : mem (file_path staged_cat)
                       (fs (on_disk_state [file_path staged_cat])) = true)
    by (vm_compute; reflexivity).
  split; [exact Hthere|].
  exact (proj1 (proj2 (X8_encrypting_routes_never_delete
                         (scripted_world [child_encrypts; child_measures]
                                         payload_table accepting)
                         Encrypt (request_with "correct-horse" staged_cat)
                         (on_disk_state [file_path staged_cat]) eq_refl))
               (file_path staged_cat) Hthere).
Defined.

Lemma X10_witness :
  let w := scripted_world [child_prints_null] more_payloads accepting in
  let req := request_with "correct-horse" staged_cat in
  let st := on_disk_state [file_path staged_cat] in
  validated Encrypt req
  /\ settle w (child w (spawned st)) = Return JNull
  /\ reports_success (settle w (child w (spawned st))) = false
  /\ exists command,
       transformation_command w Encrypt req = Some command
       /\ trace (exec_state (pipeline w Encrypt req) st)
          = [EvExec command exec_options;
             EvRespond 500
               (error_body
                  (JStr "Cannot read properties of null (reading 'success')"))]
       /\ db (exec_state (pipeline w Encrypt req) st) = [].
Proof.
  cbv zeta. split; [exact validated_cat_encrypt|]. split; [reflexivity|].
  split; [reflexivity|].
  destruct (X10_failed_transformation_ends_the_encrypting_request
              (scripted_world [child_prints_null] more_payloads accepting)
              Encrypt (request_with "correct-horse" staged_cat)
              (on_disk_state [file_path staged_cat])
              eq_refl validated_cat_encrypt eq_refl)
    as (command & answer & Htr & Hcommand & Hdb & _ & _ & Hnull & _).
  exists command. split; [exact Hcommand|].
  rewrite (Hnull JNull "Cannot read properties of null (reading 'success')"
             eq_refl eq_refl) in Htr.
  split; [exact Htr | exact Hdb].
Defined.


Lemma X17_witness :
  let w := scripted_world [child_refuses] more_payloads accepting in
  let req := request_with "wrong-horse" staged_cat in
  let st := on_disk_state [file_path staged_cat] in
  let st' := exec_state (pipeline w Decrypt req) st in
  key_given req
  /\ settle w (child w (spawned st)) = Return refused_payload
  /\ property refused_payload "success" = Return (JBool false)
  /\ exists command,
       trace st'
       = [EvExec command exec_options;
          EvUnlink (file_path staged_cat);
          EvRespond 500 (JObj [("error", JStr "Invalid padding");
                               ("hint", JStr wrong_key_hint)])]
       /\ mem (file_path staged_cat) (fs st') = false.
Proof.
  cbv zeta.
  assert (Hkey : key_given (request_with "wrong-horse" staged_cat))
    by (apply key_given_cat; discriminate).
  split; [exact Hkey|]. split; [reflexivity|]. split; [reflexivity|].
  destruct (X17_reported_decrypt_failure_deletes_the_upload_then_hints
              (scripted_world [child_refuses] more_payloads accepting)
              Decrypt (request_with "wrong-horse" staged_cat)
              (on_disk_state [file_path staged_cat]) staged_cat
              refused_payload (JBool false)
              eq_refl eq_refl Hkey eq_refl eq_refl eq_refl)
    as (command & error & Herr & Htr & Hgone & _).
  change (Return (JStr "Invalid padding") = Return error) in Herr.
  injection Herr as <-.
  exists command. split; [exact Htr | exact Hgone].
Defined.

Lemma X18_witness :
  let w := scripted_world [child_decrypts] payload_table accepting in
  let req := request_with "correct-horse" staged_cat in
  let st := on_disk_state [file_path staged_cat] in
  let st' := exec_state (pipeline w Decrypt req) st in
  key_given req
  /\ settle w (child w (spawned st)) = Return decrypted_payload
  /\ mem "/app/uploads/decrypted/cat.png"
         (fs st ++ exec_files (child w (spawned st))) = true
  /\ exists command unlinks,
       trace st'
       = EvExec command exec_options
         :: EvDownload (JStr "/app/uploads/decrypted/cat.png")
                       (JStr "decrypted_image.png")
         :: unlinks
       /\ mem (file_path staged_cat) (fs st') = false
       /\ mem "/app/uploads/decrypted/cat.png" (fs st') = false.
Proof.
  cbv zeta.
  assert (Hkey : key_given (request_with "correct-horse" staged_cat))
    by (apply key_given_cat; discriminate).
  split; [exact Hkey|]. split; [reflexivity|]. split; [reflexivity|].
  destruct (X18_successful_decrypt_sends_then_deletes_both_files
              (scripted_world [child_decrypts] payload_table accepting)
              Decrypt (request_with "correct-horse" staged_cat)
              (on_disk_state [file_path staged_cat]) staged_cat
              decrypted_payload (JBool true) "/app/uploads/decrypted/cat.png"
              eq_refl eq_refl Hkey eq_refl eq_refl eq_refl eq_refl eq_refl)
    as (command & unlinks & Htr & _ & Hin & Hout & _).
  exists command, unlinks. split; [exact Htr|]. split; [exact Hin | exact Hout].
Defined.

Lemma X19_witness :
  let w := scripted_world [child_pretends] payload_table accepting in
  let req := request_with "correct-horse" staged_cat in
  let st := on_disk_state [file_path staged_cat] in
  let st' := exec_state (pipeline w Decrypt req) st in
  key_given req
  /\ settle w (child w (spawned st)) = Return decrypted_payload
  /\ on_disk (JStr "/app/uploads/decrypted/cat.png")
             (fs st ++ exec_files (child w (spawned st))) = false
  /\ exists command,
       trace st'
       = [EvExec command exec_options;
          EvRespond 500 (error_body (JStr "Decrypted file not found"))]
       /\ fs st' = [file_path staged_cat].
Proof.
  cbv zeta.
  assert (Hkey : key_given (request_with "correct-horse" staged_cat))
    by (apply key_given_cat; discriminate).
  split; [exact Hkey|]. split; [reflexivity|]. split; [reflexivity|].
  destruct (X19_decrypt_with_missing_output_is_answered_500
              (scripted_world [child_pretends] payload_table accepting)
              Decrypt (request_with "correct-horse" staged_cat)
              (on_disk_state [file_path staged_cat]) staged_cat
              decrypted_payload (JBool true)
              (JStr "/app/uploads/decrypted/cat.png")
              eq_refl eq_refl Hkey eq_refl eq_refl eq_refl eq_refl eq_refl)
    as (command & Htr & Hfs & _).
  exists command. split; [exact Htr | exact Hfs].
Defined.

Lemma succeeded_cat_encrypt :
  transformation_succeeded
    (scripted_world [child_encrypts; child_measures] payload_table accepting)
    Encrypt (request_with "correct-horse" staged_cat)
    (on_disk_state [file_path staged_cat]).
Proof. split; [exact validated_cat_encrypt|reflexivity]. Qed.

Lemma succeeded_stego_request :
  transformation_succeeded
    (scripted_world [child_hides] more_payloads accepting)
    StegoEncrypt stego_request
    (on_disk_state [file_path staged_cat; file_path staged_beach]).
Proof. split; [exact validated_stego_request|reflexivity]. Qed.

Lemma names_output_cat :
  names_output
    (scripted_world [child_encrypts; child_measures] payload_table accepting)
    Encrypt (on_disk_state [file_path staged_cat])
    "/app/uploads/encrypted/cat.bin".
Proof. exists encrypted_payload. split; reflexivity. Qed.

Lemma names_output_beach :
  names_output
    (scripted_world [child_hides] more_payloads accepting)
    StegoEncrypt (on_disk_state [file_path staged_cat; file_path staged_beach])
    "/app/uploads/stego/beach.png".
Proof. exists hidden_payload. split; reflexivity. Qed.

Lemma fresh_in_empty_store id : fresh_id id [].
Proof. intros x []. Qed.

Lemma X11_witness :
  let w := scripted_world [child_encrypts; child_measures] payload_table accepting in
  let req := request_with "correct-horse" staged_cat in
  let st := on_disk_state [file_path staged_cat] in
  transformation_succeeded w Encrypt req st
  /\ names_output w Encrypt st "/app/uploads/encrypted/cat.bin"
  /\ (forall x, store w (dbops st) (OpSave x) = None)
  /\ exists d,
       db (exec_state (pipeline w Encrypt req) st) = [d]
       /\ doc_get d "originalName" = JStr "cat.png"
       /\ doc_get d "encryptedPath" = JStr "/app/uploads/encrypted/cat.bin"
       /\ doc_get d "chaoticMap" = JStr "tent"
       /\ doc_get d "encryptionType" = JStr "basic".
Proof.
  cbv zeta.
  split; [exact succeeded_cat_encrypt|]. split; [exact names_output_cat|].
  split; [intros x; reflexivity|].
  destruct (X11_record_of_a_successful_encrypting_request
              (scripted_world [child_encrypts; child_measures] payload_table accepting)
              Encrypt (request_with "correct-horse" staged_cat)
              (on_disk_state [file_path staged_cat])
              "/app/uploads/encrypted/cat.bin"
              eq_refl succeeded_cat_encrypt names_output_cat
              (fun x => eq_refl))
    as (d & source & answer & c1 & c2 & Hdb & _ & Hsrc & _ & Hname & Hpath & _
        & _ & _ & Hmap & Htype & _).
  change (Some staged_cat = Some source) in Hsrc. injection Hsrc as <-.
  exists d. repeat split; assumption.
Defined.

Lemma X12_witness :
  let w := scripted_world [child_hides] more_payloads accepting in
  let st := on_disk_state [file_path staged_cat; file_path staged_beach] in
  let st' := exec_state (pipeline w StegoEncrypt stego_request) st in
  transformation_succeeded w StegoEncrypt stego_request st
  /\ names_stego_path w st
  /\ (forall x, store w (dbops st) (OpSave x) = None)
  /\ exists earlier answer PSNR MSE,
       trace st' = earlier ++ [EvRespond 200 answer]
       /\ get_path answer ["metrics"]
          = metrics_object (measured_duration w StegoEncrypt st)
                           default_entropy (JNum 0) (JNum 0) (JNum 0) PSNR MSE.
Proof.
  cbv zeta.
  assert (Hpath : names_stego_path
                    (scripted_world [child_hides] more_payloads accepting)
                    (on_disk_state [file_path staged_cat; file_path staged_beach]))
    by (exists hidden_payload, "/app/uploads/stego/beach.png"; split; reflexivity).
  split; [exact succeeded_stego_request|]. split; [exact Hpath|].
  split; [intros x; reflexivity|].
  destruct (X12_metrics_stay_within_their_category
              (scripted_world [child_hides] more_payloads accepting)
              StegoEncrypt stego_request
              (on_disk_state [file_path staged_cat; file_path staged_beach])
              eq_refl succeeded_stego_request (fun _ => Hpath)
              (fun x => eq_refl))
    as (earlier & answer & e & n & u & c & P & M & Htr & Hm & _ & Hstego).
  destruct (Hstego eq_refl) as (-> & -> & -> & ->).
  exists earlier, answer, P, M. split; [exact Htr | exact Hm].
Defined.

Lemma X13_witness :
  let w := scripted_world [child_hides] more_payloads accepting in
  let st := on_disk_state [file_path staged_cat; file_path staged_beach] in
  let st1 := exec_state (pipeline w StegoEncrypt stego_request) st in
  let st2 := exec_state (get_download_stego w (request_for "id0")) st1 in
  transformation_succeeded w StegoEncrypt stego_request st
  /\ names_output w StegoEncrypt st "/app/uploads/stego/beach.png"
  /\ fresh_id (objectid w (ids st)) (db st)
  /\ params_id (request_for "id0") = objectid w (ids st)
  /\ mem "/app/uploads/stego/beach.png"
         (fs st ++ exec_files (child w (spawned st))) = true
  /\ trace st2
     = trace st1 ++ [EvDownload (JStr "/app/uploads/stego/beach.png")
                                (JStr "stego_image.png")].
Proof.
  cbv zeta.
  split; [exact succeeded_stego_request|]. split; [exact names_output_beach|].
  split; [exact (fresh_in_empty_store _)|]. split; [reflexivity|].
  split; [reflexivity|].
  exact (X13_stego_download_of_a_new_record
           (scripted_world [child_hides] more_payloads accepting)
           StegoEncrypt stego_request (request_for "id0")
           (on_disk_state [file_path staged_cat; file_path staged_beach])
           "/app/uploads/stego/beach.png"
           eq_refl succeeded_stego_request names_output_beach
           (fun x => eq_refl) (fresh_in_empty_store _) eq_refl eq_refl
           (fun _ => eq_refl)).
Defined.

Lemma X14_witness :
  let w := scripted_world [child_hides] more_payloads accepting in
  let st := on_disk_state [file_path staged_cat; file_path staged_beach] in
  let st1 := exec_state (pipeline w StegoEncrypt stego_request) st in
  let st2 := exec_state (delete_image w (request_for "id0")) st1 in
  transformation_succeeded w StegoEncrypt stego_request st
  /\ names_output w StegoEncrypt st "/app/uploads/stego/beach.png"
  /\ fresh_id (objectid w (ids st)) (db st)
  /\ params_id (request_for "id0") = objectid w (ids st)
  /\ db st2 = []
  /\ mem (file_path staged_beach) (fs st2) = true.
Proof.
  cbv zeta.
  split; [exact succeeded_stego_request|]. split; [exact names_output_beach|].
  split; [exact (fresh_in_empty_store _)|]. split; [reflexivity|].
  destruct (X14_delete_releases_the_two_files_of_the_record
              (scripted_world [child_hides] more_payloads accepting)
              StegoEncrypt stego_request (request_for "id0")
              (on_disk_state [file_path staged_cat; file_path staged_beach])
              "/app/uploads/stego/beach.png"
              eq_refl succeeded_stego_request names_output_beach
              (fun x => eq_refl) (fresh_in_empty_store _) eq_refl eq_refl)
    as (source & Hsrc & Hdb & _ & Hcover & _).
  change (Some staged_cat = Some source) in Hsrc. injection Hsrc as <-.
  split; [exact Hdb|].
  apply (Hcover [("secretImage", staged_cat); ("coverImage", staged_beach)]
                staged_beach eq_refl eq_refl).
  - vm_compute. reflexivity.
  - intros H. vm_compute in H. discriminate H.
  - intros H. vm_compute in H. discriminate H.
Defined.

Lemma X20_witness :
  let w := scripted_world [] payload_table accepting in
  exec_error child_encrypts = None
  /\ all_ws "  " = true
  /\ settle w (padded "  " " " child_encrypts) = Return encrypted_payload.
Proof.
  cbv zeta. split; [reflexivity|]. split; [reflexivity|].
  apply (proj1 (X20_invoker_ignores_whitespace_around_the_payload
                  (scripted_world [] payload_table accepting)
                  child_encrypts "  " " " eq_refl eq_refl eq_refl)
               encrypted_payload).
  reflexivity.
Defined.

Lemma X21_witness :
  let w := scripted_world [child_encrypts; child_measures] payload_table accepting in
  let req := request_with "correct-horse" staged_cat in
  let st := on_disk_state [file_path staged_cat] in
  let st1 := exec_state (pipeline w Encrypt req) st in
  let st2 := exec_state (get_download w (request_for "id0")) st1 in
  transformation_succeeded w Encrypt req st
  /\ names_output w Encrypt st "/app/uploads/encrypted/cat.bin"
  /\ fresh_id (objectid w (ids st)) (db st)
  /\ params_id (request_for "id0") = objectid w (ids st)
  /\ mem "/app/uploads/encrypted/cat.bin"
         (fs st ++ exec_files (child w (spawned st))) = true
  /\ exists name,
       trace st2 = trace st1 ++ [EvDownload (JStr "/app/uploads/encrypted/cat.bin")
                                            (JStr (trim name))].
Proof.
  cbv zeta.
  split; [exact succeeded_cat_encrypt|]. split; [exact names_output_cat|].
  split; [exact (fresh_in_empty_store _)|]. split; [reflexivity|].
  split; [reflexivity|].
  destruct (X21_download_of_a_new_record
              (scripted_world [child_encrypts; child_measures] payload_table accepting)
              Encrypt (request_with "correct-horse" staged_cat) (request_for "id0")
              (on_disk_state [file_path staged_cat])
              "/app/uploads/encrypted/cat.bin"
              eq_refl succeeded_cat_encrypt names_output_cat
              (fun x => eq_refl) (fresh_in_empty_store _) eq_refl eq_refl eq_refl)
    as (earlier & answer & name & _ & _ & Htr).
  exists name. exact Htr.
Defined.

